(** * Plugin loader and plugin handlers of the remember@thechief settings UI

    A shallow embedding of [settings_ui/plugin_loader.py] and
    [settings_ui/plugin_handlers.py].

    - Python strings are [string]s: a text is the string of its bytes in
      UTF-8, the encoding of the locale on the systems the applet runs on
      (a [str] with a lone surrogate has no such bytes and is outside the
      model).
      The case-sensitive methods ([title], [lower], the camel-case regular
      expression) are modelled on ASCII text.
    - Values read from JSON are the inductive type [json], with Python's
      truthiness and [==] written out.
    - The file system is a tree of directories and regular files; paths are
      absolute and split into their components (the handlers store
      [os.path.expanduser(path)]).  A directory keeps its entries in the
      order [os.listdir] reports them.  A file holds bytes; reading it as
      text decodes them, which fails on bytes that are not UTF-8, and reads
      each carriage return, with the line feed after it if there is one,
      as a line feed.  Writing stores the bytes of the text, line feeds as
      they are (the platform is Linux).  Permissions are not modelled.
    - Code that raises runs in the monad [M]: a world-passing function whose
      result is a returned value or a raised exception.  Every exception
      class of the model derives from Python's [Exception].
    - [json.load], [json.dump], [subprocess.run] and the home directory are
      the fields of the class [Environment]; what [json.load] gives or
      raises is taken as a function of the bytes of the file.
    - The [dict] of the loader is a finite map; [PluginLoaderInOrder] is the
      loader with the [dict] in insertion order, for the one method whose
      result depends on that order. *)

From Stdlib Require Import String Ascii List ZArith Bool Lia Sorted Permutation.
From stdpp Require Import gmap strings.
Import ListNotations.

Set Default Proof Using "Type".
Set Warnings "-register-all".

(** ** Python string methods *)

Module PyStr.

Definition is_lower (a : ascii) : bool :=
  (97 <=? nat_of_ascii a)%nat && (nat_of_ascii a <=? 122)%nat.

Definition is_upper (a : ascii) : bool :=
  (65 <=? nat_of_ascii a)%nat && (nat_of_ascii a <=? 90)%nat.

Definition to_upper (a : ascii) : ascii :=
  if is_lower a then ascii_of_nat (nat_of_ascii a - 32) else a.

Definition to_lower (a : ascii) : ascii :=
  if is_upper a then ascii_of_nat (nat_of_ascii a + 32) else a.

(** [s.startswith(p)] *)
Definition startswith (s p : string) : bool := String.prefix p s.

(** [p in s] for two strings: [p] occurs in [s] as a substring. *)
Fixpoint contains (p s : string) : bool :=
  String.prefix p s ||
  match s with
  | EmptyString => false
  | String _ s' => contains p s'
  end.

(** [s.replace(old, new)] for a non-empty [old]: occurrences are taken
    from the left and do not overlap.  [skip] counts the characters of the
    occurrence just replaced that are still to be dropped. *)
Fixpoint replace_from (old new : string) (skip : nat) (s : string) : string :=
  match s with
  | EmptyString => EmptyString
  | String a s' =>
      match skip with
      | S k => replace_from old new k s'
      | O =>
          if String.prefix old s
          then new +:+ replace_from old new (String.length old - 1) s'
          else String a (replace_from old new 0 s')
      end
  end.

Definition replace (old new s : string) : string := replace_from old new 0 s.

(** [s.split(sep)] for a one-character separator: always at least one
    piece. *)
Fixpoint split (sep : ascii) (s : string) : list string :=
  match s with
  | EmptyString => [EmptyString]
  | String a s' =>
      if Ascii.eqb a sep then EmptyString :: split sep s'
      else match split sep s' with
           | piece :: rest => String a piece :: rest
           | [] => [String a EmptyString]
           end
  end.

(** [sep.join(l)] *)
Fixpoint join (sep : string) (l : list string) : string :=
  match l with
  | [] => EmptyString
  | x :: l' =>
      match l' with
      | [] => x
      | _ :: _ => x +:+ sep +:+ join sep l'
      end
  end.

(** [s.title()]: a cased character is upper-cased when the character
    before it is not cased, lower-cased otherwise. *)
Fixpoint title_from (previous_is_cased : bool) (s : string) : string :=
  match s with
  | EmptyString => EmptyString
  | String a s' =>
      if is_lower a then
        String (if previous_is_cased then a else to_upper a) (title_from true s')
      else if is_upper a then
        String (if previous_is_cased then to_lower a else a) (title_from true s')
      else String a (title_from false s')
  end.

Definition title (s : string) : string := title_from false s.

(** [re.sub(r'([a-z])([A-Z])', r'\1 \2', s)]: scanning from the left, a
    lower-case letter followed by an upper-case letter is rewritten with a
    space between the two and the scan resumes after the pair. *)
Fixpoint camel_sub (s : string) : string :=
  match s with
  | EmptyString => EmptyString
  | String a s' =>
      match s' with
      | EmptyString => String a EmptyString
      | String b rest =>
          if is_lower a && is_upper b
          then String a (String " " (String b (camel_sub rest)))
          else String a (camel_sub s')
      end
  end.

(** The characters of a string as one-character strings (iterating over a
    [str]). *)
Fixpoint chars (s : string) : list string :=
  match s with
  | EmptyString => []
  | String a s' => String a EmptyString :: chars s'
  end.

(** The line feed. *)
Definition nl : string := String (ascii_of_nat 10) EmptyString.

End PyStr.

(** ** JSON values as Python objects *)

(** A Python [float]: not-a-number, an infinity, or the finite value
    [m * 2^e]. *)
Inductive pyfloat : Type :=
  | FNan
  | FInf (negative : bool)
  | FFin (m e : Z).

(** What [json.load] builds: [None], [bool], [int], [float], [str], [list]
    and [dict].  A [dict] keeps its items in insertion order. *)
Inductive json : Type :=
  | JNull
  | JBool (b : bool)
  | JInt (z : Z)
  | JFloat (f : pyfloat)
  | JStr (s : string)
  | JList (l : list json)
  | JDict (d : list (string * json)).

Module PyDict.

(** [d.get(k)] / [d[k]]: the value stored under [k]. *)
Fixpoint get {V : Type} (k : string) (d : list (string * V)) : option V :=
  match d with
  | [] => None
  | (k', v) :: d' => if String.eqb k k' then Some v else get k d'
  end.

(** [d.get(k, default)] *)
Definition get_default {V : Type} (k : string) (default : V)
    (d : list (string * V)) : V :=
  match get k d with Some v => v | None => default end.

(** [d[k] = v]: an existing key keeps its place, a new key goes last. *)
Fixpoint set {V : Type} (k : string) (v : V) (d : list (string * V))
  : list (string * V) :=
  match d with
  | [] => [(k, v)]
  | (k', v') :: d' =>
      if String.eqb k k' then (k', v) :: d' else (k', v') :: set k v d'
  end.

End PyDict.

Module Json.

(** Truth value of an object ([if x:], [not x]). *)
Definition truthy (j : json) : bool :=
  match j with
  | JNull => false
  | JBool b => b
  | JInt z => negb (z =? 0)%Z
  | JFloat (FFin m _) => negb (m =? 0)%Z
  | JFloat _ => true
  | JStr s => negb (String.eqb s EmptyString)
  | JList l => match l with [] => false | _ :: _ => true end
  | JDict d => match d with [] => false | _ :: _ => true end
  end.

(** [bool], [int] and [float] compare by numeric value. *)
Definition as_number (j : json) : option pyfloat :=
  match j with
  | JBool b => Some (FFin (if b then 1 else 0) 0)
  | JInt z => Some (FFin z 0)
  | JFloat f => Some f
  | _ => None
  end.

Definition float_eq (f g : pyfloat) : bool :=
  match f, g with
  | FFin m1 e1, FFin m2 e2 =>
      let e := Z.min e1 e2 in
      (m1 * 2 ^ (e1 - e) =? m2 * 2 ^ (e2 - e))%Z
  | FInf a, FInf b => Bool.eqb a b
  | _, _ => false
  end.

(** [a == b] *)
Fixpoint py_eq (a b : json) {struct a} : bool :=
  match a, b with
  | JNull, JNull => true
  | JStr s, JStr t => String.eqb s t
  | JList l, JList m =>
      (fix all2 (l m : list json) : bool :=
         match l, m with
         | [], [] => true
         | x :: l', y :: m' => py_eq x y && all2 l' m'
         | _, _ => false
         end) l m
  | JDict d, JDict e =>
      (length d =? length e)%nat &&
      (fix items (d : list (string * json)) : bool :=
         match d with
         | [] => true
         | (k, v) :: d' =>
             match PyDict.get k e with
             | Some v' => py_eq v v'
             | None => false
             end && items d'
         end) d
  | _, _ =>
      match as_number a, as_number b with
      | Some x, Some y => float_eq x y
      | _, _ => false
      end
  end.

End Json.

(** ** Exceptions *)

(** The exception classes the modelled code can meet, each below
    [Exception] in Python's hierarchy ([IOError] is [OSError]). *)
Inductive exc_class : Type :=
  | Exception
  | OSError
  | FileNotFoundError
  | FileExistsError
  | IsADirectoryError
  | NotADirectoryError
  | SubprocessError
  | TimeoutExpired
  | ValueError
  | JSONDecodeError
  | UnicodeError
  | UnicodeDecodeError
  | RuntimeError
  | RecursionError
  | AttributeError
  | TypeError
  | IndexError.

#[global] Instance exc_class_eq_dec : EqDecision exc_class.
Proof. solve_decision. Defined.

(** The class itself followed by its base classes. *)
Definition mro (c : exc_class) : list exc_class :=
  match c with
  | Exception => [Exception]
  | OSError => [OSError; Exception]
  | FileNotFoundError => [FileNotFoundError; OSError; Exception]
  | FileExistsError => [FileExistsError; OSError; Exception]
  | IsADirectoryError => [IsADirectoryError; OSError; Exception]
  | NotADirectoryError => [NotADirectoryError; OSError; Exception]
  | SubprocessError => [SubprocessError; Exception]
  | TimeoutExpired => [TimeoutExpired; SubprocessError; Exception]
  | ValueError => [ValueError; Exception]
  | JSONDecodeError => [JSONDecodeError; ValueError; Exception]
  | UnicodeError => [UnicodeError; ValueError; Exception]
  | UnicodeDecodeError =>
      [UnicodeDecodeError; UnicodeError; ValueError; Exception]
  | RuntimeError => [RuntimeError; Exception]
  | RecursionError => [RecursionError; RuntimeError; Exception]
  | AttributeError => [AttributeError; Exception]
  | TypeError => [TypeError; Exception]
  | IndexError => [IndexError; Exception]
  end.

(** A raised exception; [exn_msg] is [str(e)]. *)
Record exn : Type := Exn { exn_class : exc_class; exn_msg : string }.

(** [isinstance(e, c)] *)
Definition isinstance (e : exn) (c : exc_class) : bool :=
  bool_decide (c ∈ mro (exn_class e)).

(** [except (c1, c2, ...)] catches [e]. *)
Definition caught_by (e : exn) (classes : list exc_class) : bool :=
  existsb (isinstance e) classes.

(** ** The file system *)

Inductive node : Type :=
  | File (content : string)
  | Dir (entries : list (string * node)).

Definition path : Type := list string.

(** The world a call runs in: the entries of the root directory. *)
Definition world : Type := list (string * node).

Module FS.

Definition render (p : path) : string := "/" +:+ PyStr.join "/" p.

Definition os_error (c : exc_class) (what : string) (p : path) : exn :=
  Exn c (what +:+ ": '" +:+ render p +:+ "'").

(** The node a path names, if any. *)
Fixpoint lookup (p : path) (es : list (string * node)) : option node :=
  match p with
  | [] => Some (Dir es)
  | c :: p' =>
      match PyDict.get c es with
      | None => None
      | Some (File s) => match p' with [] => Some (File s) | _ :: _ => None end
      | Some (Dir es') => lookup p' es'
      end
  end.

(** Opening the file at [p] for writing and storing [f old], where [old]
    is the previous content, if the file existed. *)
Fixpoint put_file_at (whole p : path) (f : option string -> string)
    (es : list (string * node)) : exn + list (string * node) :=
  match p with
  | [] => inl (os_error IsADirectoryError "[Errno 21] Is a directory" whole)
  | c :: p' =>
      match p' with
      | [] =>
          match PyDict.get c es with
          | Some (Dir _) =>
              inl (os_error IsADirectoryError "[Errno 21] Is a directory" whole)
          | Some (File s) => inr (PyDict.set c (File (f (Some s))) es)
          | None => inr (PyDict.set c (File (f None)) es)
          end
      | _ :: _ =>
          match PyDict.get c es with
          | Some (Dir es') =>
              match put_file_at whole p' f es' with
              | inl e => inl e
              | inr es'' => inr (PyDict.set c (Dir es'') es)
              end
          | Some (File _) =>
              inl (os_error NotADirectoryError "[Errno 20] Not a directory" whole)
          | None =>
              inl (os_error FileNotFoundError
                     "[Errno 2] No such file or directory" whole)
          end
      end
  end.

Definition put_file (p : path) := put_file_at p p.

(** Creating the directory [p] and the missing directories above it.
    Below a regular file the first [mkdir] fails, and the error names the
    path down to that directory. *)
Fixpoint mkdirs_at (whole p : path) (es : list (string * node))
  : exn + list (string * node) :=
  match p with
  | [] => inr es
  | c :: p' =>
      match PyDict.get c es with
      | Some (File _) =>
          inl (match p' with
               | [] => os_error FileExistsError "[Errno 17] File exists" whole
               | _ :: rest =>
                   os_error NotADirectoryError "[Errno 20] Not a directory"
                     (firstn (length whole - length rest) whole)
               end)
      | Some (Dir es') =>
          match mkdirs_at whole p' es' with
          | inl e => inl e
          | inr es'' => inr (PyDict.set c (Dir es'') es)
          end
      | None =>
          match mkdirs_at whole p' [] with
          | inl e => inl e
          | inr es'' => inr (PyDict.set c (Dir es'') es)
          end
      end
  end.

Definition mkdirs (p : path) := mkdirs_at p p.

End FS.

(** ** The monad of calls *)

Inductive outcome (A : Type) : Type :=
  | Returns (a : A)
  | Raises (e : exn).
Arguments Returns {A} a.
Arguments Raises {A} e.

Definition M (A : Type) : Type := world -> outcome A * world.

Definition ret {A : Type} (a : A) : M A := fun w => (Returns a, w).

Definition raise {A : Type} (e : exn) : M A := fun w => (Raises e, w).

Definition bind {A B : Type} (m : M A) (k : A -> M B) : M B :=
  fun w =>
    match m w with
    | (Returns a, w') => k a w'
    | (Raises e, w') => (Raises e, w')
    end.

(** [try: body except (classes) as e: handler e]; what the body did to the
    world before it raised stays done. *)
Definition try_except {A : Type} (body : M A) (classes : list exc_class)
    (handler : exn -> M A) : M A :=
  fun w =>
    match body w with
    | (Returns a, w') => (Returns a, w')
    | (Raises e, w') =>
        if caught_by e classes then handler e w' else (Raises e, w')
    end.

Declare Scope py_scope.
Delimit Scope py_scope with py.
Bind Scope py_scope with M.
Notation "x <- c ;; k" := (bind c (fun x => k))
  (at level 100, c at next level, right associativity) : py_scope.
Notation "c ;;; k" := (bind c (fun _ => k))
  (at level 100, right associativity) : py_scope.
Open Scope py_scope.

(** [print(...)]: standard output is not part of the modelled world. *)
Definition print (line : string) : M unit := ret tt.

(** ** Reading bytes as text *)

Module Utf8.

(** Where the decoder stands between two bytes: at the start of a
    character, or inside one, with the bytes it still needs.  After the
    lead bytes [E0], [ED], [F0] and [F4] the next byte has a narrower range
    than [80..BF], which keeps out overlong forms, surrogates and code
    points past [10FFFF]. *)
Inductive state : Type :=
  | Start
  | Tail1
  | Tail2
  | Tail3
  | AfterE0
  | AfterED
  | AfterF0
  | AfterF4.

Definition between (lo hi : N) (a : ascii) : bool :=
  (lo <=? N_of_ascii a)%N && (N_of_ascii a <=? hi)%N.

Definition step (q : state) (a : ascii) : option state :=
  match q with
  | Start =>
      if between 0 127 a then Some Start
      else if between 194 223 a then Some Tail1
      else if between 224 224 a then Some AfterE0
      else if between 225 236 a || between 238 239 a then Some Tail2
      else if between 237 237 a then Some AfterED
      else if between 240 240 a then Some AfterF0
      else if between 241 243 a then Some Tail3
      else if between 244 244 a then Some AfterF4
      else None
  | Tail1 => if between 128 191 a then Some Start else None
  | Tail2 => if between 128 191 a then Some Tail1 else None
  | Tail3 => if between 128 191 a then Some Tail2 else None
  | AfterE0 => if between 160 191 a then Some Tail1 else None
  | AfterED => if between 128 159 a then Some Tail1 else None
  | AfterF0 => if between 144 191 a then Some Tail2 else None
  | AfterF4 => if between 128 143 a then Some Tail2 else None
  end.

Fixpoint run (q : state) (s : string) : option state :=
  match s with
  | EmptyString => Some q
  | String a s' =>
      match step q a with
      | Some q' => run q' s'
      | None => None
      end
  end.

(** The bytes decode: they are well-formed UTF-8. *)
Definition valid (s : string) : bool :=
  match run Start s with
  | Some Start => true
  | _ => false
  end.

End Utf8.

Module TextIO.

Definition cr : ascii := ascii_of_nat 13.
Definition lf : ascii := ascii_of_nat 10.

(** The newline translation of a file opened for reading in text mode
    ([newline=None]): a carriage return is read as a line feed, and a line
    feed that comes right after a carriage return is dropped.  [after_cr]
    says that the character before was a carriage return. *)
Fixpoint translate (after_cr : bool) (s : string) : string :=
  match s with
  | EmptyString => EmptyString
  | String a s' =>
      if Ascii.eqb a cr then String lf (translate true s')
      else if Ascii.eqb a lf then
        if after_cr then translate false s'
        else String lf (translate false s')
      else String a (translate false s')
  end.

Definition universal_newlines (s : string) : string := translate false s.

(** Whether the text ends in a carriage return, so that a line feed right
    after it would be dropped; [after_cr] answers for the empty text. *)
Fixpoint pending_cr (after_cr : bool) (s : string) : bool :=
  match s with
  | EmptyString => after_cr
  | String a s' => pending_cr (Ascii.eqb a cr) s'
  end.

(** [f.read()] on a file opened in text mode that holds [content]: the
    text, or [None] where Python raises [UnicodeDecodeError]. *)
Definition read (content : string) : option string :=
  if Utf8.valid content then Some (universal_newlines content) else None.

End TextIO.

(** ** The [os] module and files *)

Module Os.

(** [os.path.join(p, name)] for a plain name. *)
Definition join (p : path) (name : string) : path := p ++ [name].

(** [os.path.dirname(p)] *)
Definition dirname (p : path) : path := removelast p.

(** [os.path.exists(p)] *)
Definition exists_ (p : path) : M bool :=
  fun w => (Returns (match FS.lookup p w with Some _ => true | None => false end), w).

(** [os.path.isdir(p)] *)
Definition isdir (p : path) : M bool :=
  fun w =>
    (Returns (match FS.lookup p w with Some (Dir _) => true | _ => false end), w).

(** [os.listdir(p)] *)
Definition listdir (p : path) : M (list string) :=
  fun w =>
    match FS.lookup p w with
    | Some (Dir es) => (Returns (map fst es), w)
    | Some (File _) =>
        (Raises (FS.os_error NotADirectoryError "[Errno 20] Not a directory" p), w)
    | None =>
        (Raises (FS.os_error FileNotFoundError
                   "[Errno 2] No such file or directory" p), w)
    end.

(** [os.makedirs(p, exist_ok=True)] *)
Definition makedirs (p : path) : M unit :=
  fun w =>
    match FS.mkdirs p w with
    | inl e => (Raises e, w)
    | inr w' => (Returns tt, w')
    end.

(** [open(p, 'r')]: the bytes of the file that is opened. *)
Definition open_read (p : path) : M string :=
  fun w =>
    match FS.lookup p w with
    | Some (File s) => (Returns s, w)
    | Some (Dir _) =>
        (Raises (FS.os_error IsADirectoryError "[Errno 21] Is a directory" p), w)
    | None =>
        (Raises (FS.os_error FileNotFoundError
                   "[Errno 2] No such file or directory" p), w)
    end.

(** [f.read()]; the message of the error is cut short. *)
Definition decode (content : string) : M string :=
  match TextIO.read content with
  | Some text => ret text
  | None =>
      raise (Exn UnicodeDecodeError "'utf-8' codec can't decode bytes")
  end.

(** [with open(p, 'r') as f: f.read()] *)
Definition read_file (p : path) : M string :=
  content <- open_read p ;;
  decode content.

(** [with open(p, 'w') as f: f.write(s)] *)
Definition write_file (p : path) (s : string) : M unit :=
  fun w =>
    match FS.put_file p (fun _ => s) w with
    | inl e => (Raises e, w)
    | inr w' => (Returns tt, w')
    end.

(** [with open(p, 'a') as f: f.write(s)] *)
Definition append_file (p : path) (s : string) : M unit :=
  fun w =>
    match FS.put_file p
            (fun old => match old with Some t => t +:+ s | None => s end) w with
    | inl e => (Raises e, w)
    | inr w' => (Returns tt, w')
    end.

End Os.

(** ** What the code takes from outside the repository *)

(** [subprocess.CompletedProcess] *)
Record CompletedProcess : Type := { returncode : Z }.

Class Environment : Type := {
  (** [json.load(f)] on a file opened in text mode that holds the given
      bytes: the value, or [None] when the call raises. *)
  json_loads : string -> option json;
  (** What [json.load(f)] raises then: [UnicodeDecodeError] for bytes that
      do not decode, [JSONDecodeError] for a text that is not JSON,
      [ValueError] for an integer of too many digits, [RecursionError] for
      a nesting too deep. *)
  json_load_error : string -> exn;
  (** [json.dumps(data, indent=n)] *)
  json_dumps : option nat -> json -> string;
  (** [subprocess.run(cmd, capture_output=True, timeout=t)]: returns the
      completed process, or raises ([TimeoutExpired], [OSError], ...). *)
  subprocess_run : json -> Z -> M CompletedProcess;
  (** [subprocess.Popen(cmd)] *)
  subprocess_Popen : json -> M unit;
  (** [webbrowser.open(target)] *)
  webbrowser_open : json -> M unit;
  (** Running and destroying a [Gtk.MessageDialog] with a secondary text. *)
  message_dialog : string -> M unit;
  (** [GLib.get_home_dir()], which is also what [~] expands to. *)
  home : path;
}.

(** ** plugin_handlers.py *)

(** [with open(p, 'r') as f: json.load(f)] *)
Definition json_load `{Environment} (p : path) : M json :=
  content <- Os.open_read p ;;
  match json_loads content with
  | Some data => ret data
  | None => raise (json_load_error content)
  end.

(** [type(x).__name__] *)
Definition type_name (j : json) : string :=
  match j with
  | JNull => "NoneType"
  | JBool _ => "bool"
  | JInt _ => "int"
  | JFloat _ => "float"
  | JStr _ => "str"
  | JList _ => "list"
  | JDict _ => "dict"
  end.

(** [CheckHandler]: the abstract method [check] and the inherited
    [execute]. *)
Class CheckHandler (H : Type) : Type := check : H -> M bool.

Module CheckHandler.

Definition execute {H : Type} `{CheckHandler H} (self : H)
  : M (bool * option string) :=
  try_except
    (r <- check self ;; ret (r, None))
    [Exception]
    (fun e => ret (false, Some (exn_msg e))).

End CheckHandler.

(** [ConfigureHandler]: the abstract method [configure] and the inherited
    [execute]. *)
Class ConfigureHandler (H : Type) : Type := configure : H -> M bool.

Module ConfigureHandler.

Definition execute {H : Type} `{ConfigureHandler H} (self : H)
  : M (bool * option string) :=
  try_except
    (r <- configure self ;; ret (r, None))
    [Exception]
    (fun e => ret (false, Some (exn_msg e))).

End ConfigureHandler.

Module JsonKeyCheckHandler.

Record t : Type := { path_ : path; key : string; value : json }.

(** The [for k in keys] loop: [None] is the early [return False]. *)
Fixpoint navigate (keys : list string) (current : json) : option json :=
  match keys with
  | [] => Some current
  | k :: keys' =>
      match current with
      | JDict d =>
          match PyDict.get k d with
          | Some v => navigate keys' v
          | None => None
          end
      | _ => None
      end
  end.

Definition check_ `{Environment} (self : t) : M bool :=
  present <- Os.exists_ (path_ self) ;;
  if negb present then ret false
  else
    try_except
      (data <- json_load (path_ self) ;;
       let keys := PyStr.split "." (key self) in
       match navigate keys data with
       | None => ret false
       | Some current => ret (Json.py_eq current (value self))
       end)
      [JSONDecodeError; OSError]
      (fun _ => ret false).

#[global] Instance handler `{Environment} : CheckHandler t := check_.

End JsonKeyCheckHandler.

Module FileContainsCheckHandler.

Record t : Type := { path_ : path; pattern : string }.

Definition check_ (self : t) : M bool :=
  present <- Os.exists_ (path_ self) ;;
  if negb present then ret false
  else
    try_except
      (content <- Os.read_file (path_ self) ;;
       ret (PyStr.contains (pattern self) content))
      [OSError]
      (fun _ => ret false).

#[global] Instance handler : CheckHandler t := check_.

End FileContainsCheckHandler.

Module FileExistsCheckHandler.

Record t : Type := { path_ : path }.

Definition check_ (self : t) : M bool := Os.exists_ (path_ self).

#[global] Instance handler : CheckHandler t := check_.

End FileExistsCheckHandler.

Module CommandCheckHandler.

Record t : Type := { cmd : json }.

Definition check_ `{Environment} (self : t) : M bool :=
  try_except
    (result <- subprocess_run (cmd self) 10 ;;
     ret (returncode result =? 0)%Z)
    [TimeoutExpired; OSError]
    (fun _ => ret false).

#[global] Instance handler `{Environment} : CheckHandler t := check_.

End CommandCheckHandler.

Module AlwaysTrueCheckHandler.

Record t : Type := { }.

Definition check_ (self : t) : M bool := ret true.

#[global] Instance handler : CheckHandler t := check_.

End AlwaysTrueCheckHandler.

Module FirefoxProfileCheckHandler.

Record t : Type := { pattern : string; profile_dir : path }.

(** [__init__] *)
Definition init `{Environment} (pattern : string) : t :=
  {| pattern := pattern; profile_dir := home ++ [".mozilla"; "firefox"] |}.

(** [for filename in ...]: [true] is the [return True]. *)
Fixpoint for_filenames (self : t) (item : string) (filenames : list string)
  : M bool :=
  match filenames with
  | [] => ret false
  | filename :: rest =>
      let filepath := Os.join (Os.join (profile_dir self) item) filename in
      present <- Os.exists_ filepath ;;
      if present then
        content <- Os.read_file filepath ;;
        if PyStr.contains (pattern self) content then ret true
        else for_filenames self item rest
      else for_filenames self item rest
  end.

(** [for item in os.listdir(self.profile_dir)] *)
Fixpoint for_items (self : t) (items : list string) : M bool :=
  match items with
  | [] => ret false
  | item :: rest =>
      if negb (PyStr.contains ".default" item) then for_items self rest
      else
        found <- for_filenames self item ["user.js"; "prefs.js"] ;;
        if found then ret true else for_items self rest
  end.

Definition check_ (self : t) : M bool :=
  present <- Os.exists_ (profile_dir self) ;;
  if negb present then ret false
  else
    try_except
      (items <- Os.listdir (profile_dir self) ;; for_items self items)
      [OSError]
      (fun _ => ret false).

#[global] Instance handler : CheckHandler t := check_.

End FirefoxProfileCheckHandler.

Module JsonSetConfigureHandler.

Record t : Type := { path_ : path; key : string; value : json }.

(** [current[k] = v]: only a [dict] takes a string key. *)
Definition setitem (current : json) (k : string) (v : json) : exn + json :=
  match current with
  | JDict d => inr (JDict (PyDict.set k v d))
  | JList _ =>
      inl (Exn TypeError "list indices must be integers or slices, not str")
  | _ =>
      inl (Exn TypeError
             ("'" +:+ type_name current +:+
              "' object does not support item assignment"))
  end.

(** The navigation loop and the final assignment, on the object [current]
    that the loop variable names; the result is that object after the
    in-place updates.
    [for k in keys[:-1]: if k not in current: current[k] = {}]
    [                    current = current[k]]
    [current[keys[-1]] = self.value]
    Whatever [k not in current] answers on an object that is not a [dict],
    the statement after it raises [TypeError]. *)
Fixpoint set_path (keys : list string) (v : json) (current : json)
  : exn + json :=
  match keys with
  | [] => inr current
  | k :: keys' =>
      match keys' with
      | [] => setitem current k v
      | _ :: _ =>
          match current with
          | JDict d =>
              let child :=
                match PyDict.get k d with
                | Some c => c
                | None => JDict []
                end in
              match set_path keys' v child with
              | inl e => inl e
              | inr child' => inr (JDict (PyDict.set k child' d))
              end
          | JNull | JBool _ | JInt _ | JFloat _ =>
              inl (Exn TypeError
                     ("argument of type '" +:+ type_name current +:+
                      "' is not iterable"))
          | JList _ =>
              inl (Exn TypeError
                     "list indices must be integers or slices, not str")
          | JStr s =>
              inl (Exn TypeError
                     (if PyStr.contains k s
                      then "string indices must be integers, not 'str'"
                      else "'str' object does not support item assignment"))
          end
      end
  end.

Definition configure_ `{Environment} (self : t) : M bool :=
  Os.makedirs (Os.dirname (path_ self)) ;;;
  present <- Os.exists_ (path_ self) ;;
  data <- (if present
           then try_except (json_load (path_ self))
                  [JSONDecodeError; OSError]
                  (fun _ => ret (JDict []))
           else ret (JDict [])) ;;
  let keys := PyStr.split "." (key self) in
  match set_path keys (value self) data with
  | inl e => raise e
  | inr data' =>
      Os.write_file (path_ self) (json_dumps (Some 2%nat) data') ;;;
      ret true
  end.

#[global] Instance handler `{Environment} : ConfigureHandler t := configure_.

End JsonSetConfigureHandler.

Module FileAppendConfigureHandler.

Record t : Type :=
  { path_ : path; content : string; check_pattern : option string }.

(** [if self.check_pattern:] holds for a string that is not empty. *)
Definition pattern_given (self : t) : option string :=
  match check_pattern self with
  | Some p => if String.eqb p EmptyString then None else Some p
  | None => None
  end.

Definition configure_ (self : t) : M bool :=
  Os.makedirs (Os.dirname (path_ self)) ;;;
  already <-
    match pattern_given self with
    | Some p =>
        present <- Os.exists_ (path_ self) ;;
        if present then
          text <- Os.read_file (path_ self) ;;
          ret (PyStr.contains p text)
        else ret false
    | None => ret false
    end ;;
  if already then ret true
  else
    Os.append_file (path_ self) (content self) ;;;
    ret true.

#[global] Instance handler : ConfigureHandler t := configure_.

End FileAppendConfigureHandler.

Module CommandConfigureHandler.

Record t : Type := { cmd : json }.

Definition configure_ `{Environment} (self : t) : M bool :=
  try_except
    (result <- subprocess_run (cmd self) 30 ;;
     ret (returncode result =? 0)%Z)
    [TimeoutExpired; OSError]
    (fun _ => ret false).

#[global] Instance handler `{Environment} : ConfigureHandler t := configure_.

End CommandConfigureHandler.

Module ManualConfigureHandler.

(** [parent] is whether a parent window was given. *)
Record t : Type := { message : string; parent : bool }.

Definition configure_ `{Environment} (self : t) : M bool :=
  (if parent self then message_dialog (message self) else ret tt) ;;;
  ret true.

#[global] Instance handler `{Environment} : ConfigureHandler t := configure_.

End ManualConfigureHandler.

Module FirefoxConfigureHandler.

Record t : Type :=
  { pref_line : string; check_pattern : string; profile_dir : path }.

(** [__init__] *)
Definition init `{Environment} (pref_line check_pattern : string) : t :=
  {| pref_line := pref_line;
     check_pattern := check_pattern;
     profile_dir := home ++ [".mozilla"; "firefox"] |}.

(** The two [f.write] calls of the append. *)
Definition appended (self : t) : string :=
  (PyStr.nl +:+ "// Added by Window Position Remember" +:+ PyStr.nl)
  +:+ (pref_line self +:+ PyStr.nl).

(** [for item in os.listdir(self.profile_dir)]; the result is what
    [configure] returns: [True] from inside the loop, or [configured]. *)
Fixpoint for_items (self : t) (items : list string) : M bool :=
  match items with
  | [] => ret false
  | item :: rest =>
      if negb (PyStr.contains ".default" item) then for_items self rest
      else
        let user_js_path := Os.join (Os.join (profile_dir self) item) "user.js" in
        present <- Os.exists_ user_js_path ;;
        already <-
          (if present then
             text <- Os.read_file user_js_path ;;
             ret (PyStr.contains (check_pattern self) text)
           else ret false) ;;
        if already then ret true
        else
          Os.append_file user_js_path (appended self) ;;;
          ret true
  end.

Definition configure_ (self : t) : M bool :=
  present <- Os.exists_ (profile_dir self) ;;
  if negb present then ret false
  else
    items <- Os.listdir (profile_dir self) ;;
    for_items self items.

#[global] Instance handler : ConfigureHandler t := configure_.

End FirefoxConfigureHandler.

Module OpenSettingsHandler.

Record t : Type := { type : string; target : json }.

Definition configure_ `{Environment} (self : t) : M bool :=
  if String.eqb (type self) "url" then
    webbrowser_open (target self) ;;; ret true
  else if String.eqb (type self) "command" then
    let cmd :=
      match target self with
      | JList _ => target self
      | other => JList [other]
      end in
    try_except
      (subprocess_Popen cmd ;;; ret true)
      [OSError]
      (fun _ => ret false)
  else ret false.

#[global] Instance handler `{Environment} : ConfigureHandler t := configure_.

End OpenSettingsHandler.

(** ** plugin_loader.py *)

Module PluginSetting.

Record t : Type := {
  key : string;
  type : json;
  label : json;
  description : json;
  check : json;
  configure : json;
  unconfigure : json;
  open_settings : json;
  options : json;
  default : json;
}.

End PluginSetting.

Module PluginConfig.

(** The fields filled from the descriptor hold whatever JSON value the
    descriptor gives; [name] is a [str] in every record that is built. *)
Record t : Type := {
  name : string;
  display_name : json;
  description : json;
  version : json;
  wm_class : json;
  plugin_type : json;
  executables : json;
  flags : json;
  conditional_flags : json;
  is_single_instance : json;
  auto_restore : json;
  needs_config_manipulation : json;
  needs_title_parsing : json;
  settings : gmap string PluginSetting.t;
  plugin_path : path;
}.

End PluginConfig.

Module PluginLoader.

Record t : Type := {
  _plugins : gmap string PluginConfig.t;
  _loaded : bool;
}.

(** [__init__] *)
Definition init : t := {| _plugins := ∅; _loaded := false |}.

Definition no_attribute (j : json) (attr : string) : exn :=
  Exn AttributeError
    ("'" +:+ type_name j +:+ "' object has no attribute '" +:+ attr +:+ "'").

(** [obj.get(k, default)]: only a [dict] has [get]. *)
Definition py_get (obj : json) (k : string) (default : json) : M json :=
  match obj with
  | JDict d => ret (PyDict.get_default k default d)
  | _ => raise (no_attribute obj "get")
  end.

(** [obj.items()] *)
Definition py_items (obj : json) : M (list (string * json)) :=
  match obj with
  | JDict d => ret d
  | _ => raise (no_attribute obj "items")
  end.

(** [' '.join(flags)]: the iterable must yield strings. *)
Definition join_flags (flags : json) : M string :=
  match flags with
  | JStr s => ret (PyStr.join " " (PyStr.chars s))
  | JDict d => ret (PyStr.join " " (map fst d))
  | JList l =>
      match
        foldr (fun x acc =>
                 match x, acc with
                 | JStr s, Some ss => Some (s :: ss)
                 | _, _ => None
                 end) (Some []) l
      with
      | Some ss => ret (PyStr.join " " ss)
      | None => raise (Exn TypeError "sequence item: expected str instance")
      end
  | _ =>
      raise (Exn TypeError "can only join an iterable")
  end.

Section WithEnvironment.
Context `{Environment}.

Definition EXTENSION_PLUGIN_PATH : path :=
  home ++ [".local"; "share"; "cinnamon"; "extensions";
           "remember@thechief"; "plugins"].

Definition USER_PLUGIN_PATH : path :=
  home ++ [".config"; "remember@thechief"; "plugins"].

Definition get_plugin_directories : M (list path) :=
  ext <- Os.isdir EXTENSION_PLUGIN_PATH ;;
  let dirs := if ext then [EXTENSION_PLUGIN_PATH] else [] in
  usr <- Os.isdir USER_PLUGIN_PATH ;;
  ret (if usr then dirs ++ [USER_PLUGIN_PATH] else dirs).

Definition _parse_setting (key : string) (data : json) : M PluginSetting.t :=
  type <- py_get data "type" (JStr "boolean") ;;
  label <- py_get data "label" (JStr key) ;;
  description <- py_get data "description" (JStr "") ;;
  check <- py_get data "check" JNull ;;
  configure <- py_get data "configure" JNull ;;
  unconfigure <- py_get data "unconfigure" JNull ;;
  open_settings <- py_get data "openSettings" JNull ;;
  options <- py_get data "options" JNull ;;
  default <- py_get data "default" JNull ;;
  ret {| PluginSetting.key := key;
         PluginSetting.type := type;
         PluginSetting.label := label;
         PluginSetting.description := description;
         PluginSetting.check := check;
         PluginSetting.configure := configure;
         PluginSetting.unconfigure := unconfigure;
         PluginSetting.open_settings := open_settings;
         PluginSetting.options := options;
         PluginSetting.default := default |}.

Definition _generate_flag_label (flag_key : string) : string :=
  let words := PyStr.camel_sub flag_key in
  PyStr.title words.

(** [for key, setting_data in settings_data.items()] *)
Fixpoint parse_settings (items : list (string * json))
    (settings : gmap string PluginSetting.t)
  : M (gmap string PluginSetting.t) :=
  match items with
  | [] => ret settings
  | (key, setting_data) :: rest =>
      setting <- _parse_setting key setting_data ;;
      parse_settings rest (<[key := setting]> settings)
  end.

(** The setting that stands for a launch flag. *)
Definition launch_flag_setting (setting_key joined : string)
  : PluginSetting.t :=
  {| PluginSetting.key := setting_key;
     PluginSetting.type := JStr "launch_flag";
     PluginSetting.label := JStr (_generate_flag_label setting_key);
     PluginSetting.description := JStr ("Use flags: " +:+ joined);
     PluginSetting.check := JNull;
     PluginSetting.configure := JNull;
     PluginSetting.unconfigure := JNull;
     PluginSetting.open_settings := JNull;
     PluginSetting.options := JNull;
     PluginSetting.default := JBool true |}.

(** [for flag_key, flags in conditional_flags.items()] *)
Fixpoint generate_flag_settings (items : list (string * json))
    (settings : gmap string PluginSetting.t)
  : M (gmap string PluginSetting.t) :=
  match items with
  | [] => ret settings
  | (flag_key, flags) :: rest =>
      if PyStr.startswith flag_key "launchFlags." then
        let setting_key := PyStr.replace "launchFlags." "" flag_key in
        match settings !! setting_key with
        | None =>
            joined <- join_flags flags ;;
            generate_flag_settings rest
              (<[setting_key := launch_flag_setting setting_key joined]>
                 settings)
        | Some _ => generate_flag_settings rest settings
        end
      else generate_flag_settings rest settings
  end.

(** The part of [_load_plugin_config] after the descriptor is read. *)
Definition build_config (data : json) (plugin_path : path)
  : M (option PluginConfig.t) :=
  name <- py_get data "name" (JStr "") ;;
  if negb (Json.truthy name) then ret None
  else
    match name with
    | JStr name_str =>
        display_name <-
          py_get data "displayName"
            (JStr (PyStr.title (PyStr.replace "-" " " name_str))) ;;
        launch <- py_get data "launch" (JDict []) ;;
        conditional_flags <- py_get launch "conditionalFlags" (JDict []) ;;
        features <- py_get data "features" (JDict []) ;;
        settings_data <- py_get data "settings" (JDict []) ;;
        setting_items <- py_items settings_data ;;
        settings <- parse_settings setting_items ∅ ;;
        flag_items <- py_items conditional_flags ;;
        settings <- generate_flag_settings flag_items settings ;;
        description <- py_get data "description" (JStr "") ;;
        version <- py_get data "version" (JStr "1.0.0") ;;
        wm_class <- py_get data "wmClass" (JList []) ;;
        plugin_type <- py_get data "type" (JStr "") ;;
        executables <- py_get launch "executables" (JList []) ;;
        flags <- py_get launch "flags" (JList []) ;;
        is_single_instance <- py_get features "isSingleInstance" (JBool false) ;;
        auto_restore <- py_get features "autoRestore" (JBool false) ;;
        needs_config_manipulation <-
          py_get features "needsConfigManipulation" (JBool false) ;;
        needs_title_parsing <-
          py_get features "needsTitleParsing" (JBool false) ;;
        ret (Some
               {| PluginConfig.name := name_str;
                  PluginConfig.display_name := display_name;
                  PluginConfig.description := description;
                  PluginConfig.version := version;
                  PluginConfig.wm_class := wm_class;
                  PluginConfig.plugin_type := plugin_type;
                  PluginConfig.executables := executables;
                  PluginConfig.flags := flags;
                  PluginConfig.conditional_flags := conditional_flags;
                  PluginConfig.is_single_instance := is_single_instance;
                  PluginConfig.auto_restore := auto_restore;
                  PluginConfig.needs_config_manipulation :=
                    needs_config_manipulation;
                  PluginConfig.needs_title_parsing := needs_title_parsing;
                  PluginConfig.settings := settings;
                  PluginConfig.plugin_path := plugin_path |})
    | _ => raise (no_attribute name "replace")
    end.

Definition _load_plugin_config (config_file plugin_path : path)
  : M (option PluginConfig.t) :=
  read <-
    try_except
      (data <- json_load config_file ;; ret (Some data))
      [JSONDecodeError; OSError]
      (fun e =>
         print ("Error reading " +:+ FS.render config_file +:+ ": "
                +:+ exn_msg e) ;;;
         ret None) ;;
  match read with
  | None => ret None
  | Some data => build_config data plugin_path
  end.

(** [for item in os.listdir(base_dir)]: the body of the loop.  The
    assignment to [self._plugins] is the last statement of the inner
    [try], so whatever the body raises leaves [self] as it was. *)
Definition scan_item (base_dir : path) (item : string) (self : t) : M t :=
  let plugin_path := Os.join base_dir item in
  let config_file := Os.join plugin_path "config.json" in
  is_dir <- Os.isdir plugin_path ;;
  has_config <- (if is_dir then Os.exists_ config_file else ret false) ;;
  if has_config then
    try_except
      (config <- _load_plugin_config config_file plugin_path ;;
       match config with
       | Some config =>
           ret {| _plugins := <[PluginConfig.name config := config]> (_plugins self);
                  _loaded := _loaded self |}
       | None => ret self
       end)
      [Exception]
      (fun e =>
         print ("Error loading plugin " +:+ item +:+ ": " +:+ exn_msg e) ;;;
         ret self)
  else ret self.

Fixpoint scan_items (base_dir : path) (items : list string) (self : t)
  : M t :=
  match items with
  | [] => ret self
  | item :: rest =>
      self' <- scan_item base_dir item self ;;
      scan_items base_dir rest self'
  end.

(** The loop never raises (lemma [scan_items_returns]), so the handler
    of the outer [try] only runs when [os.listdir] failed, before any
    update of [self]. *)
Definition _scan_plugin_directory (self : t) (base_dir : path) : M t :=
  try_except
    (items <- Os.listdir base_dir ;; scan_items base_dir items self)
    [Exception]
    (fun e =>
       print ("Error scanning plugin directory " +:+ FS.render base_dir
              +:+ ": " +:+ exn_msg e) ;;;
       ret self).

(** [for plugin_dir in self.get_plugin_directories()] *)
Fixpoint scan_directories (dirs : list path) (self : t) : M t :=
  match dirs with
  | [] => ret self
  | plugin_dir :: rest =>
      self' <- _scan_plugin_directory self plugin_dir ;;
      scan_directories rest self'
  end.

(** The methods return their result and the loader as they leave it. *)
Definition load_all (self : t) : M (gmap string PluginConfig.t * t) :=
  if _loaded self then ret (_plugins self, self)
  else
    let self := {| _plugins := ∅; _loaded := _loaded self |} in
    dirs <- get_plugin_directories ;;
    self <- scan_directories dirs self ;;
    let self := {| _plugins := _plugins self; _loaded := true |} in
    ret (_plugins self, self).

Definition reload (self : t) : M (gmap string PluginConfig.t * t) :=
  let self := {| _plugins := _plugins self; _loaded := false |} in
  let self := {| _plugins := ∅; _loaded := _loaded self |} in
  load_all self.

Definition get_all_plugins (self : t) : M (gmap string PluginConfig.t * t) :=
  r <- load_all self ;;
  let self := snd r in
  ret (_plugins self, self).

Definition get_plugin (self : t) (name : string)
  : M (option PluginConfig.t * t) :=
  r <- load_all self ;;
  let self := snd r in
  ret (_plugins self !! name, self).

(** [config.settings or config.conditional_flags] as a condition: the
    settings are a [dict], true when it is not empty. *)
Definition has_settings (config : PluginConfig.t) : bool :=
  negb (bool_decide (PluginConfig.settings config = ∅))
  || Json.truthy (PluginConfig.conditional_flags config).

Definition get_plugins_with_settings (self : t)
  : M (gmap string PluginConfig.t * t) :=
  r <- load_all self ;;
  let self := snd r in
  ret (filter (fun item => has_settings (snd item) = true) (_plugins self), self).

Definition get_plugins_by_type (self : t) (plugin_type : string)
  : M (gmap string PluginConfig.t * t) :=
  r <- load_all self ;;
  let self := snd r in
  ret (filter
         (fun item =>
            Json.py_eq (PluginConfig.plugin_type (snd item)) (JStr plugin_type)
            = true)
         (_plugins self), self).

End WithEnvironment.

End PluginLoader.

(** ** plugin_loader.py: the sorted listing

    [get_sorted_plugins] sorts [self._plugins.values()], and Python's sort is
    stable: records with the same key come out in the insertion order of the
    [dict].  The map of [PluginLoader] does not keep that order, so this
    method is modelled on a loader whose [_plugins] is the [dict] with its
    order; lemma [plugins_in_order_agree] relates the two. *)

(** [s.lower()] *)
Fixpoint str_lower (s : string) : string :=
  match s with
  | EmptyString => EmptyString
  | String a s' => String (PyStr.to_lower a) (str_lower s')
  end.

(** [sorted(l, key=...)] on items paired with their keys, which are
    [str]: the order by [<] on the keys that keeps items with equal keys
    in the order they came in. *)
Fixpoint insert_by_key {A : Type} (x : string * A) (l : list (string * A))
  : list (string * A) :=
  match l with
  | [] => [x]
  | y :: l' =>
      if String.ltb (fst y) (fst x) then y :: insert_by_key x l'
      else x :: y :: l'
  end.

Definition sorted_by_key {A : Type} (l : list (string * A))
  : list (string * A) :=
  List.fold_right insert_by_key [] l.

(** The loader with [_plugins] as Python keeps it, in insertion order: the
    order in which [values()] gives the records. *)
Module PluginLoaderInOrder.

Record t : Type := {
  _plugins : list (string * PluginConfig.t);
  _loaded : bool;
}.

Definition init : t := {| _plugins := []; _loaded := false |}.

Section WithEnvironment.
Context `{Environment}.

Definition scan_item (base_dir : path) (item : string) (self : t) : M t :=
  let plugin_path := Os.join base_dir item in
  let config_file := Os.join plugin_path "config.json" in
  is_dir <- Os.isdir plugin_path ;;
  has_config <- (if is_dir then Os.exists_ config_file else ret false) ;;
  if has_config then
    try_except
      (config <- PluginLoader._load_plugin_config config_file plugin_path ;;
       match config with
       | Some config =>
           ret {| _plugins :=
                    PyDict.set (PluginConfig.name config) config (_plugins self);
                  _loaded := _loaded self |}
       | None => ret self
       end)
      [Exception]
      (fun e =>
         print ("Error loading plugin " +:+ item +:+ ": " +:+ exn_msg e) ;;;
         ret self)
  else ret self.

Fixpoint scan_items (base_dir : path) (items : list string) (self : t)
  : M t :=
  match items with
  | [] => ret self
  | item :: rest =>
      self' <- scan_item base_dir item self ;;
      scan_items base_dir rest self'
  end.

Definition _scan_plugin_directory (self : t) (base_dir : path) : M t :=
  try_except
    (items <- Os.listdir base_dir ;; scan_items base_dir items self)
    [Exception]
    (fun e =>
       print ("Error scanning plugin directory " +:+ FS.render base_dir
              +:+ ": " +:+ exn_msg e) ;;;
       ret self).

Fixpoint scan_directories (dirs : list path) (self : t) : M t :=
  match dirs with
  | [] => ret self
  | plugin_dir :: rest =>
      self' <- _scan_plugin_directory self plugin_dir ;;
      scan_directories rest self'
  end.

Definition load_all (self : t) : M (list (string * PluginConfig.t) * t) :=
  if _loaded self then ret (_plugins self, self)
  else
    let self := {| _plugins := []; _loaded := _loaded self |} in
    dirs <- PluginLoader.get_plugin_directories ;;
    self <- scan_directories dirs self ;;
    let self := {| _plugins := _plugins self; _loaded := true |} in
    ret (_plugins self, self).

(** [p.display_name.lower()]: only a [str] has [lower]. *)
Definition sort_key (p : PluginConfig.t) : M string :=
  match PluginConfig.display_name p with
  | JStr s => ret (str_lower s)
  | other => raise (PluginLoader.no_attribute other "lower")
  end.

(** [sorted] calls the key function once for each item, in order, before
    it compares. *)
Fixpoint with_keys (l : list PluginConfig.t)
  : M (list (string * PluginConfig.t)) :=
  match l with
  | [] => ret []
  | p :: l' =>
      k <- sort_key p ;;
      rest <- with_keys l' ;;
      ret ((k, p) :: rest)
  end.

Definition get_sorted_plugins (self : t) : M (list PluginConfig.t * t) :=
  r <- load_all self ;;
  let self := snd r in
  keyed <- with_keys (map snd (_plugins self)) ;;
  ret (map snd (sorted_by_key keyed), self).

End WithEnvironment.

End PluginLoaderInOrder.

(** ** plugin_handlers.py: the factory of open-settings handlers

    [config] is a handler description as a descriptor gives it, any JSON
    value or [None].  The other two methods of the factory build handlers
    from path texts, which the model does not have. *)

Module HandlerFactory.

(** [create_open_settings_handler]; [None] is Python's [None]. *)
Definition create_open_settings_handler (config : json)
  : M (option OpenSettingsHandler.t) :=
  if negb (Json.truthy config) then ret None
  else
    handler_type <- PluginLoader.py_get config "type" JNull ;;
    if Json.py_eq handler_type (JStr "url") then
      target <- PluginLoader.py_get config "url" (JStr "") ;;
      ret (Some {| OpenSettingsHandler.type := "url";
                   OpenSettingsHandler.target := target |})
    else if Json.py_eq handler_type (JStr "command") then
      target <- PluginLoader.py_get config "cmd" (JList []) ;;
      ret (Some {| OpenSettingsHandler.type := "command";
                   OpenSettingsHandler.target := target |})
    else ret None.

End HandlerFactory.


(** ** Notions the statements use *)

(** Every segment of the key path resolves through nested mappings, from
    [data] down to [leaf]: each segment is a key of the mapping reached so
    far. *)
Inductive resolves : list string -> json -> json -> Prop :=
  | resolves_here (data : json) : resolves [] data data
  | resolves_below (k : string) (keys : list string)
      (d : list (string * json)) (v leaf : json) :
      PyDict.get k d = Some v ->
      resolves keys v leaf ->
      resolves (k :: keys) (JDict d) leaf.


(** Removing the prefix [p] from [s], when [s] starts with it. *)
Fixpoint strip_prefix (p s : string) : option string :=
  match p, s with
  | EmptyString, _ => Some s
  | String a p', String b s' => if Ascii.eqb a b then strip_prefix p' s' else None
  | String _ _, EmptyString => None
  end.

(** The profile root [profile_dir] has exactly one entry whose name
    contains [.default]; that entry is the directory [d], and its [user.js]
    is absent ([None]) or a regular file with the given text. *)
Definition single_profile (w : world) (profile_dir : path) (d : string)
    (user_js : option string) : Prop :=
  exists es des,
    FS.lookup profile_dir w = Some (Dir es) /\
    List.filter (PyStr.contains ".default") (map fst es) = [d] /\
    PyDict.get d es = Some (Dir des) /\
    PyDict.get "user.js" des =
      match user_js with
      | Some text => Some (File text)
      | None => None
      end.

(** The content of [user.js] after the profile-directory configure handler
    ran on a profile whose [user.js] was [user_js]: the handler appends
    unless the text it reads holds the check pattern, and writes nothing
    when the read fails. *)
Definition user_js_after (self : FirefoxConfigureHandler.t)
    (user_js : option string) : string :=
  match user_js with
  | Some old =>
      match TextIO.read old with
      | Some text =>
          if PyStr.contains (FirefoxConfigureHandler.check_pattern self) text
          then old
          else old +:+ FirefoxConfigureHandler.appended self
      | None => old
      end
  | None => FirefoxConfigureHandler.appended self
  end.

(** A call that only reads: it leaves the world as it found it. *)
Definition reads_only {A : Type} (m : M A) : Prop :=
  forall w, snd (m w) = w.

Section Descriptors.
Context `{Environment}.

(** The directory [item] of the plugin root [base_dir] holds a descriptor
    that [_load_plugin_config] turns into the record [config]. *)
Definition valid_descriptor (w : world) (base_dir : path) (item : string)
    (config : PluginConfig.t) : Prop :=
  Os.isdir (Os.join base_dir item) w = (Returns true, w) /\
  Os.exists_ (Os.join (Os.join base_dir item) "config.json") w
    = (Returns true, w) /\
  PluginLoader._load_plugin_config
    (Os.join (Os.join base_dir item) "config.json") (Os.join base_dir item) w
    = (Returns (Some config), w).

(** What the loop body of the scan takes from [item]: the record of its
    descriptor, if it has one that loads. *)
Definition found_config (w : world) (base_dir : path) (item : string)
  : option PluginConfig.t :=
  let plugin_path := Os.join base_dir item in
  let config_file := Os.join plugin_path "config.json" in
  match FS.lookup plugin_path w with
  | Some (Dir _) =>
      match FS.lookup config_file w with
      | Some _ =>
          match PluginLoader._load_plugin_config config_file plugin_path w with
          | (Returns (Some config), _) => Some config
          | _ => None
          end
      | None => None
      end
  | _ => None
  end.

(** The name-keyed map after the listed items, each given with the root
    it lies in, were scanned in order. *)
Definition merge_scanned (w : world) (scanned : list (path * string))
    (plugins : gmap string PluginConfig.t) : gmap string PluginConfig.t :=
  fold_left
    (fun acc entry =>
       match found_config w (fst entry) (snd entry) with
       | Some config => <[PluginConfig.name config := config]> acc
       | None => acc
       end)
    scanned plugins.

(** The items of the plugin root [base_dir], as the scan meets them. *)
Definition root_items (w : world) (base_dir : path) : list (path * string) :=
  match FS.lookup base_dir w with
  | Some (Dir es) => map (pair base_dir) (map fst es)
  | _ => []
  end.

(** All the items a full load scans, in scan order: the extension root,
    then the user root. *)
Definition scan_order (w : world) : list (path * string) :=
  root_items w PluginLoader.EXTENSION_PLUGIN_PATH ++
  root_items w PluginLoader.USER_PLUGIN_PATH.

(** The map a full load builds. *)
Definition loaded_plugins (w : world) : gmap string PluginConfig.t :=
  merge_scanned w (scan_order w) ∅.


End Descriptors.

(** The text of the regular file a path names, if it names one. *)
Definition file_at (p : path) (w : world) : option string :=
  match FS.lookup p w with
  | Some (File s) => Some s
  | _ => None
  end.


(** A call that writes, if it writes, to the file [p] only: every other
    path names the regular file it named before, or none as before. *)
Definition writes_only {A : Type} (p : path) (m : M A) : Prop :=
  forall w q, q <> p -> file_at q (snd (m w)) = file_at q w.


(** Two key paths part ways: after a common beginning, each goes on with
    a different segment (neither is the beginning of the other). *)
Fixpoint diverge (p q : list string) : bool :=
  match p, q with
  | a :: p', b :: q' => if String.eqb a b then diverge p' q' else true
  | _, _ => false
  end.

(** The document the structured-key set handler starts from, when it gets
    that far: what [json.load] gives for the file when it gives a value,
    the empty mapping otherwise. *)
Definition document_at `{Environment} (p : path) (w : world) : json :=
  match file_at p w with
  | Some text =>
      match json_loads text with
      | Some data => data
      | None => JDict []
      end
  | None => JDict []
  end.

(** The exception [json.load] raises on the file at [p], when it raises
    one that [except (json.JSONDecodeError, IOError)] does not catch. *)
Definition load_escapes `{Environment} (p : path) (w : world) : option exn :=
  match file_at p w with
  | Some content =>
      match json_loads content with
      | Some _ => None
      | None =>
          if caught_by (json_load_error content) [JSONDecodeError; OSError]
          then None
          else Some (json_load_error content)
      end
  | None => None
  end.

(** A value without NaN, whose mappings have no key twice: what [==]
    finds equal to itself. *)
Fixpoint plain (j : json) : bool :=
  match j with
  | JFloat FNan => false
  | JList l => forallb plain l
  | JDict d =>
      bool_decide (NoDup (map fst d)) && forallb (fun kv => plain (snd kv)) d
  | _ => true
  end.



(** A file of the profile [item] named [user.js] or [prefs.js] decodes,
    and the text read from it holds [pattern]. *)
Definition profile_mentions (w : world) (profile_dir : path)
    (item pattern : string) : Prop :=
  exists filename content text,
    In filename ["user.js"; "prefs.js"] /\
    file_at (Os.join (Os.join profile_dir item) filename) w = Some content /\
    TextIO.read content = Some text /\
    PyStr.contains pattern text = true.

(** The path names nothing, or a regular file whose bytes decode: a file
    the profile-directory check looks for and gets past.  A directory, or
    a file whose bytes do not decode, ends its search. *)
Definition readable_or_absent (p : path) (w : world) : Prop :=
  match FS.lookup p w with
  | Some (File content) => Utf8.valid content = true
  | Some (Dir _) => False
  | None => True
  end.

(** The first entry of the profile root whose name contains [.default],
    in the order [os.listdir] gives. *)
Definition first_default_profile (w : world) (profile_dir : path)
  : option string :=
  match FS.lookup profile_dir w with
  | Some (Dir es) => head (List.filter (PyStr.contains ".default") (map fst es))
  | _ => None
  end.


(** A value that is a mapping. *)
Definition is_dict (j : json) : bool :=
  match j with
  | JDict _ => true
  | _ => false
  end.

(** The shape [_load_plugin_config] needs of a descriptor to build a
    record from it: a mapping with a non-empty string under [name], whose
    [launch], [launch.conditionalFlags], [features] and [settings], where
    given, are mappings, every setting being a mapping too. *)
Definition well_shaped (data : json) : bool :=
  match data with
  | JDict d =>
      match PyDict.get "name" d with
      | Some (JStr n) => negb (String.eqb n EmptyString)
      | _ => false
      end
      && match PyDict.get_default "launch" (JDict []) d with
         | JDict l => is_dict (PyDict.get_default "conditionalFlags" (JDict []) l)
         | _ => false
         end
      && is_dict (PyDict.get_default "features" (JDict []) d)
      && match PyDict.get_default "settings" (JDict []) d with
         | JDict sd => forallb (fun kv => is_dict (snd kv)) sd
         | _ => false
         end
  | _ => false
  end.


(** The letters of a text: the text in lower case, its spaces left out. *)
Fixpoint letters (s : string) : string :=
  match s with
  | EmptyString => EmptyString
  | String a s' =>
      if Ascii.eqb a " " then letters s'
      else String (PyStr.to_lower a) (letters s')
  end.


(** The key [get_sorted_plugins] sorts a record by, when its display name
    is a string. *)
Definition display_key (p : PluginConfig.t) : string :=
  match PluginConfig.display_name p with
  | JStr s => str_lower s
  | _ => EmptyString
  end.

Section InOrder.
Context `{Environment}.

(** The store, in insertion order, after the listed items were scanned. *)
Definition merge_in_order (w : world) (scanned : list (path * string))
    (plugins : list (string * PluginConfig.t))
  : list (string * PluginConfig.t) :=
  fold_left
    (fun acc entry =>
       match found_config w (fst entry) (snd entry) with
       | Some config => PyDict.set (PluginConfig.name config) config acc
       | None => acc
       end)
    scanned plugins.

(** The store a full load builds, in insertion order. *)
Definition plugins_in_order (w : world) : list (string * PluginConfig.t) :=
  merge_in_order w (scan_order w) [].

End InOrder.


(** ** A small environment for the examples

    The examples name their documents instead of spelling them:
    [demo_documents] lists, for each text a file of the examples holds, the
    value [json.loads] gives for it; any other text is not JSON. *)

Definition demo_documents : list (string * json) :=
  [ ("doc:x-system",
     JDict [("name", JStr "x"); ("displayName", JStr "System X")]);
    ("doc:x-user",
     JDict [("name", JStr "x"); ("displayName", JStr "User X")]);
    ("doc:my-app",
     JDict [("name", JStr "my-app");
            ("launch",
             JDict [("conditionalFlags",
                     JDict [("launchFlags.fooBar", JList [JStr "--x"])])])]);
    ("doc:a.b=1", JDict [("a", JDict [("b", JInt 1)])]);
    ("doc:a.b=v", JDict [("a", JDict [("b", JStr "v")])]) ].

Definition demo_loads (text : string) : option json :=
  PyDict.get text demo_documents.

(** The name of the first listed document that equals [data]. *)
Definition demo_dumps (indent : option nat) (data : json) : string :=
  match List.filter (fun kv => Json.py_eq (snd kv) data) demo_documents with
  | (text, _) :: _ => text
  | [] => "doc:other"
  end.

(** [true] exits with 0, [false] with 1, [sleep] outlives any timeout, and
    no other program is installed. *)
Definition demo_run (cmd : json) (timeout : Z) : M CompletedProcess :=
  match cmd with
  | JList (JStr "true" :: _) => ret {| returncode := 0 |}
  | JList (JStr "false" :: _) => ret {| returncode := 1 |}
  | JList (JStr "sleep" :: _) =>
      raise (Exn TimeoutExpired "Command timed out")
  | _ => raise (Exn FileNotFoundError "[Errno 2] No such file or directory")
  end.

(** A text that is not one of the documents is not JSON; bytes that are
    not a text do not decode. *)
Definition demo_load_error (content : string) : exn :=
  if Utf8.valid content then Exn JSONDecodeError "Expecting value"
  else Exn UnicodeDecodeError "'utf-8' codec can't decode bytes".

Definition demo_env : Environment :=
  {| json_loads := demo_loads;
     json_load_error := demo_load_error;
     json_dumps := demo_dumps;
     subprocess_run := demo_run;
     subprocess_Popen := fun _ => ret tt;
     webbrowser_open := fun _ => ret tt;
     message_dialog := fun _ => ret tt;
     home := ["home"; "user"] |}.

(** The letter [a], a carriage return, the letter [b]. *)
Definition demo_cr_text : string := "a" +:+ String TextIO.cr "b".

(** One byte that is not UTF-8. *)
Definition demo_undecodable : string := String (ascii_of_nat 255) EmptyString.

(** A root directory with two files of that one byte. *)
Definition demo_undecodable_world : world :=
  [ ("settings.json", File demo_undecodable);
    ("notes.txt", File demo_undecodable) ].

Definition demo_plugin (text : string) : node := Dir [("config.json", File text)].

(** A home directory with a system plugin root (a good plugin [x], a
    plugin whose descriptor is not JSON, a plugin [my-app]), a user plugin
    root that defines [x] again, a Firefox profile root with one default
    profile, and two settings files. *)
Definition demo_world : world :=
  [ ("home",
     Dir [("user",
       Dir [ (".local",
              Dir [("share",
                Dir [("cinnamon",
                  Dir [("extensions",
                    Dir [("remember@thechief",
                      Dir [("plugins",
                        Dir [ ("x", demo_plugin "doc:x-system");
                              ("broken", demo_plugin "{ not json");
                              ("my-app", demo_plugin "doc:my-app") ])])])])])]);
             (".config",
              Dir [ ("remember@thechief",
                     Dir [("plugins", Dir [("x", demo_plugin "doc:x-user")])]);
                    ("app",
                     Dir [ ("settings.json", File "doc:a.b=1");
                           ("broken.json", File "{ not json") ]) ]);
             (".mozilla",
              Dir [("firefox",
                Dir [ ("profiles.ini", File "[Profile0]");
                      ("abc.default", Dir []) ])]) ])]) ].

Definition demo_extension_root : path :=
  ["home"; "user"; ".local"; "share"; "cinnamon"; "extensions";
   "remember@thechief"; "plugins"].

Definition demo_user_root : path :=
  ["home"; "user"; ".config"; "remember@thechief"; "plugins"].

Definition demo_profile_root : path := ["home"; "user"; ".mozilla"; "firefox"].

(** The record of a descriptor that gives a name, maybe a display name and
    conditional flags, and nothing else. *)
Definition demo_record (name : string) (display_name : string)
    (conditional_flags : list (string * json))
    (settings : gmap string PluginSetting.t) (plugin_path : path)
  : PluginConfig.t :=
  {| PluginConfig.name := name;
     PluginConfig.display_name := JStr display_name;
     PluginConfig.description := JStr EmptyString;
     PluginConfig.version := JStr "1.0.0";
     PluginConfig.wm_class := JList [];
     PluginConfig.plugin_type := JStr EmptyString;
     PluginConfig.executables := JList [];
     PluginConfig.flags := JList [];
     PluginConfig.conditional_flags := JDict conditional_flags;
     PluginConfig.is_single_instance := JBool false;
     PluginConfig.auto_restore := JBool false;
     PluginConfig.needs_config_manipulation := JBool false;
     PluginConfig.needs_title_parsing := JBool false;
     PluginConfig.settings := settings;
     PluginConfig.plugin_path := plugin_path |}.

Definition demo_x_system : PluginConfig.t :=
  demo_record "x" "System X" [] ∅ (demo_extension_root ++ ["x"]).

Definition demo_x_user : PluginConfig.t :=
  demo_record "x" "User X" [] ∅ (demo_user_root ++ ["x"]).

Definition demo_my_app : PluginConfig.t :=
  demo_record "my-app" "My App"
    [("launchFlags.fooBar", JList [JStr "--x"])]
    {[ "fooBar" := PluginLoader.launch_flag_setting "fooBar" "--x" ]}
    (demo_extension_root ++ ["my-app"]).

(** * Properties *)

(** ** Dictionaries *)

Lemma dict_get_set_same {V : Type} (k : string) (v : V) (d : list (string * V)) :
  PyDict.get k (PyDict.set k v d) = Some v.
Proof.
  induction d as [|[k' v'] d IH]; simpl.
  - now rewrite String.eqb_refl.
  - destruct (String.eqb k k') eqn:E; simpl; rewrite E; auto.
Qed.

Lemma dict_get_set_other {V : Type} (k k' : string) (v : V) (d : list (string * V)) :
  k <> k' -> PyDict.get k' (PyDict.set k v d) = PyDict.get k' d.
Proof.
  intros Hne. induction d as [|[k0 v0] d IH]; simpl.
  - destruct (String.eqb k' k) eqn:E; auto.
    apply String.eqb_eq in E. congruence.
  - destruct (String.eqb k k0) eqn:E; simpl.
    + apply String.eqb_eq in E. subst k0.
      destruct (String.eqb k' k) eqn:E'; auto.
      apply String.eqb_eq in E'. congruence.
    + now rewrite IH.
Qed.

Lemma dict_set_same_id {V : Type} (k : string) (v : V) (d : list (string * V)) :
  PyDict.get k d = Some v -> PyDict.set k v d = d.
Proof.
  induction d as [|[k' v'] d IH]; simpl; [discriminate|].
  destruct (String.eqb k k') eqn:E; intros Hg.
  - congruence.
  - now rewrite IH.
Qed.

Lemma dict_set_keys {V : Type} (k : string) (v v0 : V) (d : list (string * V)) :
  PyDict.get k d = Some v0 -> map fst (PyDict.set k v d) = map fst d.
Proof.
  induction d as [|[k' v'] d IH]; simpl; [discriminate|].
  destruct (String.eqb k k') eqn:E; intros Hg; simpl; auto.
  now rewrite IH.
Qed.

Lemma dict_get_In {V : Type} (k : string) (v : V) (d : list (string * V)) :
  PyDict.get k d = Some v -> In (k, v) d.
Proof.
  induction d as [|[k' v'] d IH]; simpl; [discriminate|].
  destruct (String.eqb k k') eqn:E; intros Hg.
  - apply String.eqb_eq in E. left. congruence.
  - right. auto.
Qed.

(** ** The file system *)

Lemma lookup_app (p q : path) : forall (w es : list (string * node)),
  FS.lookup p w = Some (Dir es) -> FS.lookup (p ++ q) w = FS.lookup q es.
Proof.
  induction p as [|a p IH]; intros w es Hl; simpl in *.
  - congruence.
  - destruct (PyDict.get a w) as [[s|es']|]; try discriminate.
    + destruct p; discriminate.
    + now apply IH.
Qed.

Lemma lookup_file_below (p q : path) (s : string) : forall (w : list (string * node)),
  FS.lookup p w = Some (File s) -> q <> [] -> FS.lookup (p ++ q) w = None.
Proof.
  induction p as [|a p IH]; intros w Hl Hq; simpl in *.
  - discriminate.
  - destruct (PyDict.get a w) as [[t|es']|]; try discriminate.
    + destruct p; [|discriminate]. simpl. destruct q; congruence.
    + now apply IH.
Qed.

Lemma lookup_missing_below (p q : path) : forall (w : list (string * node)),
  FS.lookup p w = None -> FS.lookup (p ++ q) w = None.
Proof.
  induction p as [|a p IH]; intros w Hl; simpl in *.
  - discriminate.
  - destruct (PyDict.get a w) as [[t|es']|]; auto.
    destruct p; [discriminate|]. reflexivity.
Qed.

(** Whatever exists lies in a directory. *)
Lemma lookup_parent (p : path) (c : string) (w : list (string * node)) (n : node) :
  FS.lookup (p ++ [c]) w = Some n ->
  exists es, FS.lookup p w = Some (Dir es) /\ FS.lookup [c] es = Some n.
Proof.
  intros Hl. destruct (FS.lookup p w) as [[s|es]|] eqn:Hp.
  - rewrite (lookup_file_below p [c] s w Hp) in Hl; [discriminate|congruence].
  - exists es. split; auto. now rewrite <- (lookup_app p [c] w es Hp).
  - now rewrite (lookup_missing_below p [c] w Hp) in Hl.
Qed.

Lemma mkdirs_existing (whole p : path) : forall (w es : list (string * node)),
  FS.lookup p w = Some (Dir es) -> FS.mkdirs_at whole p w = inr w.
Proof.
  induction p as [|a p IH]; intros w es Hl; simpl in *; auto.
  destruct (PyDict.get a w) as [[s|es']|] eqn:Hg; try discriminate.
  - destruct p; discriminate.
  - rewrite (IH es' es Hl). now rewrite dict_set_same_id.
Qed.



(** [os.makedirs] succeeds unless the directory, or one of the directories
    above it, is a regular file. *)
Lemma mkdirs_succeeds (whole p : path) : forall (w : list (string * node)),
  (forall k s, FS.lookup (firstn k p) w <> Some (File s)) ->
  exists w', FS.mkdirs_at whole p w = inr w'.
Proof.
  induction p as [|a p IH]; intros w Hfree; simpl; eauto.
  destruct (PyDict.get a w) as [[s|es']|] eqn:Hg.
  - exfalso. apply (Hfree 1%nat s). simpl. now rewrite Hg.
  - destruct (IH es') as [es'' ->]; eauto.
    intros k s Hl. apply (Hfree (S k) s). simpl. now rewrite Hg.
  - destruct (IH []) as [es'' ->]; eauto.
    intros k s Hl. destruct (firstn k p); simpl in Hl; discriminate.
Qed.

(** Writing below a directory is writing in that directory. *)
Lemma put_file_app (whole p q : path) (f : option string -> string) :
  forall (w es es' : list (string * node)),
  FS.lookup p w = Some (Dir es) ->
  q <> [] ->
  FS.put_file_at whole q f es = inr es' ->
  exists w', FS.put_file_at whole (p ++ q) f w = inr w' /\
             FS.lookup p w' = Some (Dir es').
Proof.
  induction p as [|a p IH]; intros w es es' Hl Hq Hput.
  - simpl in *. injection Hl as <-. eauto.
  - simpl in Hl.
    destruct (PyDict.get a w) as [[s|esa]|] eqn:Hg; try discriminate.
    { destruct p; discriminate. }
    destruct (IH esa es es' Hl Hq Hput) as [esa' [Hput' Hl']].
    exists (PyDict.set a (Dir esa') w). split.
    + change ((a :: p) ++ q) with (a :: (p ++ q)). simpl.
      destruct (p ++ q) eqn:E.
      { apply app_eq_nil in E. destruct E. contradiction. }
      rewrite Hg, Hput'. reflexivity.
    + simpl. now rewrite dict_get_set_same.
Qed.

Lemma path_split_last (p : path) : p <> [] -> p = removelast p ++ [List.last p EmptyString].
Proof. intros Hp. now apply app_removelast_last. Qed.

(** ** Running calls *)

(** Unfolds the monad and the [os] primitives down to matches on
    [FS.lookup], [FS.put_file] and [FS.mkdirs]. *)
Ltac run_calls :=
  repeat (progress (unfold bind, ret, raise, try_except, print, json_load,
                      Os.exists_, Os.isdir, Os.listdir, Os.read_file,
                      Os.open_read, Os.decode,
                      Os.write_file, Os.append_file, Os.makedirs in *;
                    cbv beta iota delta [negb] in *)).

(** Splits the conjunctions the goal shows, leaving definitions folded. *)
Ltac split_all := repeat match goal with |- _ /\ _ => split end.

(** ** The handlers *)

Lemma every_exception_is_caught (e : exn) : caught_by e [Exception] = true.
Proof. destruct e as [c msg]. destruct c; reflexivity. Qed.

Lemma navigate_app (keys1 keys2 : list string) : forall (data : json),
  JsonKeyCheckHandler.navigate (keys1 ++ keys2) data =
  match JsonKeyCheckHandler.navigate keys1 data with
  | Some current => JsonKeyCheckHandler.navigate keys2 current
  | None => None
  end.
Proof.
  induction keys1 as [|k keys1 IH]; intros data; simpl; auto.
  destruct data; auto.
  destruct (PyDict.get k d); auto.
Qed.

(** The navigation gives up exactly when, after some segments were
    resolved, the next segment is absent or the value reached is not a
    mapping. *)
Lemma navigate_gives_up (keys : list string) : forall (data : json),
  JsonKeyCheckHandler.navigate keys data = None <->
  exists seen k rest current,
    keys = seen ++ k :: rest /\
    JsonKeyCheckHandler.navigate seen data = Some current /\
    match current with
    | JDict d => PyDict.get k d = None
    | _ => True
    end.
Proof.
  induction keys as [|k keys IH]; intros data; simpl.
  - split; [discriminate|].
    intros (seen & k & rest & current & Hk & _). now destruct seen.
  - split.
    + intros Hn. destruct data as [| | | | |l|d];
        try (exists [], k, keys; eexists; repeat split; exact I).
      destruct (PyDict.get k d) as [v|] eqn:Hg.
      * apply IH in Hn. destruct Hn as (seen & k' & rest & current & -> & Hnav & Hc).
        exists (k :: seen), k', rest, current. simpl. rewrite Hg. auto.
      * exists [], k, keys, (JDict d). auto.
    + intros (seen & k' & rest & current & Hk & Hnav & Hc).
      destruct seen as [|k0 seen]; simpl in *.
      * injection Hk as <- <-. injection Hnav as ->.
        destruct current; auto. now rewrite Hc.
      * injection Hk as <- ->. destruct data; auto.
        destruct (PyDict.get k d); auto.
        apply IH. exists seen, k', rest, current. auto.
Qed.

Lemma check_execute_computes {H : Type} `{CheckHandler H} (h : H) (w : world) :
  CheckHandler.execute h w =
    match check h w with
    | (Returns r, w') => (Returns (r, None), w')
    | (Raises e, w') => (Returns (false, Some (exn_msg e)), w')
    end.
Proof.
  unfold CheckHandler.execute, try_except, bind, ret.
  destruct (check h w) as [[r|e] w']; auto.
  now rewrite every_exception_is_caught.
Qed.

Lemma configure_execute_computes {C : Type} `{ConfigureHandler C} (c : C) (w : world) :
  ConfigureHandler.execute c w =
    match configure c w with
    | (Returns r, w') => (Returns (r, None), w')
    | (Raises e, w') => (Returns (false, Some (exn_msg e)), w')
    end.
Proof.
  unfold ConfigureHandler.execute, try_except, bind, ret.
  destruct (configure c w) as [[r|e] w']; auto.
  now rewrite every_exception_is_caught.
Qed.

(** C1.  [execute] of a check handler and of a configure handler never
    propagates what [check] / [configure] raises: when the call returns [r],
    [execute] returns [(r, None)]; when it raises [e], [execute] returns
    [(False, str(e))]; in both cases the world is the one the call left. *)
Theorem execute_never_propagates
    (H : Type) (checker : CheckHandler H) (C : Type) (configurer : ConfigureHandler C)
    (h : H) (c : C) (w : world) :
  CheckHandler.execute h w =
    match check h w with
    | (Returns r, w') => (Returns (r, None), w')
    | (Raises e, w') => (Returns (false, Some (exn_msg e)), w')
    end /\
  ConfigureHandler.execute c w =
    match configure c w with
    | (Returns r, w') => (Returns (r, None), w')
    | (Raises e, w') => (Returns (false, Some (exn_msg e)), w')
    end.
Proof.
  split; [apply check_execute_computes | apply configure_execute_computes].
Qed.

(** The navigation loop follows the key path through nested mappings. *)
Lemma navigate_resolves (keys : list string) : forall (data leaf : json),
  JsonKeyCheckHandler.navigate keys data = Some leaf <-> resolves keys data leaf.
Proof.
  induction keys as [|k keys IH]; intros data leaf; simpl.
  - split.
    + intros [= ->]. constructor.
    + intros Hr. inversion Hr. reflexivity.
  - split.
    + destruct data as [| | | | | |d]; try discriminate.
      destruct (PyDict.get k d) as [v|] eqn:Hg; [|discriminate].
      intros Hn. econstructor; [exact Hg|]. now apply IH.
    + intros Hr. inversion Hr as [|k' keys' d v leaf' Hg Hrest]; subst.
      rewrite Hg. now apply IH.
Qed.

(** What [check] of the structured-key handler computes: an exception of
    [json.load] that is neither a [JSONDecodeError] nor an [OSError] leaves
    [check]. *)
Lemma json_key_check_computes `{Environment} (self : JsonKeyCheckHandler.t) (w : world) :
  check self w =
  match FS.lookup (JsonKeyCheckHandler.path_ self) w with
  | Some (File content) =>
      match json_loads content with
      | Some data =>
          (Returns
             match JsonKeyCheckHandler.navigate
                     (PyStr.split "." (JsonKeyCheckHandler.key self)) data with
             | Some leaf => Json.py_eq leaf (JsonKeyCheckHandler.value self)
             | None => false
             end, w)
      | None =>
          if caught_by (json_load_error content) [JSONDecodeError; OSError]
          then (Returns false, w)
          else (Raises (json_load_error content), w)
      end
  | _ => (Returns false, w)
  end.
Proof.
  unfold check, JsonKeyCheckHandler.handler, JsonKeyCheckHandler.check_.
  run_calls.
  destruct (FS.lookup (JsonKeyCheckHandler.path_ self) w) as [[text|es]|] eqn:Hl;
    simpl; run_calls; rewrite ?Hl; run_calls; auto.
  destruct (json_loads text) as [data|]; simpl; auto.
  destruct (JsonKeyCheckHandler.navigate
              (PyStr.split "." (JsonKeyCheckHandler.key self)) data); auto.
Qed.

(** C4 (as amended).  [JsonKeyCheckHandler.check] returns [True] exactly
    when the path names a file that [json.load] reads as a value, every
    segment of the dot-separated key resolves through nested mappings, and
    the value reached equals ([==]) the expected value.  It returns [False]
    and leaves the world alone when the file is missing, when the path is
    a directory, when [json.load] raises a [JSONDecodeError] (a text that
    is not JSON) or an [OSError], and when a segment of the key is absent
    or is looked up in a value that is not a mapping.  Any other exception
    of [json.load] (bytes that do not decode, an integer of too many
    digits, a nesting too deep) leaves [check], and [execute] returns
    [(False, message)]. *)
Theorem json_key_check_spec `{Environment} (self : JsonKeyCheckHandler.t) (w : world) :
  let keys := PyStr.split "." (JsonKeyCheckHandler.key self) in
  (check self w = (Returns true, w) <->
   exists content data leaf,
     FS.lookup (JsonKeyCheckHandler.path_ self) w = Some (File content) /\
     json_loads content = Some data /\
     resolves keys data leaf /\
     Json.py_eq leaf (JsonKeyCheckHandler.value self) = true) /\
  (FS.lookup (JsonKeyCheckHandler.path_ self) w = None ->
   check self w = (Returns false, w)) /\
  (forall es,
     FS.lookup (JsonKeyCheckHandler.path_ self) w = Some (Dir es) ->
     check self w = (Returns false, w)) /\
  (forall content,
     FS.lookup (JsonKeyCheckHandler.path_ self) w = Some (File content) ->
     json_loads content = None ->
     if caught_by (json_load_error content) [JSONDecodeError; OSError]
     then (check self w = (Returns false, w))
     else (check self w = (Raises (json_load_error content), w) /\
           CheckHandler.execute self w
             = (Returns (false, Some (exn_msg (json_load_error content))), w))) /\
  (forall content data,
     FS.lookup (JsonKeyCheckHandler.path_ self) w = Some (File content) ->
     json_loads content = Some data ->
     (forall leaf, ~ resolves keys data leaf) ->
     check self w = (Returns false, w)).
Proof.
  cbv zeta. rewrite check_execute_computes, json_key_check_computes.
  destruct (FS.lookup (JsonKeyCheckHandler.path_ self) w) as [[content|es]|] eqn:Hl.
  2,3: repeat apply conj; eauto; try discriminate;
       intros (t & d & l & Hf & _); discriminate.
  destruct (json_loads content) as [data|] eqn:Hj.
  2: { repeat apply conj; try discriminate.
       - destruct (caught_by _ _); discriminate.
       - intros (t & d & l & [= <-] & Hj' & _). congruence.
       - intros t [= <-] _. destruct (caught_by _ _); auto.
       - intros t d [= <-] Hj'. congruence. }
  destruct (JsonKeyCheckHandler.navigate
              (PyStr.split "." (JsonKeyCheckHandler.key self)) data)
    as [leaf|] eqn:Hn.
  - repeat apply conj; try discriminate.
    + intros [= Heq]. exists content, data, leaf.
      split_all; auto. now apply navigate_resolves.
    + intros (t & d & l & [= <-] & Hj' & Hr & Heq).
      rewrite Hj in Hj'. injection Hj' as <-.
      apply navigate_resolves in Hr. rewrite Hn in Hr. injection Hr as <-.
      now rewrite Heq.
    + intros t [= <-]. congruence.
    + intros t d [= <-] Hj' Hnone. rewrite Hj in Hj'. injection Hj' as <-.
      destruct (Hnone leaf). now apply navigate_resolves.
  - repeat apply conj; auto; try discriminate.
    + intros (t & d & l & [= <-] & Hj' & Hr & Heq).
      rewrite Hj in Hj'. injection Hj' as <-.
      apply navigate_resolves in Hr. congruence.
    + intros t [= <-]. congruence.
Qed.

(** C7.  [execute] of the command check handler (timeout 10) and of the
    command configure handler (timeout 30): exit status 0 gives
    [(True, None)], any other exit status gives [(False, None)], and a
    command that times out ([TimeoutExpired]) or cannot be spawned
    ([OSError]) gives [(False, None)]; nothing is raised. *)
Theorem command_execute_spec `{Environment} (cmd : json) (w : world) :
  let run_check := CheckHandler.execute {| CommandCheckHandler.cmd := cmd |} w in
  let run_configure :=
    ConfigureHandler.execute {| CommandConfigureHandler.cmd := cmd |} w in
  (forall result w',
     subprocess_run cmd 10 w = (Returns result, w') ->
     run_check = (Returns ((returncode result =? 0)%Z, None), w')) /\
  (forall e w',
     subprocess_run cmd 10 w = (Raises e, w') ->
     isinstance e TimeoutExpired = true \/ isinstance e OSError = true ->
     run_check = (Returns (false, None), w')) /\
  (forall result w',
     subprocess_run cmd 30 w = (Returns result, w') ->
     run_configure = (Returns ((returncode result =? 0)%Z, None), w')) /\
  (forall e w',
     subprocess_run cmd 30 w = (Raises e, w') ->
     isinstance e TimeoutExpired = true \/ isinstance e OSError = true ->
     run_configure = (Returns (false, None), w')).
Proof.
  unfold CheckHandler.execute, ConfigureHandler.execute, check, configure,
    CommandCheckHandler.handler, CommandConfigureHandler.handler,
    CommandCheckHandler.check_, CommandConfigureHandler.configure_,
    try_except, bind, ret, caught_by.
  simpl.
  repeat split.
  - intros result w' ->. reflexivity.
  - intros e w' -> [Hc|Hc]; rewrite Hc; simpl; auto.
    now rewrite orb_true_r.
  - intros result w' ->. reflexivity.
  - intros e w' -> [Hc|Hc]; rewrite Hc; simpl; auto.
    now rewrite orb_true_r.
Qed.

(** ** Writing files *)

Lemma lookup_single (c : string) (es : list (string * node)) (n : node) :
  FS.lookup [c] es = Some n <-> PyDict.get c es = Some n.
Proof.
  simpl. destruct (PyDict.get c es) as [[s|es']|]; split; congruence.
Qed.

(** A regular file lies in a directory, so [os.makedirs] of its directory
    changes nothing. *)
Lemma makedirs_of_existing_file (p : path) (w : world) (n : node) :
  p <> [] ->
  FS.lookup p w = Some n ->
  FS.mkdirs (Os.dirname p) w = inr w.
Proof.
  intros Hp Hl. rewrite (path_split_last p Hp) in Hl.
  destruct (lookup_parent _ _ _ _ Hl) as [es [Hd _]].
  unfold FS.mkdirs, Os.dirname. eapply mkdirs_existing; eauto.
Qed.



Lemma split_not_empty (sep : ascii) (s : string) : PyStr.split sep s <> [].
Proof.
  induction s as [|a s IH]; simpl; [discriminate|].
  destruct (Ascii.eqb a sep); [discriminate|].
  destruct (PyStr.split sep s); discriminate.
Qed.



(** ** Substrings *)

Lemma prefix_empty (s : string) : String.prefix EmptyString s = true.
Proof. destruct s; reflexivity. Qed.

Lemma prefix_app (p a b : string) :
  String.prefix p a = true -> String.prefix p (a +:+ b) = true.
Proof.
  revert p. induction a as [|c' a IH]; intros p Hp.
  - destruct p; [apply prefix_empty|discriminate].
  - destruct p as [|c p]; [reflexivity|]. simpl in *.
    destruct (ascii_dec c c'); [auto|discriminate].
Qed.

Lemma contains_cons (p : string) (c : ascii) (a : string) :
  PyStr.contains p (String c a) =
  String.prefix p (String c a) || PyStr.contains p a.
Proof. reflexivity. Qed.

Lemma contains_app_l (p a b : string) :
  PyStr.contains p a = true -> PyStr.contains p (a +:+ b) = true.
Proof.
  induction a as [|c a IH]; intros Hc.
  - destruct p; [|discriminate]. destruct b; reflexivity.
  - rewrite contains_cons in Hc.
    change (String c a +:+ b) with (String c (a +:+ b)).
    rewrite contains_cons.
    apply orb_true_iff in Hc. destruct Hc as [Hc|Hc].
    + change (String c (a +:+ b)) with (String c a +:+ b).
      now rewrite (prefix_app _ _ _ Hc).
    + rewrite (IH Hc). apply orb_true_r.
Qed.

Lemma contains_app_r (p a b : string) :
  PyStr.contains p b = true -> PyStr.contains p (a +:+ b) = true.
Proof.
  intros Hc. induction a as [|c a IH]; auto.
  change (String c a +:+ b) with (String c (a +:+ b)).
  rewrite contains_cons, IH. apply orb_true_r.
Qed.

Lemma contains_empty (s : string) : PyStr.contains EmptyString s = true.
Proof. destruct s; reflexivity. Qed.


(** ** Text read from files *)

Lemma string_app_assoc (a b c : string) :
  (a +:+ b) +:+ c = a +:+ (b +:+ c).
Proof.
  induction a as [|x a IH]; [reflexivity|].
  change (String x ((a +:+ b) +:+ c) = String x (a +:+ (b +:+ c))).
  now rewrite IH.
Qed.

Lemma utf8_run_app (a b : string) : forall (q : Utf8.state),
  Utf8.run q (a +:+ b) =
  match Utf8.run q a with
  | Some q' => Utf8.run q' b
  | None => None
  end.
Proof.
  induction a as [|c a IH]; intros q; simpl; [reflexivity|].
  destruct (Utf8.step q c); auto.
Qed.

(** Bytes that decode, followed by bytes that decode, decode. *)
Lemma utf8_valid_app (a b : string) :
  Utf8.valid a = true -> Utf8.valid b = true -> Utf8.valid (a +:+ b) = true.
Proof.
  unfold Utf8.valid. rewrite utf8_run_app.
  destruct (Utf8.run Utf8.Start a) as [[]|]; try discriminate. auto.
Qed.

Lemma translate_app (a b : string) : forall (after_cr : bool),
  TextIO.translate after_cr (a +:+ b) =
  TextIO.translate after_cr a +:+ TextIO.translate (TextIO.pending_cr after_cr a) b.
Proof.
  induction a as [|c a IH]; intros after_cr; simpl; [reflexivity|].
  destruct (Ascii.eqb c TextIO.cr) eqn:Ecr; simpl.
  - now rewrite IH.
  - destruct (Ascii.eqb c TextIO.lf); [destruct after_cr|]; simpl; now rewrite IH.
Qed.

Lemma text_read_valid (content text : string) :
  TextIO.read content = Some text <->
  Utf8.valid content = true /\ text = TextIO.universal_newlines content.
Proof.
  unfold TextIO.read. destruct (Utf8.valid content); split.
  - intros [= <-]. auto.
  - intros [_ ->]. reflexivity.
  - discriminate.
  - intros [E _]. discriminate.
Qed.

(** ** The profile-directory handlers *)

Lemma filter_head_holds {A : Type} (f : A -> bool) (l : list A) (x : A) (rest : list A) :
  List.filter f l = x :: rest -> f x = true.
Proof.
  intros Hf. assert (Hin : In x (List.filter f l)) by (rewrite Hf; now left).
  now apply filter_In in Hin.
Qed.

Lemma firefox_configure_first (self : FirefoxConfigureHandler.t)
    (items : list string) (d : string) (rest : list string) (w : world) :
  List.filter (PyStr.contains ".default") items = d :: rest ->
  FirefoxConfigureHandler.for_items self items w =
  FirefoxConfigureHandler.for_items self [d] w.
Proof.
  induction items as [|item items IH]; simpl; [discriminate|].
  destruct (PyStr.contains ".default" item) eqn:Hm; simpl.
  - intros [= -> _]. now rewrite Hm.
  - intros Hf. rewrite (IH Hf). reflexivity.
Qed.

Lemma firefox_check_none (self : FirefoxProfileCheckHandler.t)
    (items : list string) (w : world) :
  List.filter (PyStr.contains ".default") items = [] ->
  FirefoxProfileCheckHandler.for_items self items w = (Returns false, w).
Proof.
  induction items as [|item items IH]; simpl; [reflexivity|].
  destruct (PyStr.contains ".default" item) eqn:Hm; simpl; [discriminate|auto].
Qed.

Lemma profile_user_js (w : world) (profile_dir : path) (d : string)
    (user_js : option string) :
  single_profile w profile_dir d user_js ->
  FS.lookup (Os.join (Os.join profile_dir d) "user.js") w =
  match user_js with
  | Some text => Some (File text)
  | None => None
  end.
Proof.
  intros (es & des & Hpd & _ & Hd & Hu). unfold Os.join.
  assert (Hsub : FS.lookup (profile_dir ++ [d]) w = Some (Dir des)).
  { rewrite (lookup_app _ _ _ _ Hpd). now apply lookup_single. }
  rewrite (lookup_app _ _ _ _ Hsub). simpl. rewrite Hu.
  now destruct user_js.
Qed.

Lemma profile_marked (w : world) (profile_dir : path) (d : string)
    (user_js : option string) :
  single_profile w profile_dir d user_js -> PyStr.contains ".default" d = true.
Proof.
  intros (es & des & _ & Hf & _). eapply filter_head_holds; eauto.
Qed.

(** Appending to [user.js] of the one default profile keeps the profile
    root as it is, apart from the content of that file. *)
Lemma profile_append (w : world) (profile_dir : path) (d : string)
    (user_js : option string) (s : string) :
  single_profile w profile_dir d user_js ->
  exists w1,
    FS.put_file (Os.join (Os.join profile_dir d) "user.js")
      (fun old => match old with Some t => t +:+ s | None => s end) w = inr w1 /\
    single_profile w1 profile_dir d
      (Some (match user_js with Some t => t +:+ s | None => s end)).
Proof.
  intros (es & des & Hpd & Hf & Hd & Hu).
  set (f := fun old : option string =>
              match old with Some t => t +:+ s | None => s end).
  set (des1 := PyDict.set "user.js" (File (f user_js)) des).
  set (es1 := PyDict.set d (Dir des1) es).
  destruct (put_file_app (Os.join (Os.join profile_dir d) "user.js")
              profile_dir [d; "user.js"] f w es es1 Hpd) as [w1 [Hput Hpd1]].
  { discriminate. }
  { simpl. rewrite Hd, Hu. now destruct user_js. }
  exists w1. split.
  - unfold FS.put_file. unfold Os.join at 3 4.
    rewrite <- app_assoc. exact Hput.
  - exists es1, des1. repeat apply conj; auto.
    + unfold es1. now rewrite (dict_set_keys _ _ _ _ Hd).
    + apply dict_get_set_same.
    + unfold des1. rewrite dict_get_set_same. now destruct user_js.
Qed.

(** One run of the configure handler on the one default profile, whose
    [user.js], if there is one, decodes. *)
Lemma firefox_configure_step (self : FirefoxConfigureHandler.t) (d : string)
    (user_js : option string) (w : world) :
  single_profile w (FirefoxConfigureHandler.profile_dir self) d user_js ->
  (forall old, user_js = Some old -> Utf8.valid old = true) ->
  exists w1,
    configure self w = (Returns true, w1) /\
    single_profile w1 (FirefoxConfigureHandler.profile_dir self) d
      (Some (user_js_after self user_js)) /\
    (forall old text, user_js = Some old ->
       TextIO.read old = Some text ->
       PyStr.contains (FirefoxConfigureHandler.check_pattern self) text = true ->
       w1 = w).
Proof.
  intros Hprofile Hvalid.
  pose proof (profile_user_js _ _ _ _ Hprofile) as Hjs.
  pose proof (profile_marked _ _ _ _ Hprofile) as Hm.
  destruct (profile_append _ _ _ _ (FirefoxConfigureHandler.appended self) Hprofile)
    as [w1 [Hput Hprofile1]].
  destruct Hprofile as (es & des & Hpd & Hf & Hd & Hu).
  assert (Hrun : configure self w =
                 FirefoxConfigureHandler.for_items self [d] w).
  { unfold configure, FirefoxConfigureHandler.handler,
      FirefoxConfigureHandler.configure_.
    run_calls. repeat (rewrite Hpd; run_calls).
    apply (firefox_configure_first _ _ _ _ _ Hf). }
  rewrite Hrun. unfold FirefoxConfigureHandler.for_items. rewrite Hm.
  run_calls. rewrite Hjs.
  destruct user_js as [old|]; run_calls; unfold user_js_after.
  - rewrite Hjs. run_calls. unfold TextIO.read.
    rewrite (Hvalid old eq_refl). run_calls.
    destruct (PyStr.contains (FirefoxConfigureHandler.check_pattern self)
                (TextIO.universal_newlines old)) eqn:Hc; run_calls.
    + exists w. repeat apply conj; auto. exists es, des. auto.
    + exists w1. rewrite Hput. repeat apply conj; auto.
      intros old' text [= <-]. rewrite (Hvalid old eq_refl).
      intros [= <-]. congruence.
  - exists w1. rewrite Hput. repeat apply conj; auto. discriminate.
Qed.

Lemma firefox_check_found (self : FirefoxProfileCheckHandler.t)
    (d content text : string) (w : world) :
  single_profile w (FirefoxProfileCheckHandler.profile_dir self) d (Some content) ->
  TextIO.read content = Some text ->
  PyStr.contains (FirefoxProfileCheckHandler.pattern self) text = true ->
  check self w = (Returns true, w).
Proof.
  intros Hprofile Hread Hin.
  pose proof (profile_user_js _ _ _ _ Hprofile) as Hjs.
  pose proof (profile_marked _ _ _ _ Hprofile) as Hm.
  destruct Hprofile as (es & des & Hpd & Hf & Hd & Hu).
  unfold check, FirefoxProfileCheckHandler.handler,
    FirefoxProfileCheckHandler.check_.
  run_calls. repeat (rewrite Hpd; run_calls).
  assert (Hitems : FirefoxProfileCheckHandler.for_items self (map fst es) w
                   = (Returns true, w)).
  { revert Hf. generalize (map fst es) as items.
    induction items as [|item items IH]; simpl; [discriminate|].
    destruct (PyStr.contains ".default" item) eqn:Hmi; simpl; auto.
    intros [= -> Hrest]. run_calls. rewrite Hjs. run_calls. rewrite Hjs.
    run_calls. rewrite Hread. run_calls. now rewrite Hin. }
  now rewrite Hitems.
Qed.

(** The block the configure handler appends, read back after any bytes
    that decode, shows the preference line as it is read back. *)
Lemma appended_read_back (self : FirefoxConfigureHandler.t)
    (before read_before read_line : string) :
  TextIO.read before = Some read_before ->
  TextIO.read (FirefoxConfigureHandler.pref_line self) = Some read_line ->
  exists head tail,
    TextIO.read (before +:+ FirefoxConfigureHandler.appended self)
      = Some (head +:+ read_line +:+ tail).
Proof.
  intros Hb Hl. unfold FirefoxConfigureHandler.appended.
  set (header := PyStr.nl +:+ "// Added by Window Position Remember" +:+ PyStr.nl).
  assert (Hh : forall after_cr, TextIO.pending_cr after_cr header = false).
  { intros after_cr. reflexivity. }
  apply text_read_valid in Hb, Hl. destruct Hb as [Vb ->], Hl as [Vl ->].
  exists (TextIO.universal_newlines before
          +:+ TextIO.translate (TextIO.pending_cr false before) header),
         (TextIO.translate
            (TextIO.pending_cr false (FirefoxConfigureHandler.pref_line self)) PyStr.nl).
  apply text_read_valid. split.
  - apply utf8_valid_app; [exact Vb|].
    apply utf8_valid_app; [reflexivity|].
    apply utf8_valid_app; [exact Vl|reflexivity].
  - unfold TextIO.universal_newlines.
    rewrite !translate_app, Hh.
    now rewrite !string_app_assoc.
Qed.

Lemma user_js_after_read (self : FirefoxConfigureHandler.t)
    (user_js : option string) (read_line : string) :
  (forall old, user_js = Some old -> Utf8.valid old = true) ->
  TextIO.read (FirefoxConfigureHandler.pref_line self) = Some read_line ->
  PyStr.contains (FirefoxConfigureHandler.check_pattern self) read_line = true ->
  exists text,
    TextIO.read (user_js_after self user_js) = Some text /\
    PyStr.contains (FirefoxConfigureHandler.check_pattern self) text = true.
Proof.
  intros Hvalid Hl Hin. unfold user_js_after.
  assert (Hblock : forall before read_before,
            TextIO.read before = Some read_before ->
            exists text,
              TextIO.read (before +:+ FirefoxConfigureHandler.appended self)
                = Some text /\
              PyStr.contains (FirefoxConfigureHandler.check_pattern self) text
                = true).
  { intros before read_before Hb.
    destruct (appended_read_back self _ _ _ Hb Hl) as (head & tail & Hr).
    eexists. split; [exact Hr|].
    apply contains_app_r, contains_app_l, Hin. }
  destruct user_js as [old|].
  - assert (Hread : TextIO.read old = Some (TextIO.universal_newlines old)).
    { apply text_read_valid. auto. }
    rewrite Hread.
    destruct (PyStr.contains (FirefoxConfigureHandler.check_pattern self)
                (TextIO.universal_newlines old)) eqn:Hold.
    + eexists. split; [exact Hread|exact Hold].
    + eapply Hblock. exact Hread.
  - apply (Hblock EmptyString EmptyString). reflexivity.
Qed.

(** C8 (as amended).  Let the preference line, read back from a file as
    text, contain the check pattern (the read decodes the bytes and reads
    each carriage return, with the line feed after it if there is one, as
    a line feed), and let the profile root have exactly one entry whose
    name contains [.default], a directory whose [user.js] is absent or a
    regular file that decodes.  Then the profile-directory configure
    handler returns [True]; the profile-directory check for the pattern,
    run next, returns [True]; and the configure handler, run once more,
    returns [True] and leaves the world as it was, so the preference line
    is written at most once. *)
Theorem firefox_append_round_trip (pref_line P read_line : string)
    (profile_dir : path) (d : string) (user_js : option string) (w : world) :
  TextIO.read pref_line = Some read_line ->
  PyStr.contains P read_line = true ->
  single_profile w profile_dir d user_js ->
  (forall old, user_js = Some old -> Utf8.valid old = true) ->
  exists w1,
    configure {| FirefoxConfigureHandler.pref_line := pref_line;
                 FirefoxConfigureHandler.check_pattern := P;
                 FirefoxConfigureHandler.profile_dir := profile_dir |} w
      = (Returns true, w1) /\
    single_profile w1 profile_dir d
      (Some (user_js_after
               {| FirefoxConfigureHandler.pref_line := pref_line;
                  FirefoxConfigureHandler.check_pattern := P;
                  FirefoxConfigureHandler.profile_dir := profile_dir |}
               user_js)) /\
    check {| FirefoxProfileCheckHandler.pattern := P;
             FirefoxProfileCheckHandler.profile_dir := profile_dir |} w1
      = (Returns true, w1) /\
    configure {| FirefoxConfigureHandler.pref_line := pref_line;
                 FirefoxConfigureHandler.check_pattern := P;
                 FirefoxConfigureHandler.profile_dir := profile_dir |} w1
      = (Returns true, w1).
Proof.
  intros Hline Hin Hprofile Hvalid.
  set (self := {| FirefoxConfigureHandler.pref_line := pref_line;
                  FirefoxConfigureHandler.check_pattern := P;
                  FirefoxConfigureHandler.profile_dir := profile_dir |}).
  destruct (firefox_configure_step self d user_js w Hprofile Hvalid)
    as (w1 & Hrun & Hprofile1 & _).
  destruct (user_js_after_read self user_js read_line Hvalid Hline Hin)
    as (text & Hread & Hfound).
  exists w1. repeat apply conj; auto.
  - apply (firefox_check_found
             {| FirefoxProfileCheckHandler.pattern := P;
                FirefoxProfileCheckHandler.profile_dir := profile_dir |}
             d (user_js_after self user_js) text); auto.
  - destruct (firefox_configure_step self d _ w1 Hprofile1)
      as (w2 & Hrun2 & _ & Hsame).
    { intros old [= <-]. now apply text_read_valid in Hread. }
    rewrite Hrun2. f_equal. eapply Hsame; eauto.
Qed.

(** ** The loader only reads *)

Lemma reads_only_ret {A : Type} (a : A) : reads_only (ret a).
Proof. now intros w. Qed.

Lemma reads_only_raise {A : Type} (e : exn) : reads_only (@raise A e).
Proof. now intros w. Qed.

Lemma reads_only_bind {A B : Type} (m : M A) (k : A -> M B) :
  reads_only m -> (forall a, reads_only (k a)) -> reads_only (bind m k).
Proof.
  intros Hm Hk w. unfold bind. specialize (Hm w).
  destruct (m w) as [[a|e] w']; simpl in *; subst; auto. apply Hk.
Qed.

Lemma reads_only_try {A : Type} (body : M A) (classes : list exc_class)
    (handler : exn -> M A) :
  reads_only body -> (forall e, reads_only (handler e)) ->
  reads_only (try_except body classes handler).
Proof.
  intros Hb Hh w. unfold try_except. specialize (Hb w).
  destruct (body w) as [[a|e] w']; simpl in *; subst; auto.
  destruct (caught_by e classes); auto. apply Hh.
Qed.

Lemma reads_only_exists (p : path) : reads_only (Os.exists_ p).
Proof. now intros w. Qed.

Lemma reads_only_isdir (p : path) : reads_only (Os.isdir p).
Proof. now intros w. Qed.

Lemma reads_only_listdir (p : path) : reads_only (Os.listdir p).
Proof. intros w. unfold Os.listdir. now destruct (FS.lookup p w) as [[|]|]. Qed.

Lemma reads_only_open_read (p : path) : reads_only (Os.open_read p).
Proof. intros w. unfold Os.open_read. now destruct (FS.lookup p w) as [[|]|]. Qed.

Lemma reads_only_decode (content : string) : reads_only (Os.decode content).
Proof. intros w. unfold Os.decode. now destruct (TextIO.read content). Qed.

Lemma reads_only_read_file (p : path) : reads_only (Os.read_file p).
Proof.
  apply reads_only_bind; [apply reads_only_open_read|].
  intros content. apply reads_only_decode.
Qed.

Lemma reads_only_py_get (obj : json) (k : string) (default : json) :
  reads_only (PluginLoader.py_get obj k default).
Proof. intros w. now destruct obj. Qed.

Lemma reads_only_py_items (obj : json) : reads_only (PluginLoader.py_items obj).
Proof. intros w. now destruct obj. Qed.

Lemma reads_only_join_flags (flags : json) : reads_only (PluginLoader.join_flags flags).
Proof.
  intros w. destruct flags; try reflexivity. simpl.
  now destruct (foldr _ _ l).
Qed.

Create HintDb reads_only_db.
#[global] Hint Resolve reads_only_ret reads_only_raise reads_only_exists
  reads_only_isdir reads_only_listdir reads_only_open_read reads_only_decode
  reads_only_read_file reads_only_py_get
  reads_only_py_items reads_only_join_flags : reads_only_db.

Ltac reads_only_tac :=
  repeat first
    [ solve [auto with reads_only_db]
    | apply reads_only_bind; [|intros ?]
    | apply reads_only_try; [|intros ?]
    | match goal with
      | |- reads_only (if ?b then _ else _) => destruct b
      | |- reads_only (match ?x with _ => _ end) => destruct x
      end ].

Section LoaderReads.
Context `{Environment}.

Lemma reads_only_json_load (p : path) : reads_only (json_load p).
Proof. unfold json_load. reads_only_tac. Qed.

Lemma reads_only_parse_setting (key : string) (data : json) :
  reads_only (PluginLoader._parse_setting key data).
Proof. unfold PluginLoader._parse_setting. reads_only_tac. Qed.

Lemma reads_only_parse_settings (items : list (string * json)) :
  forall settings, reads_only (PluginLoader.parse_settings items settings).
Proof.
  induction items as [|[key data] items IH]; intros settings; simpl.
  - apply reads_only_ret.
  - apply reads_only_bind; [apply reads_only_parse_setting|]. intros s. apply IH.
Qed.

Lemma reads_only_generate_flag_settings (items : list (string * json)) :
  forall settings,
    reads_only (PluginLoader.generate_flag_settings items settings).
Proof.
  induction items as [|[flag_key flags] items IH]; intros settings; simpl.
  - apply reads_only_ret.
  - destruct (PyStr.startswith flag_key "launchFlags."); auto.
    destruct (settings !! _); auto.
    apply reads_only_bind; [apply reads_only_join_flags|]. intros s. apply IH.
Qed.

Lemma reads_only_build_config (data : json) (plugin_path : path) :
  reads_only (PluginLoader.build_config data plugin_path).
Proof.
  unfold PluginLoader.build_config.
  pose proof reads_only_parse_settings. pose proof reads_only_generate_flag_settings.
  reads_only_tac.
Qed.

Lemma reads_only_load_plugin_config (config_file plugin_path : path) :
  reads_only (PluginLoader._load_plugin_config config_file plugin_path).
Proof.
  unfold PluginLoader._load_plugin_config, print.
  pose proof reads_only_json_load. pose proof reads_only_build_config.
  reads_only_tac.
Qed.

End LoaderReads.

(** ** Scanning the plugin roots *)

Section LoaderScan.
Context `{Environment}.

Lemma found_config_valid (w : world) (base_dir : path) (item : string)
    (config : PluginConfig.t) :
  valid_descriptor w base_dir item config <->
  found_config w base_dir item = Some config.
Proof.
  unfold valid_descriptor, found_config, Os.isdir, Os.exists_.
  pose proof (reads_only_load_plugin_config
                (Os.join (Os.join base_dir item) "config.json")
                (Os.join base_dir item) w) as Hr.
  destruct (FS.lookup (Os.join base_dir item) w) as [[s|es]|].
  1,3: split; [intros ([=] & _)|discriminate].
  destruct (FS.lookup (Os.join (Os.join base_dir item) "config.json") w).
  2: split; [intros (_ & [=] & _)|discriminate].
  destruct (PluginLoader._load_plugin_config _ _ w) as [[[c|]|e] w'];
    simpl in Hr; subst w'.
  - split; [intros (_ & _ & [= ->]); reflexivity|intros [= ->]; auto].
  - split; [intros (_ & _ & [=])|discriminate].
  - split; [intros (_ & _ & [=])|discriminate].
Qed.

(** One item of a root: the loader takes the record of its descriptor, if
    there is one, and nothing is raised whatever the descriptor holds. *)
Lemma scan_item_computes (base_dir : path) (item : string)
    (self : PluginLoader.t) (w : world) :
  PluginLoader.scan_item base_dir item self w =
  (Returns
     match found_config w base_dir item with
     | Some config =>
         {| PluginLoader._plugins :=
              <[PluginConfig.name config := config]> (PluginLoader._plugins self);
            PluginLoader._loaded := PluginLoader._loaded self |}
     | None => self
     end, w).
Proof.
  unfold PluginLoader.scan_item, found_config. run_calls.
  pose proof (reads_only_load_plugin_config
                (Os.join (Os.join base_dir item) "config.json")
                (Os.join base_dir item) w) as Hr.
  destruct (FS.lookup (Os.join base_dir item) w) as [[s|es]|]; run_calls; auto.
  destruct (FS.lookup (Os.join (Os.join base_dir item) "config.json") w);
    run_calls; auto.
  destruct (PluginLoader._load_plugin_config _ _ w) as [[[c|]|e] w'];
    simpl in Hr; subst w'; run_calls; auto.
  now rewrite every_exception_is_caught.
Qed.

Lemma merge_scanned_cons (w : world) (entry : path * string)
    (scanned : list (path * string)) (plugins : gmap string PluginConfig.t) :
  merge_scanned w (entry :: scanned) plugins =
  merge_scanned w scanned
    match found_config w (fst entry) (snd entry) with
    | Some config => <[PluginConfig.name config := config]> plugins
    | None => plugins
    end.
Proof. reflexivity. Qed.

Lemma merge_scanned_app (w : world) (scanned1 scanned2 : list (path * string))
    (plugins : gmap string PluginConfig.t) :
  merge_scanned w (scanned1 ++ scanned2) plugins =
  merge_scanned w scanned2 (merge_scanned w scanned1 plugins).
Proof. unfold merge_scanned. apply fold_left_app. Qed.

Lemma scan_items_computes (base_dir : path) (items : list string) :
  forall (self : PluginLoader.t) (w : world),
  PluginLoader.scan_items base_dir items self w =
  (Returns
     {| PluginLoader._plugins :=
          merge_scanned w (map (pair base_dir) items) (PluginLoader._plugins self);
        PluginLoader._loaded := PluginLoader._loaded self |}, w).
Proof.
  induction items as [|item items IH]; intros self w.
  - unfold ret. now destruct self.
  - cbn [PluginLoader.scan_items map].
    unfold bind. rewrite scan_item_computes, IH, merge_scanned_cons.
    cbn [fst snd].
    now destruct (found_config w base_dir item).
Qed.

(** The loop of the scan never raises. *)
Lemma scan_items_returns (base_dir : path) (items : list string)
    (self : PluginLoader.t) (w : world) :
  exists self', PluginLoader.scan_items base_dir items self w = (Returns self', w).
Proof. rewrite scan_items_computes. eauto. Qed.

Lemma scan_plugin_directory_computes (self : PluginLoader.t) (base_dir : path)
    (w : world) :
  PluginLoader._scan_plugin_directory self base_dir w =
  (Returns
     {| PluginLoader._plugins :=
          merge_scanned w (root_items w base_dir) (PluginLoader._plugins self);
        PluginLoader._loaded := PluginLoader._loaded self |}, w).
Proof.
  unfold PluginLoader._scan_plugin_directory, root_items. run_calls.
  destruct (FS.lookup base_dir w) as [[s|es]|]; run_calls;
    try (now destruct self).
  now rewrite scan_items_computes.
Qed.

(** A full load, from a loader that has not loaded yet. *)
Lemma load_all_computes (self : PluginLoader.t) (w : world) :
  PluginLoader._loaded self = false ->
  PluginLoader.load_all self w =
  (Returns (loaded_plugins w,
            {| PluginLoader._plugins := loaded_plugins w;
               PluginLoader._loaded := true |}), w).
Proof.
  intros Hfresh.
  unfold PluginLoader.load_all, loaded_plugins, scan_order,
    PluginLoader.get_plugin_directories.
  rewrite Hfresh, merge_scanned_app. run_calls.
  unfold root_items at 1 2 3 4.
  destruct (FS.lookup PluginLoader.EXTENSION_PLUGIN_PATH w) as [[s|es]|] eqn:He;
    destruct (FS.lookup PluginLoader.USER_PLUGIN_PATH w) as [[s'|es']|] eqn:Hu;
    simpl; run_calls;
    rewrite ?scan_plugin_directory_computes; run_calls;
    rewrite ?scan_plugin_directory_computes; run_calls;
    unfold root_items; rewrite ?He, ?Hu; reflexivity.
Qed.

Lemma get_plugin_computes (name : string) (w : world) :
  PluginLoader.get_plugin PluginLoader.init name w =
  (Returns (loaded_plugins w !! name,
            {| PluginLoader._plugins := loaded_plugins w;
               PluginLoader._loaded := true |}), w).
Proof.
  unfold PluginLoader.get_plugin, bind.
  now rewrite load_all_computes.
Qed.

Lemma get_all_plugins_computes (w : world) :
  PluginLoader.get_all_plugins PluginLoader.init w =
  (Returns (loaded_plugins w,
            {| PluginLoader._plugins := loaded_plugins w;
               PluginLoader._loaded := true |}), w).
Proof.
  unfold PluginLoader.get_all_plugins, bind.
  now rewrite load_all_computes.
Qed.

(** *** Last writer wins *)

(** Names that no scanned item carries keep their record. *)
Lemma merge_scanned_other (w : world) (scanned : list (path * string))
    (name : string) :
  forall (plugins : gmap string PluginConfig.t),
  (forall base_dir item config,
     In (base_dir, item) scanned ->
     found_config w base_dir item = Some config ->
     PluginConfig.name config <> name) ->
  merge_scanned w scanned plugins !! name = plugins !! name.
Proof.
  induction scanned as [|[b i] scanned IH]; intros plugins Hother; auto.
  rewrite merge_scanned_cons.
  rewrite IH by (intros; eapply Hother; eauto; now right).
  simpl. destruct (found_config w b i) as [config|] eqn:Hf; auto.
  apply lookup_insert_ne. eapply Hother; eauto. now left.
Qed.

(** The record of an item that no later item overrides is the one the
    map holds under its name. *)
Lemma merge_scanned_wins (w : world) (before after : list (path * string))
    (base_dir : path) (item : string) (config : PluginConfig.t)
    (plugins : gmap string PluginConfig.t) :
  found_config w base_dir item = Some config ->
  (forall b i c, In (b, i) after -> found_config w b i = Some c ->
     PluginConfig.name c <> PluginConfig.name config) ->
  merge_scanned w (before ++ (base_dir, item) :: after) plugins
    !! PluginConfig.name config = Some config.
Proof.
  intros Hf Hafter.
  rewrite merge_scanned_app, merge_scanned_cons. simpl. rewrite Hf.
  rewrite merge_scanned_other by exact Hafter.
  apply lookup_insert_eq.
Qed.


End LoaderScan.

(** ** Reading one descriptor *)

Section LoaderDescriptor.
Context `{Environment}.

Lemma py_get_dict (d : list (string * json)) (k : string) (default : json) :
  PluginLoader.py_get (JDict d) k default = ret (PyDict.get_default k default d).
Proof. reflexivity. Qed.

Lemma py_items_dict (d : list (string * json)) :
  PluginLoader.py_items (JDict d) = ret d.
Proof. reflexivity. Qed.

(** What a record that [build_config] returns was built from. *)
Lemma build_config_inv (data : json) (plugin_path : path) (w w' : world)
    (config : PluginConfig.t) :
  PluginLoader.build_config data plugin_path w = (Returns (Some config), w') ->
  exists d n l cf sd parsed,
    data = JDict d /\
    PyDict.get "name" d = Some (JStr n) /\
    n <> EmptyString /\
    PluginConfig.name config = n /\
    PluginConfig.display_name config =
      PyDict.get_default "displayName"
        (JStr (PyStr.title (PyStr.replace "-" " " n))) d /\
    PluginConfig.plugin_path config = plugin_path /\
    PyDict.get_default "launch" (JDict []) d = JDict l /\
    PyDict.get_default "conditionalFlags" (JDict []) l = JDict cf /\
    PyDict.get_default "settings" (JDict []) d = JDict sd /\
    PluginLoader.parse_settings sd ∅ w = (Returns parsed, w) /\
    PluginLoader.generate_flag_settings cf parsed w
      = (Returns (PluginConfig.settings config), w).
Proof.
  unfold PluginLoader.build_config.
  destruct data as [| | | | | |d]; try discriminate.
  rewrite !py_get_dict. run_calls.
  destruct (Json.truthy (PyDict.get_default "name" (JStr "") d)) eqn:Htruthy;
    run_calls; [|discriminate].
  destruct (PyDict.get_default "name" (JStr "") d) as [| | | |n| |] eqn:Hname;
    try discriminate.
  run_calls.
  destruct (PyDict.get_default "launch" (JDict []) d) as [| | | | | |l] eqn:Hl;
    try discriminate.
  rewrite !py_get_dict. run_calls.
  destruct (PyDict.get_default "settings" (JDict []) d) as [| | | | | |sd] eqn:Hsd;
    try discriminate.
  rewrite py_items_dict. run_calls.
  pose proof (reads_only_parse_settings sd ∅ w) as Hr1.
  destruct (PluginLoader.parse_settings sd ∅ w) as [[parsed|e] w1] eqn:Hps;
    simpl in Hr1; subst w1; [|discriminate].
  destruct (PyDict.get_default "conditionalFlags" (JDict []) l)
    as [| | | | | |cf] eqn:Hcf; try discriminate.
  rewrite py_items_dict. run_calls.
  pose proof (reads_only_generate_flag_settings cf parsed w) as Hr2.
  destruct (PluginLoader.generate_flag_settings cf parsed w)
    as [[settings|e] w2] eqn:Hgs;
    simpl in Hr2; subst w2; [|discriminate].
  destruct (PyDict.get_default "features" (JDict []) d) as [| | | | | |ft];
    try discriminate.
  rewrite !py_get_dict. run_calls. intros [= <- <-].
  exists d, n, l, cf, sd, parsed. simpl.
  assert (Hn : n <> EmptyString).
  { intros ->. discriminate. }
  repeat apply conj; auto.
  unfold PyDict.get_default in Hname.
  destruct (PyDict.get "name" d); congruence.
Qed.

End LoaderDescriptor.

(** ** Launch-flag settings and full loads *)

Section LoaderTheorems.
Context `{Environment}.

Lemma load_plugin_config_inv (config_file plugin_path : path) (w w' : world)
    (config : PluginConfig.t) :
  PluginLoader._load_plugin_config config_file plugin_path w
    = (Returns (Some config), w') ->
  exists text data,
    FS.lookup config_file w = Some (File text) /\
    json_loads text = Some data /\
    PluginLoader.build_config data plugin_path w = (Returns (Some config), w').
Proof.
  unfold PluginLoader._load_plugin_config. run_calls.
  destruct (FS.lookup config_file w) as [[text|es]|]; run_calls;
    try (simpl; run_calls; discriminate).
  destruct (json_loads text) as [data|] eqn:Hj; run_calls.
  - intros Hb. exists text, data. auto.
  - destruct (caught_by (json_load_error text) [JSONDecodeError; OSError]);
      discriminate.
Qed.


(** The loop over the conditional flags keeps every setting it finds and
    adds, for each flag key under [launchFlags.] whose stripped key has no
    setting yet, the launch-flag setting of that key. *)
Lemma generate_flag_settings_spec (items : list (string * json)) (w : world) :
  forall (settings settings' : gmap string PluginSetting.t),
  PluginLoader.generate_flag_settings items settings w = (Returns settings', w) ->
  (forall k s, settings !! k = Some s -> settings' !! k = Some s) /\
  (forall flag_key flags,
     In (flag_key, flags) items ->
     PyStr.startswith flag_key "launchFlags." = true ->
     match settings !! PyStr.replace "launchFlags." "" flag_key with
     | Some explicit =>
         settings' !! PyStr.replace "launchFlags." "" flag_key = Some explicit
     | None =>
         exists joined,
           settings' !! PyStr.replace "launchFlags." "" flag_key
           = Some (PluginLoader.launch_flag_setting
                     (PyStr.replace "launchFlags." "" flag_key) joined)
     end).
Proof.
  induction items as [|[fk fl] items IH]; intros settings settings' Hrun.
  - injection Hrun as <-. split; auto. intros ? ? [].
  - cbn [PluginLoader.generate_flag_settings] in Hrun.
    destruct (PyStr.startswith fk "launchFlags.") eqn:Hstart.
    2: { destruct (IH _ _ Hrun) as [Hkeep Hflags]. split; auto.
         intros flag_key flags [[= -> ->]|Hin] Hs; [congruence|].
         exact (Hflags _ _ Hin Hs). }
    destruct (settings !! PyStr.replace "launchFlags." "" fk) as [s0|] eqn:Hs0.
    { destruct (IH _ _ Hrun) as [Hkeep Hflags]. split; auto.
      intros flag_key flags [[= <- <-]|Hin] Hs; [|exact (Hflags _ _ Hin Hs)].
      rewrite Hs0. auto. }
    unfold bind in Hrun.
    pose proof (reads_only_join_flags fl w) as Hr.
    destruct (PluginLoader.join_flags fl w) as [[joined|e] w1];
      simpl in Hr; subst w1; [|discriminate].
    destruct (IH _ _ Hrun) as [Hkeep Hflags]. split.
    + intros k s Hk. apply Hkeep. rewrite lookup_insert_ne; auto.
      intros <-. congruence.
    + intros flag_key flags [[= <- <-]|Hin] Hs.
      * rewrite Hs0. exists joined. apply Hkeep. apply lookup_insert_eq.
      * specialize (Hflags _ _ Hin Hs).
        destruct (decide (PyStr.replace "launchFlags." "" fk
                          = PyStr.replace "launchFlags." "" flag_key)) as [E|E].
        -- rewrite <- E in *. rewrite Hs0.
           rewrite lookup_insert_eq in Hflags. eauto.
        -- rewrite lookup_insert_ne in Hflags by auto. exact Hflags.
Qed.

(** A key with no further [launchFlags.] in it is stripped of its prefix
    and nothing else. *)
Lemma replace_without_occurrence (old new s : string) :
  PyStr.contains old s = false -> PyStr.replace_from old new 0 s = s.
Proof.
  induction s as [|a s IH]; intros Hc; [reflexivity|].
  rewrite contains_cons in Hc. apply orb_false_iff in Hc. destruct Hc as [Hp Hc].
  cbn [PyStr.replace_from]. rewrite Hp, (IH Hc). reflexivity.
Qed.

Lemma strip_prefix_app (p s rest : string) :
  strip_prefix p s = Some rest -> s = p +:+ rest.
Proof.
  revert s. induction p as [|a p IH]; intros s Hs.
  - destruct s; simpl in Hs; injection Hs as <-; reflexivity.
  - destruct s as [|b s]; simpl in Hs; [discriminate|].
    destruct (Ascii.eqb_spec a b); [|discriminate].
    subst b. change (String a p +:+ rest) with (String a (p +:+ rest)).
    f_equal. auto.
Qed.

Lemma stripped_key_is_suffix (flag_key rest : string) :
  strip_prefix "launchFlags." flag_key = Some rest ->
  PyStr.contains "launchFlags." rest = false ->
  PyStr.replace "launchFlags." "" flag_key = rest.
Proof.
  intros Hstrip Hno.
  rewrite (strip_prefix_app _ _ _ Hstrip).
  unfold PyStr.replace.
  change ("launchFlags." +:+ rest)
    with (String "l" ("aunchFlags." +:+ rest)).
  cbn [PyStr.replace_from].
  replace (String.prefix "launchFlags." (String "l" ("aunchFlags." +:+ rest)))
    with true.
  2: { symmetry. change (String "l" ("aunchFlags." +:+ rest))
         with ("launchFlags." +:+ rest).
       apply prefix_app. reflexivity. }
  simpl. now apply replace_without_occurrence.
Qed.

Lemma valid_descriptor_inv (w : world) (base_dir : path) (item : string)
    (config : PluginConfig.t) :
  valid_descriptor w base_dir item config ->
  exists text data,
    FS.lookup (Os.join (Os.join base_dir item) "config.json") w
      = Some (File text) /\
    json_loads text = Some data /\
    PluginLoader.build_config data (Os.join base_dir item) w
      = (Returns (Some config), w).
Proof. intros (_ & _ & Hload). now apply load_plugin_config_inv. Qed.

(** C3.  Let a descriptor load to a record, and let its [conditionalFlags]
    hold an entry whose key starts with [launchFlags.]; the stripped key
    is that key with [launchFlags.] removed ([str.replace]; lemma
    [stripped_key_is_suffix]).  When the stripped key is not a key of the
    settings parsed from the [settings] block, the record's settings hold
    under it a setting whose key is the stripped key, whose type is
    [launch_flag] and whose label is the key split at its camel-case
    boundaries and title-cased; when it is a key of the parsed settings,
    the record holds that explicit setting unchanged. *)
Theorem launch_flag_setting_synthesized
    (config_file plugin_path : path) (w : world) (config : PluginConfig.t)
    (text : string) (d l cf sd : list (string * json))
    (parsed : gmap string PluginSetting.t) (flag_key : string) (flags : json) :
  FS.lookup config_file w = Some (File text) ->
  json_loads text = Some (JDict d) ->
  PluginLoader._load_plugin_config config_file plugin_path w
    = (Returns (Some config), w) ->
  PyDict.get_default "launch" (JDict []) d = JDict l ->
  PyDict.get_default "conditionalFlags" (JDict []) l = JDict cf ->
  PyDict.get_default "settings" (JDict []) d = JDict sd ->
  PluginLoader.parse_settings sd ∅ w = (Returns parsed, w) ->
  In (flag_key, flags) cf ->
  PyStr.startswith flag_key "launchFlags." = true ->
  match parsed !! PyStr.replace "launchFlags." "" flag_key with
  | None =>
      exists setting,
        PluginConfig.settings config !! PyStr.replace "launchFlags." "" flag_key
          = Some setting /\
        PluginSetting.key setting = PyStr.replace "launchFlags." "" flag_key /\
        PluginSetting.type setting = JStr "launch_flag" /\
        PluginSetting.label setting =
          JStr (PyStr.title
                  (PyStr.camel_sub (PyStr.replace "launchFlags." "" flag_key)))
  | Some explicit =>
      PluginConfig.settings config !! PyStr.replace "launchFlags." "" flag_key
        = Some explicit
  end.
Proof.
  intros Hfile Hjson Hload Hl Hcf Hsd Hparsed Hin Hstart.
  destruct (load_plugin_config_inv _ _ _ _ _ Hload)
    as (text' & data & Hfile' & Hjson' & Hbuild).
  rewrite Hfile in Hfile'. injection Hfile' as <-.
  rewrite Hjson in Hjson'. injection Hjson' as <-.
  destruct (build_config_inv _ _ _ _ _ Hbuild)
    as (d' & n & l' & cf' & sd' & parsed' & [= <-] & _ & _ & _ & _ & _
        & Hl' & Hcf' & Hsd' & Hparsed' & Hgen).
  rewrite Hl in Hl'. injection Hl' as <-.
  rewrite Hcf in Hcf'. injection Hcf' as <-.
  rewrite Hsd in Hsd'. injection Hsd' as <-.
  rewrite Hparsed in Hparsed'. injection Hparsed' as <-.
  destruct (generate_flag_settings_spec _ _ _ _ Hgen) as [_ Hflags].
  specialize (Hflags _ _ Hin Hstart).
  destruct (parsed !! PyStr.replace "launchFlags." "" flag_key); auto.
  destruct Hflags as [joined Hs]. eexists. split; [exact Hs|]. auto.
Qed.





(** C9 (as amended).  Let a scanned descriptor file hold the name [n],
    load to a record, and be followed in the scan by no descriptor of the
    same name.  Then [get_plugin(n)], after the load it triggers, returns
    that record; its name is [n] and its display name is the descriptor's
    [displayName] when it gives one, and otherwise [n] with hyphens
    replaced by spaces, title-cased. *)
Theorem display_name_of_winning_descriptor (w : world) (base_dir : path)
    (item : string) (before after : list (path * string)) (text : string)
    (d : list (string * json)) (n : string) (config : PluginConfig.t) :
  scan_order w = before ++ (base_dir, item) :: after ->
  FS.lookup (Os.join (Os.join base_dir item) "config.json") w
    = Some (File text) ->
  json_loads text = Some (JDict d) ->
  PyDict.get "name" d = Some (JStr n) ->
  valid_descriptor w base_dir item config ->
  (forall b i c,
     In (b, i) after -> valid_descriptor w b i c -> PluginConfig.name c <> n) ->
  exists loader,
    PluginLoader.get_plugin PluginLoader.init n w
      = (Returns (Some config, loader), w) /\
    PluginConfig.name config = n /\
    PluginConfig.display_name config =
      match PyDict.get "displayName" d with
      | Some explicit => explicit
      | None => JStr (PyStr.title (PyStr.replace "-" " " n))
      end.
Proof.
  intros Hsplit Hfile Hjson Hname Hv Hlater.
  destruct (valid_descriptor_inv _ _ _ _ Hv)
    as (text' & data & Hfile' & Hjson' & Hb).
  rewrite Hfile in Hfile'. injection Hfile' as <-.
  rewrite Hjson in Hjson'. injection Hjson' as <-.
  destruct (build_config_inv _ _ _ _ _ Hb)
    as (d' & n' & ? & ? & ? & ? & [= <-] & Hname' & _ & Hn & Hdisplay & _).
  rewrite Hname in Hname'. injection Hname' as <-.
  exists {| PluginLoader._plugins := loaded_plugins w;
            PluginLoader._loaded := true |}.
  assert (Hl : loaded_plugins w !! n = Some config).
  { unfold loaded_plugins. rewrite Hsplit, <- Hn.
    apply merge_scanned_wins; [now apply found_config_valid|].
    intros b i c Hin Hf. rewrite Hn. eapply Hlater; eauto.
    now apply found_config_valid. }
  split_all; auto.
  now rewrite get_plugin_computes, Hl.
Qed.

End LoaderTheorems.

(** * Further properties *)

(** ** Files that a call leaves alone *)

Lemma file_at_nil (w : world) : file_at [] w = None.
Proof. reflexivity. Qed.

Lemma file_at_cons (a : string) (q : path) (w : world) :
  file_at (a :: q) w =
  match PyDict.get a w with
  | Some (File s) => match q with [] => Some s | _ :: _ => None end
  | Some (Dir es) => file_at q es
  | None => None
  end.
Proof.
  unfold file_at. simpl. destruct (PyDict.get a w) as [[s|es]|]; auto.
  now destruct q.
Qed.

Lemma file_at_empty_dir (q : path) : file_at q [] = None.
Proof. destruct q; reflexivity. Qed.

(** [os.makedirs] creates directories: every regular file stays what it
    was, and no regular file appears. *)
Lemma mkdirs_files (whole p : path) : forall (w w1 : list (string * node)) (q : path),
  FS.mkdirs_at whole p w = inr w1 -> file_at q w1 = file_at q w.
Proof.
  induction p as [|c p IH]; intros w w1 q Hm; simpl in Hm.
  - congruence.
  - destruct q as [|a q]; [reflexivity|].
    rewrite !file_at_cons.
    destruct (PyDict.get c w) as [[s|es]|] eqn:Hg; try discriminate.
    + destruct (FS.mkdirs_at whole p es) as [e|es'] eqn:Hr; [discriminate|].
      injection Hm as <-.
      destruct (decide (c = a)) as [<-|Hne].
      * rewrite dict_get_set_same, Hg. eauto.
      * now rewrite dict_get_set_other.
    + destruct (FS.mkdirs_at whole p []) as [e|es'] eqn:Hr; [discriminate|].
      injection Hm as <-.
      destruct (decide (c = a)) as [<-|Hne].
      * rewrite dict_get_set_same, Hg, (IH _ _ q Hr). apply file_at_empty_dir.
      * now rewrite dict_get_set_other.
Qed.

(** Writing a file changes the text of that file and of no other. *)
Lemma put_file_files (whole p : path) (f : option string -> string) :
  forall (w w1 : list (string * node)) (q : path),
  FS.put_file_at whole p f w = inr w1 -> q <> p -> file_at q w1 = file_at q w.
Proof.
  induction p as [|c p IH]; intros w w1 q Hput Hq; simpl in Hput; [discriminate|].
  destruct q as [|a q]; [reflexivity|].
  rewrite !file_at_cons.
  destruct p as [|c2 p].
  - destruct (decide (c = a)) as [<-|Hne].
    + assert (Hq' : q <> []) by congruence.
      destruct (PyDict.get c w) as [[s|es]|] eqn:Hg; try discriminate;
        injection Hput as <-; rewrite dict_get_set_same;
        destruct q; congruence.
    + destruct (PyDict.get c w) as [[s|es]|] eqn:Hg; try discriminate;
        injection Hput as <-; now rewrite dict_get_set_other.
  - destruct (PyDict.get c w) as [[s|es]|] eqn:Hg; try discriminate.
    destruct (FS.put_file_at whole (c2 :: p) f es) as [e|es'] eqn:Hr;
      [discriminate|].
    injection Hput as <-.
    destruct (decide (c = a)) as [<-|Hne].
    + rewrite dict_get_set_same, Hg. apply (IH _ _ _ Hr). congruence.
    + now rewrite dict_get_set_other.
Qed.

(** After a write the file holds what was written. *)
Lemma put_file_result (whole p : path) (f : option string -> string) :
  forall (w w1 : list (string * node)),
  FS.put_file_at whole p f w = inr w1 ->
  file_at p w1 = Some (f (file_at p w)).
Proof.
  induction p as [|c p IH]; intros w w1 Hput; simpl in Hput; [discriminate|].
  rewrite !file_at_cons.
  destruct p as [|c2 p].
  - destruct (PyDict.get c w) as [[s|es]|] eqn:Hg; try discriminate;
      injection Hput as <-; now rewrite dict_get_set_same.
  - destruct (PyDict.get c w) as [[s|es]|] eqn:Hg; try discriminate.
    destruct (FS.put_file_at whole (c2 :: p) f es) as [e|es'] eqn:Hr;
      [discriminate|].
    injection Hput as <-. rewrite dict_get_set_same. eauto.
Qed.

(** A write that fails leaves a directory or nothing where it was aimed. *)
Lemma put_file_fails_not_file (whole p : path) (f : option string -> string) :
  forall (w : list (string * node)) (e : exn),
  FS.put_file_at whole p f w = inl e -> file_at p w = None.
Proof.
  induction p as [|c p IH]; intros w e Hput; simpl in Hput; [reflexivity|].
  rewrite file_at_cons.
  destruct p as [|c2 p].
  - destruct (PyDict.get c w) as [[s|es]|] eqn:Hg; try discriminate; auto.
  - destruct (PyDict.get c w) as [[s|es]|] eqn:Hg; auto.
    destruct (FS.put_file_at whole (c2 :: p) f es) as [e'|es'] eqn:Hr;
      [eauto|discriminate].
Qed.

Lemma writes_only_reads {A : Type} (p : path) (m : M A) :
  reads_only m -> writes_only p m.
Proof. intros Hr w q _. now rewrite Hr. Qed.

Lemma writes_only_bind {A B : Type} (p : path) (m : M A) (k : A -> M B) :
  writes_only p m -> (forall a, writes_only p (k a)) -> writes_only p (bind m k).
Proof.
  intros Hm Hk w q Hq. unfold bind. specialize (Hm w q Hq).
  destruct (m w) as [[a|e] w']; simpl in *; [|exact Hm].
  now rewrite (Hk a w' q Hq).
Qed.

Lemma writes_only_try {A : Type} (p : path) (body : M A)
    (classes : list exc_class) (handler : exn -> M A) :
  writes_only p body -> (forall e, writes_only p (handler e)) ->
  writes_only p (try_except body classes handler).
Proof.
  intros Hb Hh w q Hq. unfold try_except. specialize (Hb w q Hq).
  destruct (body w) as [[a|e] w']; simpl in *; [exact Hb|].
  destruct (caught_by e classes); [|exact Hb].
  now rewrite (Hh e w' q Hq).
Qed.

Lemma writes_only_makedirs (p d : path) : writes_only p (Os.makedirs d).
Proof.
  intros w q _. unfold Os.makedirs.
  destruct (FS.mkdirs d w) as [e|w'] eqn:Hm; [reflexivity|].
  simpl. eapply mkdirs_files; eauto.
Qed.

Lemma writes_only_write_file (p : path) (s : string) :
  writes_only p (Os.write_file p s).
Proof.
  intros w q Hq. unfold Os.write_file.
  destruct (FS.put_file p _ w) as [e|w'] eqn:Hput; [reflexivity|].
  simpl. eapply put_file_files; eauto.
Qed.

Lemma writes_only_append_file (p : path) (s : string) :
  writes_only p (Os.append_file p s).
Proof.
  intros w q Hq. unfold Os.append_file.
  destruct (FS.put_file p _ w) as [e|w'] eqn:Hput; [reflexivity|].
  simpl. eapply put_file_files; eauto.
Qed.

Create HintDb writes_only_db.
#[global] Hint Resolve writes_only_makedirs writes_only_write_file
  writes_only_append_file : writes_only_db.
#[global] Hint Extern 1 (writes_only _ _) =>
  apply writes_only_reads; solve [auto with reads_only_db] : writes_only_db.

Ltac writes_only_tac :=
  repeat first
    [ solve [auto with writes_only_db]
    | apply writes_only_bind; [|intros ?]
    | apply writes_only_try; [|intros ?]
    | match goal with
      | |- writes_only _ (if ?b then _ else _) => destruct b
      | |- writes_only _ (match ?x with _ => _ end) => destruct x
      end ].

(** ** The text handlers *)

Lemma file_at_lookup (p : path) (w : world) (s : string) :
  file_at p w = Some s <-> FS.lookup p w = Some (File s).
Proof.
  unfold file_at. destruct (FS.lookup p w) as [[t|es]|]; split; congruence.
Qed.

(** X1.  [FileContainsCheckHandler.check] leaves the world alone.  On a
    regular file whose bytes decode it returns whether the text read
    (each carriage return, with the line feed after it if there is one,
    read as a line feed) holds the pattern.  On a regular file whose bytes
    do not decode it raises [UnicodeDecodeError], which [except IOError]
    does not catch, and [execute] returns [(False, message)].  For a
    missing path and for a directory it returns [False]. *)
Theorem file_contains_check_spec (self : FileContainsCheckHandler.t) (w : world) :
  match file_at (FileContainsCheckHandler.path_ self) w with
  | Some content =>
      match TextIO.read content with
      | Some text =>
          let found := PyStr.contains (FileContainsCheckHandler.pattern self) text in
          check self w = (Returns found, w) /\
          CheckHandler.execute self w = (Returns (found, None), w)
      | None =>
          exists e,
            exn_class e = UnicodeDecodeError /\
            check self w = (Raises e, w) /\
            CheckHandler.execute self w = (Returns (false, Some (exn_msg e)), w)
      end
  | None =>
      check self w = (Returns false, w) /\
      CheckHandler.execute self w = (Returns (false, None), w)
  end.
Proof.
  rewrite check_execute_computes.
  unfold check, FileContainsCheckHandler.handler,
    FileContainsCheckHandler.check_, file_at.
  run_calls.
  destruct (FS.lookup (FileContainsCheckHandler.path_ self) w) as [[content|es]|] eqn:Hl;
    run_calls; rewrite ?Hl; run_calls; auto.
  destruct (TextIO.read content) as [text|]; run_calls; auto.
  exists (Exn UnicodeDecodeError "'utf-8' codec can't decode bytes").
  split_all; reflexivity.
Qed.


(** X3.  [configure] and [execute] of the text-append handler and of the
    structured-key set handler write to their target only: whatever they
    return or raise, every other path names the regular file it named
    before, with the same text, or none as before (directories are all
    that [os.makedirs] adds). *)
Theorem writing_handlers_touch_only_target `{Environment}
    (appender : FileAppendConfigureHandler.t) (setter : JsonSetConfigureHandler.t) :
  writes_only (FileAppendConfigureHandler.path_ appender) (configure appender) /\
  writes_only (FileAppendConfigureHandler.path_ appender)
    (ConfigureHandler.execute appender) /\
  writes_only (JsonSetConfigureHandler.path_ setter) (configure setter) /\
  writes_only (JsonSetConfigureHandler.path_ setter)
    (ConfigureHandler.execute setter).
Proof.
  assert (Ha : writes_only (FileAppendConfigureHandler.path_ appender)
                 (configure appender)).
  { unfold configure, FileAppendConfigureHandler.handler,
      FileAppendConfigureHandler.configure_.
    writes_only_tac. }
  assert (Hs : writes_only (JsonSetConfigureHandler.path_ setter)
                 (configure setter)).
  { unfold configure, JsonSetConfigureHandler.handler,
      JsonSetConfigureHandler.configure_.
    pose proof reads_only_json_load.
    writes_only_tac. }
  split_all; auto; unfold ConfigureHandler.execute; writes_only_tac.
Qed.

(** ** The structured-key handlers *)

Section JsonSet.
Context `{Environment}.

Lemma set_path_dict (k k2 : string) (rest : list string) (v : json)
    (d : list (string * json)) :
  JsonSetConfigureHandler.set_path (k :: k2 :: rest) v (JDict d) =
  match JsonSetConfigureHandler.set_path (k2 :: rest) v
          match PyDict.get k d with
          | Some c => c
          | None => JDict []
          end with
  | inl e => inl e
  | inr child' => inr (JDict (PyDict.set k child' d))
  end.
Proof. reflexivity. Qed.


Lemma set_path_navigate (keys : list string) (v : json) :
  forall (d d' : json),
  keys <> [] ->
  JsonSetConfigureHandler.set_path keys v d = inr d' ->
  JsonKeyCheckHandler.navigate keys d' = Some v.
Proof.
  induction keys as [|k keys IH]; intros d d' Hk Hs; [congruence|].
  destruct keys as [|k2 rest].
  - simpl in Hs. unfold JsonSetConfigureHandler.setitem in Hs.
    destruct d; try discriminate. injection Hs as <-.
    simpl. now rewrite dict_get_set_same.
  - destruct d as [| | | | | |dd]; try discriminate.
    rewrite set_path_dict in Hs.
    destruct (JsonSetConfigureHandler.set_path (k2 :: rest) v _) as [e|child'] eqn:Hc;
      [discriminate|].
    injection Hs as <-.
    cbn [JsonKeyCheckHandler.navigate]. rewrite dict_get_set_same.
    eapply IH; eauto.
Qed.

Lemma diverge_not_nil (ks keys : list string) :
  diverge ks keys = true -> ks <> [].
Proof. destruct ks; [discriminate|intros _; discriminate]. Qed.

Lemma navigate_empty_doc (ks : list string) :
  ks <> [] -> JsonKeyCheckHandler.navigate ks (JDict []) = None.
Proof. destruct ks; [congruence|reflexivity]. Qed.

Lemma set_path_frame (keys : list string) (v : json) :
  forall (ks : list string) (d d' : json),
  JsonSetConfigureHandler.set_path keys v d = inr d' ->
  diverge ks keys = true ->
  JsonKeyCheckHandler.navigate ks d' = JsonKeyCheckHandler.navigate ks d.
Proof.
  induction keys as [|k keys IH]; intros ks d d' Hs Hd.
  - destruct ks; discriminate.
  - destruct ks as [|a ks]; [discriminate|].
    cbn [diverge] in Hd.
    destruct keys as [|k2 rest].
    + simpl in Hs. unfold JsonSetConfigureHandler.setitem in Hs.
      destruct d as [| | | | | |dd]; try discriminate. injection Hs as <-.
      destruct (String.eqb_spec a k) as [->|Hne].
      * destruct ks; discriminate.
      * cbn [JsonKeyCheckHandler.navigate].
        rewrite dict_get_set_other; auto.
    + destruct d as [| | | | | |dd]; try discriminate.
      rewrite set_path_dict in Hs.
      destruct (JsonSetConfigureHandler.set_path (k2 :: rest) v _)
        as [e|child'] eqn:Hc; [discriminate|].
      injection Hs as <-.
      cbn [JsonKeyCheckHandler.navigate].
      destruct (String.eqb_spec a k) as [->|Hne].
      * rewrite dict_get_set_same.
        rewrite (IH _ _ _ Hc Hd).
        destruct (PyDict.get k dd); auto.
        apply navigate_empty_doc. eapply diverge_not_nil; eauto.
      * rewrite dict_get_set_other; auto.
Qed.


Lemma document_at_makedirs (p d : path) (w w0 : world) :
  FS.mkdirs d w = inr w0 -> document_at p w0 = document_at p w.
Proof.
  intros Hm. unfold document_at, FS.mkdirs in *.
  now rewrite (mkdirs_files _ _ _ _ p Hm).
Qed.

Lemma load_escapes_makedirs (p d : path) (w w0 : world) :
  FS.mkdirs d w = inr w0 -> load_escapes p w0 = load_escapes p w.
Proof.
  intros Hm. unfold load_escapes, FS.mkdirs in *.
  now rewrite (mkdirs_files _ _ _ _ p Hm).
Qed.

(** What [configure] of the structured-key set handler computes. *)
Lemma json_set_configure_computes (self : JsonSetConfigureHandler.t) (w : world) :
  configure self w =
  match FS.mkdirs (Os.dirname (JsonSetConfigureHandler.path_ self)) w with
  | inl e => (Raises e, w)
  | inr w0 =>
      match load_escapes (JsonSetConfigureHandler.path_ self) w with
      | Some e => (Raises e, w0)
      | None =>
          match JsonSetConfigureHandler.set_path
                  (PyStr.split "." (JsonSetConfigureHandler.key self))
                  (JsonSetConfigureHandler.value self)
                  (document_at (JsonSetConfigureHandler.path_ self) w) with
          | inl e => (Raises e, w0)
          | inr data' =>
              match FS.put_file (JsonSetConfigureHandler.path_ self)
                      (fun _ => json_dumps (Some 2%nat) data') w0 with
              | inl e => (Raises e, w0)
              | inr w1 => (Returns true, w1)
              end
          end
      end
  end.
Proof.
  unfold configure, JsonSetConfigureHandler.handler,
    JsonSetConfigureHandler.configure_.
  run_calls.
  destruct (FS.mkdirs _ w) as [e|w0] eqn:Hmk; [reflexivity|].
  rewrite <- (document_at_makedirs _ _ _ _ Hmk).
  rewrite <- (load_escapes_makedirs _ _ _ _ Hmk).
  unfold document_at, load_escapes, file_at.
  destruct (FS.lookup (JsonSetConfigureHandler.path_ self) w0)
    as [[text|es]|] eqn:Hl; run_calls; rewrite ?Hl; run_calls.
  - destruct (json_loads text) as [data|]; cbv beta iota.
    + run_calls.
      destruct (JsonSetConfigureHandler.set_path _ _ _); auto;
        destruct (FS.put_file _ _ w0); auto.
    + destruct (caught_by (json_load_error text) [JSONDecodeError; OSError]);
        [|reflexivity].
      run_calls.
      destruct (JsonSetConfigureHandler.set_path _ _ _); auto;
        destruct (FS.put_file _ _ w0); auto.
  - simpl. run_calls.
    destruct (JsonSetConfigureHandler.set_path _ _ _); auto;
      destruct (FS.put_file _ _ w0); auto.
  - destruct (JsonSetConfigureHandler.set_path _ _ _); auto;
      destruct (FS.put_file _ _ w0); auto.
Qed.

(** What a successful [configure] wrote. *)
Lemma json_set_configure_inv (self : JsonSetConfigureHandler.t) (w w' : world) :
  configure self w = (Returns true, w') ->
  exists data',
    JsonSetConfigureHandler.set_path
      (PyStr.split "." (JsonSetConfigureHandler.key self))
      (JsonSetConfigureHandler.value self)
      (document_at (JsonSetConfigureHandler.path_ self) w) = inr data' /\
    file_at (JsonSetConfigureHandler.path_ self) w'
      = Some (json_dumps (Some 2%nat) data') /\
    load_escapes (JsonSetConfigureHandler.path_ self) w = None.
Proof.
  rewrite json_set_configure_computes.
  destruct (FS.mkdirs _ w) as [e|w0]; [discriminate|].
  destruct (load_escapes _ w) as [e|]; [discriminate|].
  destruct (JsonSetConfigureHandler.set_path _ _ _) as [e|data'];
    [discriminate|].
  destruct (FS.put_file _ _ w0) as [e|w1] eqn:Hput; [discriminate|].
  intros [= <-]. exists data'. split_all; auto.
  unfold FS.put_file in Hput. now rewrite (put_file_result _ _ _ _ _ Hput).
Qed.

(** A file that holds a dump that reads back raises nothing when it is
    loaded. *)
Lemma load_escapes_read_back (p : path) (w : world) (content : string)
    (data : json) :
  file_at p w = Some content ->
  json_loads content = Some data ->
  load_escapes p w = None /\ document_at p w = data.
Proof.
  intros Hf Hj. unfold load_escapes, document_at. now rewrite Hf, Hj.
Qed.

Lemma json_key_check_on_document (self : JsonKeyCheckHandler.t) (w : world) :
  check self w =
  match load_escapes (JsonKeyCheckHandler.path_ self) w with
  | Some e => (Raises e, w)
  | None =>
      (Returns
         match JsonKeyCheckHandler.navigate
                 (PyStr.split "." (JsonKeyCheckHandler.key self))
                 (document_at (JsonKeyCheckHandler.path_ self) w) with
         | Some leaf => Json.py_eq leaf (JsonKeyCheckHandler.value self)
         | None => false
         end, w)
  end.
Proof.
  rewrite json_key_check_computes. unfold document_at, load_escapes, file_at.
  assert (Hnone : JsonKeyCheckHandler.navigate
                    (PyStr.split "." (JsonKeyCheckHandler.key self)) (JDict [])
                  = None).
  { apply navigate_empty_doc, split_not_empty. }
  destruct (FS.lookup (JsonKeyCheckHandler.path_ self) w) as [[text|es]|];
    rewrite ?Hnone; auto.
  destruct (json_loads text); rewrite ?Hnone; auto.
  destruct (caught_by _ _); rewrite ?Hnone; auto.
Qed.

End JsonSet.

(** ** Equality of a value with itself *)

Lemma json_nested_ind (P : json -> Prop) :
  P JNull ->
  (forall b, P (JBool b)) ->
  (forall z, P (JInt z)) ->
  (forall f, P (JFloat f)) ->
  (forall s, P (JStr s)) ->
  (forall l, Forall P l -> P (JList l)) ->
  (forall d, Forall (fun kv => P (snd kv)) d -> P (JDict d)) ->
  forall j, P j.
Proof.
  intros Hnull Hbool Hint Hfloat Hstr Hlist Hdict.
  fix IH 1. intros j. destruct j as [| b | z | f | s | l | d].
  - exact Hnull.
  - apply Hbool.
  - apply Hint.
  - apply Hfloat.
  - apply Hstr.
  - apply Hlist. revert l. fix IHl 1. intros [|x l]; constructor;
      [apply IH | apply IHl].
  - apply Hdict. revert d. fix IHd 1. intros [|[k v] d]; constructor;
      [apply IH | apply IHd].
Qed.

Lemma dict_get_nodup {V : Type} (d : list (string * V)) (k : string) (v : V) :
  NoDup (map fst d) -> In (k, v) d -> PyDict.get k d = Some v.
Proof.
  induction d as [|[k' v'] d IH]; intros Hnd Hin; [destruct Hin|].
  simpl in *. apply NoDup_cons in Hnd. destruct Hnd as [Hk' Hnd].
  destruct Hin as [[= -> ->]|Hin].
  - now rewrite String.eqb_refl.
  - destruct (String.eqb_spec k k') as [->|Hne]; auto.
    exfalso. apply Hk'. apply list_elem_of_In.
    change k' with (fst (k', v)). now apply in_map.
Qed.

(** [x == x] holds for every value that holds no NaN. *)
Lemma py_eq_refl (j : json) : plain j = true -> Json.py_eq j j = true.
Proof.
  induction j as [| b | z | f | s | l IHl | d IHd] using json_nested_ind;
    intros Hp; try reflexivity.
  - now destruct b.
  - simpl. rewrite Z.min_id, Z.sub_diag. apply Z.eqb_refl.
  - destruct f as [|b|m e]; [discriminate| |].
    + simpl. now destruct b.
    + simpl. rewrite Z.min_id, Z.sub_diag. apply Z.eqb_refl.
  - simpl. apply String.eqb_refl.
  - simpl in Hp. simpl.
    induction l as [|x l IH]; [reflexivity|].
    simpl in Hp. apply andb_true_iff in Hp. destruct Hp as [Hx Hl].
    inversion IHl as [|? ? Hx' Hl']; subst.
    rewrite (Hx' Hx). simpl. auto.
  - simpl in Hp. apply andb_true_iff in Hp. destruct Hp as [Hnd Hall].
    apply bool_decide_eq_true in Hnd.
    simpl. rewrite Nat.eqb_refl. simpl.
    assert (Hsub : forall d0, (forall kv, In kv d0 -> In kv d) ->
      (fix items (d1 : list (string * json)) : bool :=
         match d1 with
         | [] => true
         | (k, v) :: d' =>
             match PyDict.get k d with
             | Some v' => Json.py_eq v v'
             | None => false
             end && items d'
         end) d0 = true).
    { induction d0 as [|[k v] d0 IH0]; intros Hin; [reflexivity|].
      assert (Hkv : In (k, v) d) by (apply Hin; now left).
      rewrite (dict_get_nodup d k v Hnd Hkv).
      rewrite IH0 by (intros; apply Hin; now right).
      rewrite andb_true_r.
      rewrite Forall_forall in IHd. apply (IHd (k, v)).
      - now apply list_elem_of_In.
      - rewrite forallb_forall in Hall. apply (Hall (k, v) Hkv). }
    apply Hsub. auto.
Qed.

Section JsonSetTheorems.
Context `{Environment}.

(** X4.  Set, then check.  Let [configure] of the structured-key set
    handler return [True], and let the document it wrote read back as
    written ([json.loads] of [json.dumps]).  Then the structured-key check
    for the same path, key and value returns [value == value]: [True] for
    every value that holds no NaN. *)
Theorem json_set_then_check (self : JsonSetConfigureHandler.t) (w w' : world) :
  configure self w = (Returns true, w') ->
  (forall written,
     JsonSetConfigureHandler.set_path
       (PyStr.split "." (JsonSetConfigureHandler.key self))
       (JsonSetConfigureHandler.value self)
       (document_at (JsonSetConfigureHandler.path_ self) w) = inr written ->
     json_loads (json_dumps (Some 2%nat) written) = Some written) ->
  let checker :=
    {| JsonKeyCheckHandler.path_ := JsonSetConfigureHandler.path_ self;
       JsonKeyCheckHandler.key := JsonSetConfigureHandler.key self;
       JsonKeyCheckHandler.value := JsonSetConfigureHandler.value self |} in
  check checker w'
    = (Returns (Json.py_eq (JsonSetConfigureHandler.value self)
                  (JsonSetConfigureHandler.value self)), w') /\
  (plain (JsonSetConfigureHandler.value self) = true ->
   check checker w' = (Returns true, w')).
Proof.
  intros Hrun Hback checker.
  destruct (json_set_configure_inv self w w' Hrun) as (data' & Hset & Hfile & _).
  destruct (load_escapes_read_back _ _ _ _ Hfile (Hback _ Hset)) as [Hesc Hdoc].
  assert (Hc : check checker w'
               = (Returns (Json.py_eq (JsonSetConfigureHandler.value self)
                             (JsonSetConfigureHandler.value self)), w')).
  { rewrite json_key_check_on_document. subst checker.
    cbn [JsonKeyCheckHandler.path_ JsonKeyCheckHandler.key
         JsonKeyCheckHandler.value].
    rewrite Hesc, Hdoc.
    rewrite (set_path_navigate _ _ _ _ (split_not_empty _ _) Hset).
    reflexivity. }
  split; [exact Hc|].
  intros Hplain. now rewrite Hc, py_eq_refl.
Qed.

(** X5.  Setting one key leaves the other settings of the file alone.  Let
    [configure] of the structured-key set handler return [True], the
    document it wrote reading back as written.  For every key path that
    parts ways with the key that was set (neither is a beginning of the
    other) and every expected value, the structured-key check answers
    after the call what it answered before. *)
Theorem json_set_keeps_other_keys (self : JsonSetConfigureHandler.t)
    (w w' : world) (other_key : string) (expected : json) :
  configure self w = (Returns true, w') ->
  (forall written,
     JsonSetConfigureHandler.set_path
       (PyStr.split "." (JsonSetConfigureHandler.key self))
       (JsonSetConfigureHandler.value self)
       (document_at (JsonSetConfigureHandler.path_ self) w) = inr written ->
     json_loads (json_dumps (Some 2%nat) written) = Some written) ->
  diverge (PyStr.split "." other_key)
    (PyStr.split "." (JsonSetConfigureHandler.key self)) = true ->
  let checker :=
    {| JsonKeyCheckHandler.path_ := JsonSetConfigureHandler.path_ self;
       JsonKeyCheckHandler.key := other_key;
       JsonKeyCheckHandler.value := expected |} in
  fst (check checker w') = fst (check checker w).
Proof.
  intros Hrun Hback Hdiv checker.
  destruct (json_set_configure_inv self w w' Hrun)
    as (data' & Hset & Hfile & Hquiet).
  destruct (load_escapes_read_back _ _ _ _ Hfile (Hback _ Hset)) as [Hesc Hdoc].
  rewrite !json_key_check_on_document. subst checker.
  cbn [JsonKeyCheckHandler.path_ JsonKeyCheckHandler.key
       JsonKeyCheckHandler.value].
  rewrite Hesc, Hquiet, Hdoc. cbn [fst].
  now rewrite (set_path_frame _ _ _ _ _ Hset Hdiv).
Qed.





End JsonSetTheorems.

(** ** Setting a key twice *)

Lemma dict_set_twice {V : Type} (k : string) (v : V) (d : list (string * V)) :
  PyDict.set k v (PyDict.set k v d) = PyDict.set k v d.
Proof. apply dict_set_same_id, dict_get_set_same. Qed.

(** The navigation and assignment of the set handler, run on its own
    result, changes nothing. *)
Lemma set_path_twice (keys : list string) (v : json) :
  forall (d d' : json),
  JsonSetConfigureHandler.set_path keys v d = inr d' ->
  JsonSetConfigureHandler.set_path keys v d' = inr d'.
Proof.
  induction keys as [|k keys IH]; intros d d' Hs.
  - reflexivity.
  - destruct keys as [|k2 rest].
    + simpl in *. unfold JsonSetConfigureHandler.setitem in *.
      destruct d as [| | | | | |dd]; try discriminate. injection Hs as <-.
      now rewrite dict_set_twice.
    + destruct d as [| | | | | |dd]; try discriminate.
      rewrite set_path_dict in Hs.
      destruct (JsonSetConfigureHandler.set_path (k2 :: rest) v _)
        as [e|child'] eqn:Hc; [discriminate|].
      injection Hs as <-.
      rewrite set_path_dict, dict_get_set_same, (IH _ _ Hc).
      now rewrite dict_set_twice.
Qed.

(** Writing to a file the text it holds leaves the world as it is. *)
Lemma put_file_same_text (whole p : path) (f : option string -> string)
    (s : string) :
  forall (w : list (string * node)),
  FS.lookup p w = Some (File s) ->
  f (Some s) = s ->
  FS.put_file_at whole p f w = inr w.
Proof.
  induction p as [|c p IH]; intros w Hl Hf; [discriminate|].
  simpl in Hl. cbn [FS.put_file_at].
  destruct (PyDict.get c w) as [[t|es]|] eqn:Hg; try discriminate.
  - destruct p; [|discriminate]. injection Hl as ->.
    now rewrite Hf, dict_set_same_id.
  - destruct p as [|c2 p]; [discriminate|].
    rewrite (IH es Hl Hf). now rewrite dict_set_same_id.
Qed.

Section JsonSetTwice.
Context `{Environment}.

(** X21.  Setting a key twice.  Let [configure] of the structured-key
    set handler return [True], the document it wrote reading back as
    written.  Run again on the world it left, [configure] returns [True],
    [execute] returns [(True, None)], and the world, hence the file, stays
    as it is. *)
Theorem json_set_twice (self : JsonSetConfigureHandler.t) (w w' : world) :
  configure self w = (Returns true, w') ->
  (forall written,
     JsonSetConfigureHandler.set_path
       (PyStr.split "." (JsonSetConfigureHandler.key self))
       (JsonSetConfigureHandler.value self)
       (document_at (JsonSetConfigureHandler.path_ self) w) = inr written ->
     json_loads (json_dumps (Some 2%nat) written) = Some written) ->
  configure self w' = (Returns true, w') /\
  ConfigureHandler.execute self w' = (Returns (true, None), w').
Proof.
  intros Hrun Hround.
  destruct (json_set_configure_inv self w w' Hrun) as (data' & Hset & Hfile & _).
  destruct (load_escapes_read_back _ _ _ _ Hfile (Hround _ Hset)) as [Hesc Hdoc].
  assert (Hagain : configure self w' = (Returns true, w')).
  { rewrite json_set_configure_computes.
    pose proof Hfile as Hl. apply file_at_lookup in Hl.
    assert (Hp : JsonSetConfigureHandler.path_ self <> []).
    { intros E. rewrite E in Hl. discriminate. }
    rewrite (makedirs_of_existing_file _ _ _ Hp Hl).
    rewrite Hesc, Hdoc.
    rewrite (set_path_twice _ _ _ _ Hset).
    unfold FS.put_file.
    now rewrite (put_file_same_text _ _ _ _ _ Hl eq_refl). }
  split; [exact Hagain|].
  now rewrite configure_execute_computes, Hagain.
Qed.

End JsonSetTwice.

(** ** The profile-directory handlers in general *)

(** ** The profile-directory check *)

(** What the loop over the two file names did when it ends: found the
    pattern, found no file with the pattern, or met a directory or bytes
    that do not decode where it expected a text. *)
Lemma firefox_for_filenames_cases (self : FirefoxProfileCheckHandler.t)
    (item : string) (filenames : list string) (w : world) :
  let file (filename : string) :=
    Os.join (Os.join (FirefoxProfileCheckHandler.profile_dir self) item)
      filename in
  match FirefoxProfileCheckHandler.for_filenames self item filenames w with
  | (Returns true, w') =>
      w' = w /\
      exists filename content text,
        In filename filenames /\
        file_at (file filename) w = Some content /\
        TextIO.read content = Some text /\
        PyStr.contains (FirefoxProfileCheckHandler.pattern self) text = true
  | (Returns false, w') =>
      w' = w /\
      forall filename, In filename filenames ->
        match FS.lookup (file filename) w with
        | Some (File content) =>
            exists text,
              TextIO.read content = Some text /\
              PyStr.contains (FirefoxProfileCheckHandler.pattern self) text
                = false
        | Some (Dir _) => False
        | None => True
        end
  | (Raises e, w') =>
      w' = w /\
      exists filename,
        In filename filenames /\
        match FS.lookup (file filename) w with
        | Some (File content) =>
            TextIO.read content = None /\ exn_class e = UnicodeDecodeError
        | Some (Dir _) => caught_by e [OSError] = true
        | None => False
        end
  end.
Proof.
  cbv zeta. induction filenames as [|filename rest IH].
  - simpl. split; auto. intros ? [].
  - cbn [FirefoxProfileCheckHandler.for_filenames]. run_calls.
    unfold file_at in *.
    destruct (FS.lookup
                (Os.join (Os.join (FirefoxProfileCheckHandler.profile_dir self) item)
                   filename) w) as [[content|sub]|] eqn:Hl; run_calls.
    + rewrite Hl. run_calls.
      destruct (TextIO.read content) as [text|] eqn:Hread; run_calls.
      2: { split; auto. exists filename. split; [now left|].
           rewrite Hl. auto. }
      destruct (PyStr.contains (FirefoxProfileCheckHandler.pattern self) text)
        eqn:Hc; run_calls.
      * split; auto. exists filename, content, text. rewrite Hl.
        split_all; auto. now left.
      * destruct (FirefoxProfileCheckHandler.for_filenames self item rest w)
          as [[[|]|e] w'].
        -- destruct IH as (-> & f & c & t & Hin & Hf & Hr & Ht). split; auto.
           exists f, c, t. split_all; auto. now right.
        -- destruct IH as (-> & Hall). split; auto.
           intros f [<-|Hin]; [|exact (Hall _ Hin)].
           rewrite Hl. eauto.
        -- destruct IH as (-> & f & Hin & Hf). split; auto.
           exists f. split; auto. now right.
    + rewrite Hl. run_calls. split; auto.
      exists filename. split; [now left|]. rewrite Hl. reflexivity.
    + destruct (FirefoxProfileCheckHandler.for_filenames self item rest w)
        as [[[|]|e] w'].
      * destruct IH as (-> & f & c & t & Hin & Hf & Hr & Ht). split; auto.
        exists f, c, t. split_all; auto. now right.
      * destruct IH as (-> & Hall). split; auto.
        intros f [<-|Hin]; [now rewrite Hl|exact (Hall _ Hin)].
      * destruct IH as (-> & f & Hin & Hf). split; auto.
        exists f. split; auto. now right.
Qed.

Lemma firefox_for_items_cases (self : FirefoxProfileCheckHandler.t)
    (items : list string) (w : world) :
  let file (item filename : string) :=
    Os.join (Os.join (FirefoxProfileCheckHandler.profile_dir self) item)
      filename in
  match FirefoxProfileCheckHandler.for_items self items w with
  | (Returns true, w') =>
      w' = w /\
      exists item,
        In item items /\ PyStr.contains ".default" item = true /\
        profile_mentions w (FirefoxProfileCheckHandler.profile_dir self) item
          (FirefoxProfileCheckHandler.pattern self)
  | (Returns false, w') =>
      w' = w /\
      forall item filename,
        In item items -> PyStr.contains ".default" item = true ->
        In filename ["user.js"; "prefs.js"] ->
        match FS.lookup (file item filename) w with
        | Some (File content) =>
            exists text,
              TextIO.read content = Some text /\
              PyStr.contains (FirefoxProfileCheckHandler.pattern self) text
                = false
        | Some (Dir _) => False
        | None => True
        end
  | (Raises e, w') =>
      w' = w /\
      exists item filename,
        In item items /\ PyStr.contains ".default" item = true /\
        In filename ["user.js"; "prefs.js"] /\
        match FS.lookup (file item filename) w with
        | Some (File content) =>
            TextIO.read content = None /\ exn_class e = UnicodeDecodeError
        | Some (Dir _) => caught_by e [OSError] = true
        | None => False
        end
  end.
Proof.
  cbv zeta. induction items as [|item rest IH].
  - simpl. split; auto. intros ? ? [].
  - cbn [FirefoxProfileCheckHandler.for_items].
    destruct (PyStr.contains ".default" item) eqn:Hm; cbn [negb].
    2: { destruct (FirefoxProfileCheckHandler.for_items self rest w)
           as [[[|]|e] w'].
         - destruct IH as (-> & i & Hin & Hd & Hp). split; auto.
           exists i. split_all; auto. now right.
         - destruct IH as (-> & Hall). split; auto.
           intros i f [<-|Hin] Hd Hf; [congruence|exact (Hall _ _ Hin Hd Hf)].
         - destruct IH as (-> & i & f & Hin & Hd & Hf & Hl).
           split; auto. exists i, f. split_all; auto. now right. }
    unfold bind.
    pose proof (firefox_for_filenames_cases self item ["user.js"; "prefs.js"] w)
      as Hfiles. cbv zeta in Hfiles.
    destruct (FirefoxProfileCheckHandler.for_filenames self item
                ["user.js"; "prefs.js"] w) as [[[|]|e] w1].
    + destruct Hfiles as (-> & f & c & t & Hin & Hf & Hr & Ht). unfold ret.
      split; auto. exists item. split_all; auto; [now left|].
      exists f, c, t. auto.
    + destruct Hfiles as (-> & Hnone).
      destruct (FirefoxProfileCheckHandler.for_items self rest w)
        as [[[|]|e] w'].
      * destruct IH as (-> & i & Hin & Hd & Hp). split; auto.
        exists i. split_all; auto. now right.
      * destruct IH as (-> & Hall). split; auto.
        intros i f [<-|Hin] Hd Hf; [exact (Hnone _ Hf)|exact (Hall _ _ Hin Hd Hf)].
      * destruct IH as (-> & i & f & Hin & Hd & Hf & Hl).
        split; auto. exists i, f. split_all; auto. now right.
    + destruct Hfiles as (-> & f & Hin & Hl).
      split; auto. exists item, f. split_all; auto. now left.
Qed.

Lemma firefox_check_computes (self : FirefoxProfileCheckHandler.t) (w : world) :
  check self w =
  match FS.lookup (FirefoxProfileCheckHandler.profile_dir self) w with
  | Some (Dir es) =>
      match FirefoxProfileCheckHandler.for_items self (map fst es) w with
      | (Returns b, w') => (Returns b, w')
      | (Raises e, w') =>
          if caught_by e [OSError] then (Returns false, w') else (Raises e, w')
      end
  | _ => (Returns false, w)
  end.
Proof.
  unfold check, FirefoxProfileCheckHandler.handler,
    FirefoxProfileCheckHandler.check_.
  run_calls.
  destruct (FS.lookup (FirefoxProfileCheckHandler.profile_dir self) w)
    as [[s|es]|] eqn:Hl; run_calls; rewrite ?Hl; run_calls; auto.
Qed.

Lemma decode_error_is_not_caught (e : exn) :
  exn_class e = UnicodeDecodeError -> caught_by e [OSError] = false.
Proof. destruct e as [c msg]. simpl. now intros ->. Qed.

(** X8.  [FirefoxProfileCheckHandler.check] leaves the world alone, and it
    returns, or raises the [UnicodeDecodeError] of a [user.js] or
    [prefs.js] of a default profile whose bytes do not decode.  When it
    returns [True], some entry of the profile root whose name contains
    [.default] has a regular file [user.js] or [prefs.js] whose text, as
    read, holds the pattern.  Conversely it returns [True] when there is
    such an entry, provided every [user.js] and [prefs.js] of a default
    profile is absent or a regular file that decodes (a directory there
    ends the search with [False], bytes that do not decode end it with the
    error). *)
Theorem firefox_check_spec (self : FirefoxProfileCheckHandler.t) (w : world) :
  let profile_dir := FirefoxProfileCheckHandler.profile_dir self in
  let pattern := FirefoxProfileCheckHandler.pattern self in
  ((exists b, check self w = (Returns b, w)) \/
   (exists e es item filename content,
      check self w = (Raises e, w) /\
      exn_class e = UnicodeDecodeError /\
      FS.lookup profile_dir w = Some (Dir es) /\
      In item (map fst es) /\
      PyStr.contains ".default" item = true /\
      In filename ["user.js"; "prefs.js"] /\
      file_at (Os.join (Os.join profile_dir item) filename) w = Some content /\
      TextIO.read content = None)) /\
  (check self w = (Returns true, w) ->
   exists es item,
     FS.lookup profile_dir w = Some (Dir es) /\
     In item (map fst es) /\
     PyStr.contains ".default" item = true /\
     profile_mentions w profile_dir item pattern) /\
  (forall es,
     FS.lookup profile_dir w = Some (Dir es) ->
     (forall item filename,
        In item (map fst es) -> PyStr.contains ".default" item = true ->
        In filename ["user.js"; "prefs.js"] ->
        readable_or_absent (Os.join (Os.join profile_dir item) filename) w) ->
     (exists item,
        In item (map fst es) /\ PyStr.contains ".default" item = true /\
        profile_mentions w profile_dir item pattern) ->
     check self w = (Returns true, w)).
Proof.
  cbv zeta. rewrite firefox_check_computes.
  destruct (FS.lookup (FirefoxProfileCheckHandler.profile_dir self) w)
    as [[s|es]|] eqn:Hl.
  1,3: split_all; eauto; discriminate.
  pose proof (firefox_for_items_cases self (map fst es) w) as Hitems.
  cbv zeta in Hitems.
  destruct (FirefoxProfileCheckHandler.for_items self (map fst es) w)
    as [[[|]|e] w'].
  - destruct Hitems as (-> & item & Hin & Hd & Hp). split_all; eauto.
    intros _. exists es, item. auto.
  - destruct Hitems as (-> & Hnone). split_all; eauto; [discriminate|].
    intros es' [= <-] _ (item & Hin & Hd & f & c & t & Hf & Hfile & Hr & Ht).
    exfalso. specialize (Hnone item f Hin Hd Hf).
    apply file_at_lookup in Hfile. rewrite Hfile in Hnone.
    destruct Hnone as (t' & Hr' & Ht'). congruence.
  - destruct Hitems as (-> & item & f & Hin & Hd & Hf & Hmet).
    destruct (FS.lookup
                (Os.join (Os.join (FirefoxProfileCheckHandler.profile_dir self)
                            item) f) w) as [[content|sub]|] eqn:Hfile;
      [| |contradiction].
    + destruct Hmet as [Hread Hclass].
      rewrite (decode_error_is_not_caught e Hclass). split_all.
      * right. exists e, es, item, f, content. split_all; auto.
        now apply file_at_lookup.
      * discriminate.
      * intros es' [= <-] Hfree _. exfalso.
        specialize (Hfree item f Hin Hd Hf). unfold readable_or_absent in Hfree.
        rewrite Hfile in Hfree. unfold TextIO.read in Hread.
        rewrite Hfree in Hread. discriminate.
    + rewrite Hmet. split_all; eauto; [discriminate|].
      intros es' [= <-] Hfree _. exfalso.
      specialize (Hfree item f Hin Hd Hf). unfold readable_or_absent in Hfree.
      now rewrite Hfile in Hfree.
Qed.

(** ** Profile roots without a default profile *)

Lemma firefox_configure_none (self : FirefoxConfigureHandler.t)
    (items : list string) (w : world) :
  List.filter (PyStr.contains ".default") items = [] ->
  FirefoxConfigureHandler.for_items self items w = (Returns false, w).
Proof.
  induction items as [|item items IH]; simpl; [reflexivity|].
  destruct (PyStr.contains ".default" item) eqn:Hm; simpl; [discriminate|auto].
Qed.

(** X9.  Without a default profile (the profile root is missing, is not
    a directory, or has no entry whose name contains [.default]) the
    profile-directory check returns [False].  The configure handler then
    returns [False] and writes nothing, unless the root is a regular file:
    [os.listdir] raises and [execute] returns [False] with the message of
    the [NotADirectoryError]. *)
Theorem firefox_without_default_profile (pattern pref_line check_pattern : string)
    (profile_dir : path) (w : world) :
  let checker :=
    {| FirefoxProfileCheckHandler.pattern := pattern;
       FirefoxProfileCheckHandler.profile_dir := profile_dir |} in
  let configurer :=
    {| FirefoxConfigureHandler.pref_line := pref_line;
       FirefoxConfigureHandler.check_pattern := check_pattern;
       FirefoxConfigureHandler.profile_dir := profile_dir |} in
  (first_default_profile w profile_dir = None ->
   check checker w = (Returns false, w)) /\
  (first_default_profile w profile_dir = None ->
   (forall text, FS.lookup profile_dir w <> Some (File text)) ->
   configure configurer w = (Returns false, w)) /\
  (forall text,
     FS.lookup profile_dir w = Some (File text) ->
     ConfigureHandler.execute configurer w =
       (Returns (false,
                 Some (exn_msg (FS.os_error NotADirectoryError
                                  "[Errno 20] Not a directory" profile_dir))),
        w)).
Proof.
  cbv zeta. unfold first_default_profile. split_all.
  - intros Hnone. rewrite firefox_check_computes. simpl.
    destruct (FS.lookup profile_dir w) as [[s|es]|] eqn:Hl; auto.
    rewrite firefox_check_none; auto.
    destruct (List.filter _ (map fst es)); [reflexivity|discriminate].
  - intros Hnone Hfile.
    unfold configure, FirefoxConfigureHandler.handler,
      FirefoxConfigureHandler.configure_. simpl. run_calls.
    destruct (FS.lookup profile_dir w) as [[s|es]|] eqn:Hl; run_calls;
      rewrite ?Hl; run_calls; auto.
    + now destruct (Hfile s).
    + apply firefox_configure_none.
      destruct (List.filter _ (map fst es)); [reflexivity|discriminate].
  - intros text Hl. rewrite configure_execute_computes.
    unfold configure, FirefoxConfigureHandler.handler,
      FirefoxConfigureHandler.configure_. simpl. run_calls.
    rewrite Hl. run_calls. rewrite Hl. reflexivity.
Qed.

(** ** What the profile-directory configure handler writes *)

Lemma firefox_configure_one_writes (self : FirefoxConfigureHandler.t) (d : string) :
  writes_only
    (Os.join (Os.join (FirefoxConfigureHandler.profile_dir self) d) "user.js")
    (FirefoxConfigureHandler.for_items self [d]).
Proof.
  unfold FirefoxConfigureHandler.for_items. writes_only_tac.
Qed.

(** X10.  The profile-directory configure handler writes to [user.js] of
    the first default profile only (the first entry, in the order of
    [os.listdir], whose name contains [.default]): whatever it returns or
    raises, every other path names the regular file it named before, or
    none as before; and without a default profile the world is left as it
    was. *)
Theorem firefox_configure_touches_first_profile
    (self : FirefoxConfigureHandler.t) (w : world) :
  match first_default_profile w (FirefoxConfigureHandler.profile_dir self) with
  | Some d =>
      forall q,
        q <> Os.join (Os.join (FirefoxConfigureHandler.profile_dir self) d)
               "user.js" ->
        file_at q (snd (configure self w)) = file_at q w
  | None => snd (configure self w) = w
  end.
Proof.
  unfold first_default_profile, configure, FirefoxConfigureHandler.handler,
    FirefoxConfigureHandler.configure_.
  run_calls.
  destruct (FS.lookup (FirefoxConfigureHandler.profile_dir self) w)
    as [[s|es]|] eqn:Hl; run_calls; rewrite ?Hl; run_calls; auto.
  destruct (List.filter (PyStr.contains ".default") (map fst es))
    as [|d rest] eqn:Hf; simpl.
  - now rewrite firefox_configure_none.
  - intros q Hq. rewrite (firefox_configure_first _ _ _ _ _ Hf).
    now apply firefox_configure_one_writes.
Qed.

(** ** The loader as a whole *)

Section LoaderMore.
Context `{Environment}.

(** ** The queries *)

Lemma load_all_cached (self : PluginLoader.t) (w : world) :
  PluginLoader._loaded self = true ->
  PluginLoader.load_all self w
    = (Returns (PluginLoader._plugins self, self), w).
Proof. intros Hl. unfold PluginLoader.load_all. now rewrite Hl. Qed.

Lemma load_all_any (self : PluginLoader.t) (w : world) :
  let stored := if PluginLoader._loaded self then PluginLoader._plugins self
                else loaded_plugins w in
  PluginLoader.load_all self w =
  (Returns (stored, {| PluginLoader._plugins := stored;
                       PluginLoader._loaded := true |}), w).
Proof.
  cbv zeta. destruct (PluginLoader._loaded self) eqn:Hl.
  - rewrite load_all_cached by exact Hl. destruct self; simpl in *. now subst.
  - now apply load_all_computes.
Qed.

(** X12.  The queries of the loader never raise and never change the
    file system.  [load_all], [get_all_plugins] and [get_plugin] answer
    from the stored map when the loader has loaded, and from a scan of the
    two plugin roots otherwise; the loader has loaded afterwards.  [reload]
    always scans.  [get_plugins_with_settings] returns the stored records
    that have a setting or non-empty conditional flags, and
    [get_plugins_by_type] those whose type is the given string. *)
Theorem loader_queries_compute (self : PluginLoader.t) (w : world)
    (name plugin_type : string) :
  let stored := if PluginLoader._loaded self then PluginLoader._plugins self
                else loaded_plugins w in
  let after := {| PluginLoader._plugins := stored;
                  PluginLoader._loaded := true |} in
  let fresh := {| PluginLoader._plugins := loaded_plugins w;
                  PluginLoader._loaded := true |} in
  PluginLoader.load_all self w = (Returns (stored, after), w) /\
  PluginLoader.reload self w = (Returns (loaded_plugins w, fresh), w) /\
  PluginLoader.get_all_plugins self w = (Returns (stored, after), w) /\
  PluginLoader.get_plugin self name w = (Returns (stored !! name, after), w) /\
  (exists listed,
     PluginLoader.get_plugins_with_settings self w = (Returns (listed, after), w) /\
     forall n c,
       listed !! n = Some c <->
       stored !! n = Some c /\ PluginLoader.has_settings c = true) /\
  (exists listed,
     PluginLoader.get_plugins_by_type self plugin_type w
       = (Returns (listed, after), w) /\
     forall n c,
       listed !! n = Some c <->
       stored !! n = Some c /\ PluginConfig.plugin_type c = JStr plugin_type).
Proof.
  cbv zeta. pose proof (load_all_any self w) as Hload. cbv zeta in Hload.
  split_all.
  - exact Hload.
  - unfold PluginLoader.reload. now rewrite load_all_computes.
  - unfold PluginLoader.get_all_plugins, bind. now rewrite Hload.
  - unfold PluginLoader.get_plugin, bind. now rewrite Hload.
  - eexists. split.
    + unfold PluginLoader.get_plugins_with_settings, bind. rewrite Hload.
      reflexivity.
    + intros n c. simpl. now rewrite map_lookup_filter_Some.
  - eexists. split.
    + unfold PluginLoader.get_plugins_by_type, bind. rewrite Hload.
      reflexivity.
    + intros n c. simpl. rewrite map_lookup_filter_Some. simpl.
      split; intros [Hs Ht]; split; auto.
      * destruct (PluginConfig.plugin_type c); try discriminate.
        simpl in Ht. apply String.eqb_eq in Ht. now subst.
      * rewrite Ht. simpl. apply String.eqb_refl.
Qed.

(** X13.  The loader caches.  After a load in the world [w1],
    [get_plugin] and [get_all_plugins] run in any other world [w2] answer
    what the scan of [w1] found; [reload] scans [w2], and the queries that
    follow answer what that scan found. *)
Theorem loader_answers_from_its_cache (w1 w2 : world) (name : string) :
  exists loader1 loader2,
    PluginLoader.load_all PluginLoader.init w1
      = (Returns (loaded_plugins w1, loader1), w1) /\
    PluginLoader.get_plugin loader1 name w2
      = (Returns (loaded_plugins w1 !! name, loader1), w2) /\
    PluginLoader.get_all_plugins loader1 w2
      = (Returns (loaded_plugins w1, loader1), w2) /\
    PluginLoader.reload loader1 w2
      = (Returns (loaded_plugins w2, loader2), w2) /\
    PluginLoader.get_plugin loader2 name w2
      = (Returns (loaded_plugins w2 !! name, loader2), w2).
Proof.
  exists {| PluginLoader._plugins := loaded_plugins w1;
            PluginLoader._loaded := true |},
         {| PluginLoader._plugins := loaded_plugins w2;
            PluginLoader._loaded := true |}.
  split_all.
  - now apply load_all_computes.
  - unfold PluginLoader.get_plugin, bind. now rewrite load_all_cached.
  - unfold PluginLoader.get_all_plugins, bind. now rewrite load_all_cached.
  - unfold PluginLoader.reload. now rewrite load_all_computes.
  - unfold PluginLoader.get_plugin, bind. now rewrite load_all_cached.
Qed.

(** ** Where the stored records come from *)

Lemma merge_scanned_inv (w : world) (scanned : list (path * string))
    (name : string) (config : PluginConfig.t) :
  forall (plugins : gmap string PluginConfig.t),
  merge_scanned w scanned plugins !! name = Some config ->
  plugins !! name = Some config \/
  exists base_dir item,
    In (base_dir, item) scanned /\
    found_config w base_dir item = Some config /\
    PluginConfig.name config = name.
Proof.
  induction scanned as [|[b i] scanned IH]; intros plugins Hm; [now left|].
  rewrite merge_scanned_cons in Hm. simpl in Hm.
  destruct (IH _ Hm) as [Hp|(b' & i' & Hin & Hf & Hn)].
  - destruct (found_config w b i) as [c|] eqn:Hf; [|now left].
    destruct (decide (PluginConfig.name c = name)) as [E|E].
    + rewrite <- E, lookup_insert_eq in Hp. injection Hp as ->.
      right. exists b, i. split_all; auto. now left.
    + rewrite lookup_insert_ne in Hp by exact E. now left.
  - right. exists b', i'. split_all; auto. now right.
Qed.

Lemma parse_setting_inv (key : string) (data : json) (w w' : world)
    (setting : PluginSetting.t) :
  PluginLoader._parse_setting key data w = (Returns setting, w') ->
  is_dict data = true /\ PluginSetting.key setting = key.
Proof.
  unfold PluginLoader._parse_setting.
  destruct data; try discriminate.
  rewrite !py_get_dict. run_calls. intros [= <- _]. auto.
Qed.

Lemma parse_settings_inv (items : list (string * json)) (w w' : world) :
  forall (settings settings' : gmap string PluginSetting.t),
  PluginLoader.parse_settings items settings w = (Returns settings', w') ->
  forallb (fun kv => is_dict (snd kv)) items = true /\
  (forall k, In k (map fst items) -> is_Some (settings' !! k)) /\
  ((forall k s, settings !! k = Some s -> PluginSetting.key s = k) ->
   forall k s, settings' !! k = Some s -> PluginSetting.key s = k) /\
  (forall k, is_Some (settings !! k) -> is_Some (settings' !! k)).
Proof.
  induction items as [|[key data] items IH]; intros settings settings' Hrun.
  - injection Hrun as <- _. split_all; auto. intros ? [].
  - cbn [PluginLoader.parse_settings] in Hrun. unfold bind in Hrun.
    pose proof (reads_only_parse_setting key data w) as Hr.
    destruct (PluginLoader._parse_setting key data w) as [[setting|e] w1] eqn:Hp;
      simpl in Hr; subst w1; [|discriminate].
    destruct (parse_setting_inv _ _ _ _ _ Hp) as [Hd Hk].
    destruct (IH _ _ Hrun) as (Hall & Hkeys & Hinv & Hmono).
    split_all.
    + simpl. now rewrite Hd, Hall.
    + intros k [<-|Hin]; auto.
      apply Hmono. rewrite lookup_insert_eq. eauto.
    + intros Hold. apply Hinv. intros k s Hks.
      destruct (decide (key = k)) as [<-|Hne].
      * rewrite lookup_insert_eq in Hks. now injection Hks as <-.
      * rewrite lookup_insert_ne in Hks by exact Hne. auto.
    + intros k Hk'. apply Hmono.
      destruct (decide (key = k)) as [<-|Hne].
      * rewrite lookup_insert_eq. eauto.
      * now rewrite lookup_insert_ne.
Qed.

Lemma generate_flag_settings_keys (items : list (string * json)) (w w' : world) :
  forall (settings settings' : gmap string PluginSetting.t),
  PluginLoader.generate_flag_settings items settings w = (Returns settings', w') ->
  (forall k s, settings !! k = Some s -> PluginSetting.key s = k) ->
  forall k s, settings' !! k = Some s -> PluginSetting.key s = k.
Proof.
  induction items as [|[fk fl] items IH]; intros settings settings' Hrun Hold.
  - injection Hrun as <- _. exact Hold.
  - cbn [PluginLoader.generate_flag_settings] in Hrun.
    destruct (PyStr.startswith fk "launchFlags."); [|eauto].
    destruct (settings !! PyStr.replace "launchFlags." "" fk) eqn:Hs; [eauto|].
    unfold bind in Hrun.
    pose proof (reads_only_join_flags fl w) as Hr.
    destruct (PluginLoader.join_flags fl w) as [[joined|e] w1];
      simpl in Hr; subst w1; [|discriminate].
    apply (IH _ _ Hrun). intros k s Hks.
    destruct (decide (PyStr.replace "launchFlags." "" fk = k)) as [<-|Hne].
    + rewrite lookup_insert_eq in Hks. now injection Hks as <-.
    + rewrite lookup_insert_ne in Hks by exact Hne. auto.
Qed.

(** What a record that [build_config] returns says of the descriptor. *)
Lemma build_config_shape (data : json) (plugin_path : path) (w w' : world)
    (config : PluginConfig.t) :
  PluginLoader.build_config data plugin_path w = (Returns (Some config), w') ->
  well_shaped data = true /\
  (exists cf, PluginConfig.conditional_flags config = JDict cf) /\
  (forall k s, PluginConfig.settings config !! k = Some s ->
     PluginSetting.key s = k).
Proof.
  unfold PluginLoader.build_config, well_shaped.
  destruct data as [| | | | | |d]; try discriminate.
  rewrite !py_get_dict. run_calls.
  destruct (Json.truthy (PyDict.get_default "name" (JStr "") d)) eqn:Htruthy;
    run_calls; [|discriminate].
  unfold PyDict.get_default in Htruthy |- * at 1.
  destruct (PyDict.get "name" d) as [[| | | |n| |]|] eqn:Hname; try discriminate.
  run_calls.
  destruct (PyDict.get_default "launch" (JDict []) d) as [| | | | | |l] eqn:Hl;
    try discriminate.
  rewrite !py_get_dict. run_calls.
  destruct (PyDict.get_default "settings" (JDict []) d) as [| | | | | |sd] eqn:Hsd;
    try discriminate.
  rewrite py_items_dict. run_calls.
  pose proof (reads_only_parse_settings sd ∅ w) as Hr1.
  destruct (PluginLoader.parse_settings sd ∅ w) as [[parsed|e] w1] eqn:Hps;
    simpl in Hr1; subst w1; [|discriminate].
  destruct (PyDict.get_default "conditionalFlags" (JDict []) l)
    as [| | | | | |cf] eqn:Hcf; try discriminate.
  rewrite py_items_dict. run_calls.
  pose proof (reads_only_generate_flag_settings cf parsed w) as Hr2.
  destruct (PluginLoader.generate_flag_settings cf parsed w)
    as [[settings|e] w2] eqn:Hgs;
    simpl in Hr2; subst w2; [|discriminate].
  destruct (PyDict.get_default "features" (JDict []) d) as [| | | | | |ft];
    try discriminate.
  rewrite !py_get_dict. run_calls. intros [= <- <-]. simpl.
  destruct (parse_settings_inv _ _ _ _ _ Hps) as (Hall & _ & Hkeys & _).
  split_all.
  - rewrite Hall. simpl in Htruthy. now destruct (String.eqb n EmptyString).
  - eauto.
  - eapply generate_flag_settings_keys; eauto.
    apply Hkeys. intros k s Hks. now rewrite lookup_empty in Hks.
Qed.

Lemma found_config_inv (w : world) (base_dir : path) (item : string)
    (config : PluginConfig.t) :
  found_config w base_dir item = Some config ->
  exists text data,
    FS.lookup (Os.join (Os.join base_dir item) "config.json") w
      = Some (File text) /\
    json_loads text = Some data /\
    PluginLoader.build_config data (Os.join base_dir item) w
      = (Returns (Some config), w).
Proof.
  intros Hf. apply found_config_valid in Hf. now apply valid_descriptor_inv.
Qed.

(** X14.  What a full load stores.  Every record of the map is stored
    under its own name, which is not empty; its conditional flags are a
    mapping; each of its settings is stored under that setting's own key;
    and the record is the one that the descriptor of some item of one of
    the two plugin roots loads to, its [plugin_path] being the directory of
    that item. *)
Theorem stored_records_are_scanned_descriptors (w : world) (name : string)
    (config : PluginConfig.t) :
  loaded_plugins w !! name = Some config ->
  PluginConfig.name config = name /\
  name <> EmptyString /\
  (exists cf, PluginConfig.conditional_flags config = JDict cf) /\
  (forall k s, PluginConfig.settings config !! k = Some s ->
     PluginSetting.key s = k) /\
  exists base_dir item,
    In (base_dir, item) (scan_order w) /\
    (base_dir = PluginLoader.EXTENSION_PLUGIN_PATH \/
     base_dir = PluginLoader.USER_PLUGIN_PATH) /\
    valid_descriptor w base_dir item config /\
    PluginConfig.plugin_path config = Os.join base_dir item.
Proof.
  intros Hl. unfold loaded_plugins in Hl.
  destruct (merge_scanned_inv _ _ _ _ _ Hl) as [He|(b & i & Hin & Hf & Hn)].
  { now rewrite lookup_empty in He. }
  destruct (found_config_inv _ _ _ _ Hf) as (text & data & Hfile & Hj & Hb).
  destruct (build_config_inv _ _ _ _ _ Hb)
    as (d & n & ? & ? & ? & ? & _ & _ & Hne & Hname & _ & Hpp & _).
  destruct (build_config_shape _ _ _ _ _ Hb) as (_ & Hcf & Hkeys).
  split_all; auto.
  - congruence.
  - exists b, i. split_all; auto.
    + unfold scan_order, root_items in Hin. apply in_app_or in Hin.
      destruct Hin as [Hin|Hin];
        [left|right];
        destruct (FS.lookup _ w) as [[|es]|]; try (now destruct Hin);
        apply in_map_iff in Hin; destruct Hin as (? & [= <- _] & _);
        reflexivity.
    + now apply found_config_valid.
Qed.

(** X15.  A descriptor that is JSON of the wrong shape is skipped without
    an error.  Let [config.json] of an item hold a JSON value that is not a
    mapping, or has no non-empty string under [name], or gives for
    [launch], [launch.conditionalFlags], [features], [settings] or one of
    the settings a value that is not a mapping.  Then the item gives no
    record, and scanning it returns the loader as it was. *)
Theorem ill_shaped_descriptor_is_skipped (w : world) (base_dir : path)
    (item text : string) (data : json) (self : PluginLoader.t) :
  FS.lookup (Os.join (Os.join base_dir item) "config.json") w
    = Some (File text) ->
  json_loads text = Some data ->
  well_shaped data = false ->
  found_config w base_dir item = None /\
  PluginLoader.scan_item base_dir item self w = (Returns self, w).
Proof.
  intros Hfile Hj Hshape.
  assert (Hnone : found_config w base_dir item = None).
  { destruct (found_config w base_dir item) as [c|] eqn:Hf; [|reflexivity].
    destruct (found_config_inv _ _ _ _ Hf) as (text' & data' & Hfile' & Hj' & Hb).
    rewrite Hfile in Hfile'. injection Hfile' as <-.
    rewrite Hj in Hj'. injection Hj' as <-.
    destruct (build_config_shape _ _ _ _ _ Hb) as (Hok & _). congruence. }
  split; [exact Hnone|].
  now rewrite scan_item_computes, Hnone.
Qed.

(** X16.  When neither plugin root is a directory,
    [get_plugin_directories] returns the empty list, [get_all_plugins] the
    empty map and [get_plugin] [None]; nothing is raised. *)
Theorem no_plugin_root_no_plugins (w : world) (name : string) :
  (forall es, FS.lookup PluginLoader.EXTENSION_PLUGIN_PATH w <> Some (Dir es)) ->
  (forall es, FS.lookup PluginLoader.USER_PLUGIN_PATH w <> Some (Dir es)) ->
  let loaded := {| PluginLoader._plugins := ∅; PluginLoader._loaded := true |} in
  PluginLoader.get_plugin_directories w = (Returns [], w) /\
  PluginLoader.get_all_plugins PluginLoader.init w = (Returns (∅, loaded), w) /\
  PluginLoader.get_plugin PluginLoader.init name w = (Returns (None, loaded), w).
Proof.
  intros He Hu loaded.
  assert (Hempty : loaded_plugins w = ∅).
  { unfold loaded_plugins, scan_order, root_items.
    destruct (FS.lookup PluginLoader.EXTENSION_PLUGIN_PATH w) as [[|es]|];
      [|now destruct (He es)|];
      (destruct (FS.lookup PluginLoader.USER_PLUGIN_PATH w) as [[|es']|];
       [|now destruct (Hu es')|]); reflexivity. }
  split_all.
  - unfold PluginLoader.get_plugin_directories. run_calls.
    destruct (FS.lookup PluginLoader.EXTENSION_PLUGIN_PATH w) as [[|es]|];
      [|now destruct (He es)|];
      (destruct (FS.lookup PluginLoader.USER_PLUGIN_PATH w) as [[|es']|];
       [|now destruct (Hu es')|]); reflexivity.
  - rewrite get_all_plugins_computes, Hempty. reflexivity.
  - rewrite get_plugin_computes, Hempty. reflexivity.
Qed.

End LoaderMore.

Section LoaderListing.
Context `{Environment}.

(** The conditional flags of a record are those of its descriptor. *)
Lemma build_config_flags (d : list (string * json)) (plugin_path : path)
    (w w' : world) (config : PluginConfig.t) (l : list (string * json)) :
  PluginLoader.build_config (JDict d) plugin_path w = (Returns (Some config), w') ->
  PyDict.get_default "launch" (JDict []) d = JDict l ->
  PluginConfig.conditional_flags config
    = PyDict.get_default "conditionalFlags" (JDict []) l.
Proof.
  unfold PluginLoader.build_config.
  rewrite !py_get_dict. run_calls.
  destruct (Json.truthy (PyDict.get_default "name" (JStr "") d)) eqn:Htruthy;
    run_calls; [|discriminate].
  destruct (PyDict.get_default "name" (JStr "") d) as [| | | |n| |] eqn:Hname;
    try discriminate.
  run_calls. intros Hrun Hl. revert Hrun. rewrite Hl.
  rewrite !py_get_dict. run_calls.
  destruct (PyDict.get_default "settings" (JDict []) d) as [| | | | | |sd] eqn:Hsd;
    try discriminate.
  rewrite py_items_dict. run_calls.
  destruct (PluginLoader.parse_settings sd ∅ w) as [[parsed|e] w1] eqn:Hps;
    [|discriminate].
  destruct (PyDict.get_default "conditionalFlags" (JDict []) l)
    as [| | | | | |cf] eqn:Hcf; try discriminate.
  rewrite py_items_dict. run_calls.
  destruct (PluginLoader.generate_flag_settings cf parsed w1)
    as [[settings|e] w2] eqn:Hgs; [|discriminate].
  destruct (PyDict.get_default "features" (JDict []) d) as [| | | | | |ft];
    try discriminate.
  rewrite !py_get_dict. run_calls. now intros [= <- <-].
Qed.

(** X19.  Which plugins [get_plugins_with_settings] keeps, read off the
    descriptor: a record that a descriptor loads to counts as having
    settings exactly when the [settings] block or the
    [launch.conditionalFlags] block of the descriptor is not empty. *)
Theorem has_settings_of_descriptor (d l cf sd : list (string * json))
    (plugin_path : path) (w w' : world) (config : PluginConfig.t) :
  PluginLoader.build_config (JDict d) plugin_path w = (Returns (Some config), w') ->
  PyDict.get_default "launch" (JDict []) d = JDict l ->
  PyDict.get_default "conditionalFlags" (JDict []) l = JDict cf ->
  PyDict.get_default "settings" (JDict []) d = JDict sd ->
  PluginLoader.has_settings config =
    match sd, cf with
    | [], [] => false
    | _, _ => true
    end.
Proof.
  intros Hb Hl Hcf Hsd.
  pose proof (build_config_flags _ _ _ _ _ _ Hb Hl) as Hflags.
  rewrite Hcf in Hflags.
  destruct (build_config_inv _ _ _ _ _ Hb)
    as (d' & n & l' & cf' & sd' & parsed & [= <-] & _ & _ & _ & _ & _
        & Hl' & Hcf' & Hsd' & Hparsed & Hgen).
  rewrite Hl in Hl'. injection Hl' as <-.
  rewrite Hcf in Hcf'. injection Hcf' as <-.
  rewrite Hsd in Hsd'. injection Hsd' as <-.
  unfold PluginLoader.has_settings. rewrite Hflags.
  destruct cf as [|flag cf].
  - simpl in Hgen. injection Hgen as Hsettings. rewrite <- Hsettings.
    destruct sd as [|[k v] sd].
    + simpl in Hparsed. injection Hparsed as <-.
      simpl. now rewrite bool_decide_eq_true_2.
    + destruct (parse_settings_inv _ _ _ _ _ Hparsed) as (_ & Hkeys & _).
      destruct (Hkeys k) as [s Hs]; [now left|].
      rewrite bool_decide_eq_false_2; [reflexivity|].
      intros E. rewrite E, lookup_empty in Hs. discriminate.
  - simpl. rewrite orb_true_r. now destruct sd.
Qed.

End LoaderListing.

(** ** Labels of launch flags *)

Lemma lower_case_letter (a : ascii) :
  PyStr.is_lower a = true ->
  Ascii.eqb a " " = false /\
  Ascii.eqb (PyStr.to_upper a) " " = false /\
  PyStr.to_lower (PyStr.to_upper a) = PyStr.to_lower a.
Proof.
  destruct a as [[] [] [] [] [] [] [] []]; vm_compute; intros Hl;
    try discriminate; repeat split.
Qed.

Lemma upper_case_letter (a : ascii) :
  PyStr.is_upper a = true ->
  Ascii.eqb a " " = false /\
  Ascii.eqb (PyStr.to_lower a) " " = false /\
  PyStr.to_lower (PyStr.to_lower a) = PyStr.to_lower a.
Proof.
  destruct a as [[] [] [] [] [] [] [] []]; vm_compute; intros Hl;
    try discriminate; repeat split.
Qed.

Lemma letters_cons (a : ascii) (s : string) :
  letters (String a s) =
  if Ascii.eqb a " " then letters s else String (PyStr.to_lower a) (letters s).
Proof. reflexivity. Qed.

(** [str.title] changes the case of letters and nothing else. *)
Lemma letters_title_from (s : string) : forall previous_is_cased,
  letters (PyStr.title_from previous_is_cased s) = letters s.
Proof.
  induction s as [|a s IH]; intros previous; [reflexivity|].
  cbn [PyStr.title_from].
  destruct (PyStr.is_lower a) eqn:Hlow.
  - destruct (lower_case_letter a Hlow) as (Ha & Hu & Hb).
    rewrite !letters_cons, IH, Ha.
    destruct previous; [now rewrite Ha|now rewrite Hu, Hb].
  - destruct (PyStr.is_upper a) eqn:Hup.
    + destruct (upper_case_letter a Hup) as (Ha & Hu & Hb).
      rewrite !letters_cons, IH, Ha.
      destruct previous; [now rewrite Hu, Hb|now rewrite Ha].
    + now rewrite !letters_cons, IH.
Qed.

Lemma camel_sub_cons2 (a b : ascii) (rest : string) :
  PyStr.camel_sub (String a (String b rest)) =
  if PyStr.is_lower a && PyStr.is_upper b
  then String a (String " " (String b (PyStr.camel_sub rest)))
  else String a (PyStr.camel_sub (String b rest)).
Proof. reflexivity. Qed.

(** The camel-case substitution adds spaces and nothing else. *)
Lemma letters_camel_sub (s : string) :
  letters (PyStr.camel_sub s) = letters s.
Proof.
  assert (Hboth : letters (PyStr.camel_sub s) = letters s /\
                  forall a, letters (PyStr.camel_sub (String a s))
                            = letters (String a s)).
  { induction s as [|b rest [IH0 IH1]].
    - split; reflexivity.
    - split; [apply IH1|]. intros a. rewrite camel_sub_cons2.
      destruct (PyStr.is_lower a && PyStr.is_upper b).
      + rewrite (letters_cons a), (letters_cons " "). simpl Ascii.eqb.
        cbv iota. rewrite (letters_cons b), IH0.
        now rewrite (letters_cons a), (letters_cons b).
      + rewrite (letters_cons a), IH1. now rewrite (letters_cons a). }
  apply Hboth.
Qed.

(** X17.  The label generated for a launch flag spells the flag key:
    letter case and spaces apart, the two texts are the same, and the
    label is at least as long as the key. *)
Theorem flag_label_spells_key (flag_key : string) :
  letters (PluginLoader._generate_flag_label flag_key) = letters flag_key /\
  (String.length flag_key <= String.length (PluginLoader._generate_flag_label flag_key))%nat.
Proof.
  unfold PluginLoader._generate_flag_label, PyStr.title. split.
  - now rewrite letters_title_from, letters_camel_sub.
  - assert (Htitle : forall s b, String.length (PyStr.title_from b s)
                                 = String.length s).
    { induction s as [|a s IH]; intros b; [reflexivity|].
      cbn [PyStr.title_from].
      destruct (PyStr.is_lower a); [simpl; now rewrite IH|].
      destruct (PyStr.is_upper a); simpl; now rewrite IH. }
    rewrite Htitle.
    assert (Hboth : (String.length flag_key
                     <= String.length (PyStr.camel_sub flag_key))%nat /\
                    forall a, (String.length (String a flag_key)
                               <= String.length
                                    (PyStr.camel_sub (String a flag_key)))%nat).
    { induction flag_key as [|b rest [IH0 IH1]].
      - split; [reflexivity|intros a; reflexivity].
      - split; [apply IH1|]. intros a. rewrite camel_sub_cons2.
        destruct (PyStr.is_lower a && PyStr.is_upper b).
        + simpl in *. lia.
        + specialize (IH1 b). simpl in *. lia. }
    apply Hboth.
Qed.

(** ** Opening the settings of an application *)

(** X11.  [execute] of [OpenSettingsHandler].  For the type [url] it
    opens the target in the browser and returns [(True, None)].  For the
    type [command] it spawns the target, a target that is not a list being
    run as the list of that one element, and returns [(True, None)], or
    [(False, None)] when the spawn raises [OSError].  For any other type it
    returns [(False, None)] and calls nothing.  What the browser or the
    spawn raises otherwise comes back as [(False, message)]. *)
Theorem open_settings_execute_spec `{Environment} (type_ : string)
    (target : json) (w : world) :
  let handler := {| OpenSettingsHandler.type := type_;
                    OpenSettingsHandler.target := target |} in
  let cmd := match target with
             | JList _ => target
             | _ => JList [target]
             end in
  (type_ = "url" ->
   ConfigureHandler.execute handler w =
   match webbrowser_open target w with
   | (Returns _, w') => (Returns (true, None), w')
   | (Raises e, w') => (Returns (false, Some (exn_msg e)), w')
   end) /\
  (type_ = "command" ->
   ConfigureHandler.execute handler w =
   match subprocess_Popen cmd w with
   | (Returns _, w') => (Returns (true, None), w')
   | (Raises e, w') =>
       if isinstance e OSError then (Returns (false, None), w')
       else (Returns (false, Some (exn_msg e)), w')
   end) /\
  (type_ <> "url" -> type_ <> "command" ->
   ConfigureHandler.execute handler w = (Returns (false, None), w)).
Proof.
  cbv zeta. rewrite configure_execute_computes.
  unfold configure, OpenSettingsHandler.handler, OpenSettingsHandler.configure_.
  simpl. split_all.
  - intros ->. simpl. run_calls.
    destruct (webbrowser_open target w) as [[[]|e] w']; reflexivity.
  - intros ->. simpl. run_calls. unfold caught_by. simpl.
    destruct target;
      match goal with
      | |- context [subprocess_Popen ?c w] =>
          destruct (subprocess_Popen c w) as [[[]|e] w']; try reflexivity;
          rewrite orb_false_r; destruct (isinstance e OSError); reflexivity
      end.
  - intros Hu Hc.
    destruct (String.eqb_spec type_ "url"); [contradiction|].
    destruct (String.eqb_spec type_ "command"); [contradiction|].
    reflexivity.
Qed.


(** ** The factory of open-settings handlers *)

Lemma py_eq_str (j : json) (s : string) :
  Json.py_eq j (JStr s) = true <-> j = JStr s.
Proof.
  destruct j as [|b|z|f|t|l|d]; simpl;
    try (split; [discriminate|intros [=]]).
  rewrite String.eqb_eq. split; [now intros ->|now intros [= ->]].
Qed.

Section Factory.
Context `{Environment}.

(** X20.  [HandlerFactory.create_open_settings_handler].  A falsy
    [config] ([None], an empty mapping, an empty text, zero) gives [None].
    A truthy [config] that is not a mapping raises [AttributeError].  A
    mapping gives a handler exactly when its [type] is [url] or [command].
    [execute] of the handler opens [config.get('url', '')] in the browser,
    or spawns [config.get('cmd', [])], run as a one-element list when it
    is not a list; it returns [(True, None)] unless the call raises. *)
Theorem open_settings_handler_of_config (config : json) (w : world) :
  (Json.truthy config = false ->
   HandlerFactory.create_open_settings_handler config w = (Returns None, w)) /\
  (Json.truthy config = true -> (forall d, config <> JDict d) ->
   exists e,
     HandlerFactory.create_open_settings_handler config w = (Raises e, w) /\
     exn_class e = AttributeError) /\
  (forall d, config = JDict d -> d <> [] ->
   exists made,
     HandlerFactory.create_open_settings_handler config w = (Returns made, w) /\
     match made with
     | None =>
         PyDict.get "type" d <> Some (JStr "url") /\
         PyDict.get "type" d <> Some (JStr "command")
     | Some handler =>
         (PyDict.get "type" d = Some (JStr "url") /\
          ConfigureHandler.execute handler w =
            match webbrowser_open (PyDict.get_default "url" (JStr "") d) w with
            | (Returns _, w') => (Returns (true, None), w')
            | (Raises e, w') => (Returns (false, Some (exn_msg e)), w')
            end) \/
         (PyDict.get "type" d = Some (JStr "command") /\
          let given := PyDict.get_default "cmd" (JList []) d in
          let cmd := match given with JList _ => given | _ => JList [given] end in
          ConfigureHandler.execute handler w =
            match subprocess_Popen cmd w with
            | (Returns _, w') => (Returns (true, None), w')
            | (Raises e, w') =>
                if isinstance e OSError then (Returns (false, None), w')
                else (Returns (false, Some (exn_msg e)), w')
            end)
     end).
Proof.
  unfold HandlerFactory.create_open_settings_handler. split_all.
  - intros ->. reflexivity.
  - intros -> Hnot. simpl.
    destruct config as [| | | | | |d]; try (eexists; split; reflexivity).
    now contradiction (Hnot d).
  - intros d -> Hd.
    assert (Json.truthy (JDict d) = true) as -> by (destruct d; [contradiction|reflexivity]).
    simpl negb. cbv iota. rewrite py_get_dict. run_calls.
    unfold PyDict.get_default at 1 2.
    destruct (Json.py_eq match PyDict.get "type" d with Some v => v | None => JNull end
                (JStr "url")) eqn:Hurl.
    + apply py_eq_str in Hurl. rewrite py_get_dict. run_calls.
      eexists. split; [reflexivity|]. left. split.
      * destruct (PyDict.get "type" d); [now subst|discriminate].
      * rewrite configure_execute_computes.
        unfold configure, OpenSettingsHandler.handler,
          OpenSettingsHandler.configure_.
        simpl. run_calls.
        destruct (webbrowser_open (PyDict.get_default "url" (JStr "") d) w)
          as [[[]|e] w']; reflexivity.
    + destruct (Json.py_eq match PyDict.get "type" d with Some v => v | None => JNull end
                  (JStr "command")) eqn:Hcmd.
      * apply py_eq_str in Hcmd. rewrite py_get_dict. run_calls.
        eexists. split; [reflexivity|]. right. split.
        -- destruct (PyDict.get "type" d); [now subst|discriminate].
        -- cbv zeta. rewrite configure_execute_computes.
           unfold configure, OpenSettingsHandler.handler,
             OpenSettingsHandler.configure_.
           simpl. run_calls. unfold caught_by. simpl.
           destruct (PyDict.get_default "cmd" (JList []) d);
             match goal with
             | |- context [subprocess_Popen ?c w] =>
                 destruct (subprocess_Popen c w) as [[[]|e] w']; try reflexivity;
                 rewrite orb_false_r; destruct (isinstance e OSError); reflexivity
             end.
      * eexists. split; [reflexivity|]. split; intros E; rewrite E in *.
        -- now rewrite (proj2 (py_eq_str _ _) eq_refl) in Hurl.
        -- now rewrite (proj2 (py_eq_str _ _) eq_refl) in Hcmd.
Qed.

End Factory.

(** ** Sorting by key *)

Lemma string_leb_trans (a b c : string) :
  String.leb a b = true -> String.leb b c = true -> String.leb a c = true.
Proof.
  revert b c. induction a as [|x a IH]; intros [|y b] [|z c];
    unfold String.leb; simpl; try (intros; reflexivity || discriminate).
  unfold Ascii.compare.
  destruct (N.compare_spec (N_of_ascii x) (N_of_ascii y)) as [Exy|Lxy|Gxy];
    destruct (N.compare_spec (N_of_ascii y) (N_of_ascii z)) as [Eyz|Lyz|Gyz];
    destruct (N.compare_spec (N_of_ascii x) (N_of_ascii z)) as [Exz|Lxz|Gxz];
    try (intros; reflexivity || discriminate); try lia.
  apply IH.
Qed.

Lemma string_ltb_leb (a b : string) :
  String.ltb a b = false <-> String.leb b a = true.
Proof.
  unfold String.ltb, String.leb. rewrite (String.compare_antisym b a).
  destruct (String.compare a b); simpl; split; congruence.
Qed.

Lemma string_ltb_implies_leb (a b : string) :
  String.ltb a b = true -> String.leb a b = true.
Proof.
  unfold String.ltb, String.leb. destruct (String.compare a b); congruence.
Qed.

Lemma string_ltb_irrefl (a : string) : String.ltb a a = false.
Proof.
  apply string_ltb_leb. destruct (String.leb_total a a); auto.
Qed.

Section Sorting.
Context {A : Type}.

Lemma insert_by_key_perm (x : string * A) (l : list (string * A)) :
  Permutation (insert_by_key x l) (x :: l).
Proof.
  induction l as [|y l IH]; simpl; [reflexivity|].
  destruct (String.ltb (fst y) (fst x)); [|reflexivity].
  rewrite IH. apply perm_swap.
Qed.

Lemma sorted_by_key_perm (l : list (string * A)) :
  Permutation (sorted_by_key l) l.
Proof.
  induction l as [|x l IH]; simpl; [reflexivity|].
  now rewrite insert_by_key_perm, IH.
Qed.

Lemma insert_by_key_sorted (x : string * A) (l : list (string * A)) :
  StronglySorted (fun x y : string * A => String.leb (fst x) (fst y) = true) l ->
  StronglySorted (fun x y : string * A => String.leb (fst x) (fst y) = true)
    (insert_by_key x l).
Proof.
  induction l as [|y l IH]; intros Hs; simpl.
  - constructor; constructor.
  - destruct (String.ltb (fst y) (fst x)) eqn:Hlt.
    + inversion Hs as [|? ? Hl Hy]; subst. constructor; [now apply IH|].
      apply Forall_forall. intros z Hz.
      apply list_elem_of_In in Hz.
      apply (Permutation_in _ (insert_by_key_perm x l)) in Hz.
      destruct Hz as [<-|Hz]; [now apply string_ltb_implies_leb|].
      rewrite Forall_forall in Hy. apply Hy. now apply list_elem_of_In.
    + apply string_ltb_leb in Hlt. constructor; [exact Hs|].
      inversion Hs as [|? ? Hl Hy]; subst.
      constructor; [exact Hlt|].
      apply Forall_forall. intros z Hz. rewrite Forall_forall in Hy.
      eapply string_leb_trans; [exact Hlt|]. now apply Hy.
Qed.

Lemma sorted_by_key_sorted (l : list (string * A)) :
  StronglySorted (fun x y : string * A => String.leb (fst x) (fst y) = true)
    (sorted_by_key l).
Proof.
  induction l as [|x l IH]; simpl; [constructor|].
  now apply insert_by_key_sorted.
Qed.

(** The sort is stable: the items with a given key come out in the order
    they went in. *)
Lemma insert_by_key_filter (k : string) (x : string * A) (l : list (string * A)) :
  List.filter (fun y => String.eqb (fst y) k) (insert_by_key x l) =
  List.filter (fun y => String.eqb (fst y) k) (x :: l).
Proof.
  induction l as [|y l IH]; [reflexivity|].
  cbn [insert_by_key].
  destruct (String.ltb (fst y) (fst x)) eqn:Hlt; [|reflexivity].
  cbn [List.filter] in *. rewrite IH.
  destruct (String.eqb_spec (fst x) k) as [Ex|Ex]; [|reflexivity].
  destruct (String.eqb_spec (fst y) k) as [Ey|Ey]; [|reflexivity].
  rewrite Ex, Ey, string_ltb_irrefl in Hlt. discriminate.
Qed.

Lemma sorted_by_key_stable (k : string) (l : list (string * A)) :
  List.filter (fun y => String.eqb (fst y) k) (sorted_by_key l) =
  List.filter (fun y => String.eqb (fst y) k) l.
Proof.
  induction l as [|x l IH]; [reflexivity|].
  cbn [sorted_by_key List.fold_right].
  rewrite insert_by_key_filter. cbn [List.filter].
  fold (sorted_by_key l). now rewrite IH.
Qed.

End Sorting.

(** ** The store in insertion order *)

Lemma dict_set_nodup {V : Type} (k : string) (v : V) (d : list (string * V)) :
  NoDup (map fst d) -> NoDup (map fst (PyDict.set k v d)).
Proof.
  induction d as [|[k' v'] d IH]; intros Hnd; simpl.
  - apply NoDup_singleton.
  - simpl in Hnd. apply NoDup_cons in Hnd. destruct Hnd as [Hk' Hnd].
    destruct (String.eqb_spec k k') as [->|Hne]; simpl.
    + now apply NoDup_cons.
    + apply NoDup_cons. split; [|auto].
      intros Hin. apply Hk'.
      apply list_elem_of_In in Hin. apply list_elem_of_In.
      apply in_map_iff in Hin. destruct Hin as ([k0 v0] & <- & Hin).
      simpl. change k0 with (fst (k0, v0)) at 1.
      assert (Hg : PyDict.get k0 (PyDict.set k v d) <> None).
      { assert (Hnd' : NoDup (map fst (PyDict.set k v d))) by auto.
        now rewrite (dict_get_nodup _ _ _ Hnd' Hin). }
      destruct (decide (k = k0)) as [<-|Hne0]; [contradiction|].
      rewrite dict_get_set_other in Hg by exact Hne0.
      destruct (PyDict.get k0 d) as [v1|] eqn:Hg1; [|contradiction].
      apply dict_get_In in Hg1. apply in_map_iff. now exists (k0, v1).
Qed.

Section InOrderProperties.
Context `{Environment}.

Lemma merge_in_order_cons (w : world) (entry : path * string)
    (scanned : list (path * string)) (plugins : list (string * PluginConfig.t)) :
  merge_in_order w (entry :: scanned) plugins =
  merge_in_order w scanned
    match found_config w (fst entry) (snd entry) with
    | Some config => PyDict.set (PluginConfig.name config) config plugins
    | None => plugins
    end.
Proof. reflexivity. Qed.

(** The store in insertion order holds what the store as a map holds. *)
Lemma merge_in_order_agrees (w : world) (scanned : list (path * string)) :
  forall (plugins : list (string * PluginConfig.t))
         (stored : gmap string PluginConfig.t),
  NoDup (map fst plugins) ->
  (forall n, PyDict.get n plugins = stored !! n) ->
  NoDup (map fst (merge_in_order w scanned plugins)) /\
  forall n, PyDict.get n (merge_in_order w scanned plugins)
            = merge_scanned w scanned stored !! n.
Proof.
  induction scanned as [|entry scanned IH]; intros plugins stored Hnd Hsame;
    [split; assumption|].
  rewrite merge_in_order_cons, merge_scanned_cons.
  destruct (found_config w (fst entry) (snd entry)) as [config|]; [|now apply IH].
  apply IH; [now apply dict_set_nodup|].
  intros n. destruct (decide (PluginConfig.name config = n)) as [<-|Hne].
  - now rewrite dict_get_set_same, lookup_insert_eq.
  - rewrite dict_get_set_other by exact Hne.
    now rewrite lookup_insert_ne by exact Hne.
Qed.

Lemma plugins_in_order_agree (w : world) :
  NoDup (map fst (plugins_in_order w)) /\
  forall n, PyDict.get n (plugins_in_order w) = loaded_plugins w !! n.
Proof.
  apply merge_in_order_agrees; [apply NoDup_nil_2|].
  intros n. now rewrite lookup_empty.
Qed.

Lemma in_order_scan_item_computes (base_dir : path) (item : string)
    (self : PluginLoaderInOrder.t) (w : world) :
  PluginLoaderInOrder.scan_item base_dir item self w =
  (Returns
     match found_config w base_dir item with
     | Some config =>
         {| PluginLoaderInOrder._plugins :=
              PyDict.set (PluginConfig.name config) config
                (PluginLoaderInOrder._plugins self);
            PluginLoaderInOrder._loaded := PluginLoaderInOrder._loaded self |}
     | None => self
     end, w).
Proof.
  unfold PluginLoaderInOrder.scan_item, found_config. run_calls.
  pose proof (reads_only_load_plugin_config
                (Os.join (Os.join base_dir item) "config.json")
                (Os.join base_dir item) w) as Hr.
  destruct (FS.lookup (Os.join base_dir item) w) as [[s|es]|]; run_calls; auto.
  destruct (FS.lookup (Os.join (Os.join base_dir item) "config.json") w);
    run_calls; auto.
  destruct (PluginLoader._load_plugin_config _ _ w) as [[[c|]|e] w'];
    simpl in Hr; subst w'; run_calls; auto.
  now rewrite every_exception_is_caught.
Qed.

Lemma in_order_scan_items_computes (base_dir : path) (items : list string) :
  forall (self : PluginLoaderInOrder.t) (w : world),
  PluginLoaderInOrder.scan_items base_dir items self w =
  (Returns
     {| PluginLoaderInOrder._plugins :=
          merge_in_order w (map (pair base_dir) items)
            (PluginLoaderInOrder._plugins self);
        PluginLoaderInOrder._loaded := PluginLoaderInOrder._loaded self |}, w).
Proof.
  induction items as [|item items IH]; intros self w.
  - unfold ret. now destruct self.
  - cbn [PluginLoaderInOrder.scan_items map].
    unfold bind. rewrite in_order_scan_item_computes, IH, merge_in_order_cons.
    cbn [fst snd].
    now destruct (found_config w base_dir item).
Qed.

Lemma in_order_scan_directory_computes (self : PluginLoaderInOrder.t)
    (base_dir : path) (w : world) :
  PluginLoaderInOrder._scan_plugin_directory self base_dir w =
  (Returns
     {| PluginLoaderInOrder._plugins :=
          merge_in_order w (root_items w base_dir)
            (PluginLoaderInOrder._plugins self);
        PluginLoaderInOrder._loaded := PluginLoaderInOrder._loaded self |}, w).
Proof.
  unfold PluginLoaderInOrder._scan_plugin_directory, root_items. run_calls.
  destruct (FS.lookup base_dir w) as [[s|es]|]; run_calls;
    try (now destruct self).
  now rewrite in_order_scan_items_computes.
Qed.

Lemma merge_in_order_app (w : world) (scanned1 scanned2 : list (path * string))
    (plugins : list (string * PluginConfig.t)) :
  merge_in_order w (scanned1 ++ scanned2) plugins =
  merge_in_order w scanned2 (merge_in_order w scanned1 plugins).
Proof. unfold merge_in_order. apply fold_left_app. Qed.

Lemma in_order_load_all_computes (w : world) :
  PluginLoaderInOrder.load_all PluginLoaderInOrder.init w =
  (Returns (plugins_in_order w,
            {| PluginLoaderInOrder._plugins := plugins_in_order w;
               PluginLoaderInOrder._loaded := true |}), w).
Proof.
  unfold PluginLoaderInOrder.load_all, plugins_in_order, scan_order,
    PluginLoader.get_plugin_directories.
  cbn [PluginLoaderInOrder._loaded PluginLoaderInOrder.init].
  rewrite merge_in_order_app. run_calls.
  unfold root_items at 1 2 3 4.
  destruct (FS.lookup PluginLoader.EXTENSION_PLUGIN_PATH w) as [[s|es]|] eqn:He;
    destruct (FS.lookup PluginLoader.USER_PLUGIN_PATH w) as [[s'|es']|] eqn:Hu;
    simpl; run_calls;
    rewrite ?in_order_scan_directory_computes; run_calls;
    rewrite ?in_order_scan_directory_computes; run_calls;
    unfold root_items; rewrite ?He, ?Hu; reflexivity.
Qed.

(** The keys of the records, when every display name is a string; the
    first record whose display name is not one makes the call raise. *)
Lemma with_keys_computes (l : list PluginConfig.t) (w : world) :
  match PluginLoaderInOrder.with_keys l w with
  | (Returns keyed, w') =>
      w' = w /\ keyed = map (fun p => (display_key p, p)) l /\
      forall p, In p l -> exists s, PluginConfig.display_name p = JStr s
  | (Raises e, w') =>
      w' = w /\ exn_class e = AttributeError /\
      exists p, In p l /\ forall s, PluginConfig.display_name p <> JStr s
  end.
Proof.
  induction l as [|p l IH]; [simpl; split_all; auto; intros ? []|].
  cbn [PluginLoaderInOrder.with_keys]. unfold bind at 1.
  unfold PluginLoaderInOrder.sort_key.
  destruct (PluginConfig.display_name p) as [| | | |s| |] eqn:Hd;
    try (cbn; split_all; auto; exists p; split; [now left|congruence]).
  unfold ret at 1. unfold bind.
  destruct (PluginLoaderInOrder.with_keys l w) as [[keyed|e] w'].
  - destruct IH as (-> & -> & Hall). unfold ret. split_all; auto.
    + cbn [map]. unfold display_key at 2. now rewrite Hd.
    + intros q [<-|Hq]; eauto.
  - destruct IH as (-> & Hc & q & Hq & Hbad). split_all; auto.
    exists q. split; auto. now right.
Qed.

(** X18.  [get_sorted_plugins], on a loader that has not loaded.  The
    records of the store in insertion order are those of the map
    [get_all_plugins] returns.  When the display name of each is a string,
    the call returns them all, each once, ordered by their display names
    in lower case, records with the same key staying in insertion order.
    When the display name of one is not a string, the call raises
    [AttributeError]. *)
Theorem get_sorted_plugins_spec (w : world) :
  let stored := map snd (plugins_in_order w) in
  let loader := {| PluginLoaderInOrder._plugins := plugins_in_order w;
                   PluginLoaderInOrder._loaded := true |} in
  (forall p, In p stored <-> exists n, loaded_plugins w !! n = Some p) /\
  ((forall p, In p stored -> exists s, PluginConfig.display_name p = JStr s) ->
   exists listed,
     PluginLoaderInOrder.get_sorted_plugins PluginLoaderInOrder.init w
       = (Returns (listed, loader), w) /\
     Permutation listed stored /\
     StronglySorted
       (fun p q => String.leb (display_key p) (display_key q) = true) listed /\
     forall k,
       List.filter (fun p => String.eqb (display_key p) k) listed =
       List.filter (fun p => String.eqb (display_key p) k) stored) /\
  ((exists p, In p stored /\ forall s, PluginConfig.display_name p <> JStr s) ->
   exists e,
     PluginLoaderInOrder.get_sorted_plugins PluginLoaderInOrder.init w
       = (Raises e, w) /\
     exn_class e = AttributeError).
Proof.
  cbv zeta. destruct (plugins_in_order_agree w) as [Hnd Hsame].
  pose proof (with_keys_computes (map snd (plugins_in_order w)) w) as Hkeys.
  split_all.
  - intros p. split.
    + intros Hin. apply in_map_iff in Hin. destruct Hin as ([n c] & <- & Hin).
      exists n. rewrite <- Hsame. now apply dict_get_nodup.
    + intros [n Hn]. rewrite <- Hsame in Hn. apply dict_get_In in Hn.
      apply in_map_iff. now exists (n, p).
  - intros Hstr.
    unfold PluginLoaderInOrder.get_sorted_plugins. unfold bind at 1.
    rewrite in_order_load_all_computes. cbn [snd PluginLoaderInOrder._plugins].
    unfold bind.
    destruct (PluginLoaderInOrder.with_keys (map snd (plugins_in_order w)) w)
      as [[keyed|e] w'].
    2: { destruct Hkeys as (_ & _ & p & Hp & Hbad).
         destruct (Hstr p Hp) as [s Hs]. now destruct (Hbad s). }
    destruct Hkeys as (-> & -> & _). eexists. split; [reflexivity|].
    set (keyed := map (fun p => (display_key p, p)) (map snd (plugins_in_order w))).
    assert (Hsnd : map snd keyed = map snd (plugins_in_order w)).
    { unfold keyed. rewrite map_map. simpl. apply map_id. }
    assert (Hfst : forall l : list (string * PluginConfig.t),
              (forall x, In x l -> fst x = display_key (snd x)) ->
              forall k,
                List.filter (fun p => String.eqb (display_key p) k) (map snd l)
                = map snd (List.filter (fun y => String.eqb (fst y) k) l)).
    { induction l as [|x l IHl]; intros Hl k; [reflexivity|].
      cbn [map List.filter]. rewrite <- (Hl x) by now left.
      rewrite IHl by (intros; apply Hl; now right).
      now destruct (String.eqb (fst x) k). }
    assert (Hkeyed : forall x, In x keyed -> fst x = display_key (snd x)).
    { intros x Hx. unfold keyed in Hx. apply in_map_iff in Hx.
      now destruct Hx as (p & <- & _). }
    assert (Hsorted_keyed : forall x, In x (sorted_by_key keyed) ->
                                      fst x = display_key (snd x)).
    { intros x Hx. apply Hkeyed.
      eapply Permutation_in; [apply sorted_by_key_perm|exact Hx]. }
    split_all.
    + rewrite <- Hsnd. apply Permutation_map, sorted_by_key_perm.
    + pose proof (sorted_by_key_sorted keyed) as Hs.
      revert Hs Hsorted_keyed. generalize (sorted_by_key keyed) as l.
      induction l as [|x l IHl]; intros Hs Hk; [constructor|].
      inversion Hs as [|? ? Hl Hx]; subst. cbn [map]. constructor.
      * apply IHl; auto. intros; apply Hk; now right.
      * apply Forall_forall. intros q Hq. apply list_elem_of_In in Hq.
        apply in_map_iff in Hq. destruct Hq as (y & <- & Hy).
        rewrite <- (Hk x) by now left. rewrite <- (Hk y) by now right.
        rewrite Forall_forall in Hx. apply Hx. now apply list_elem_of_In.
    + intros k. rewrite (Hfst _ Hsorted_keyed), sorted_by_key_stable.
      rewrite <- (Hfst _ Hkeyed). now rewrite Hsnd.
  - intros (p & Hp & Hbad).
    unfold PluginLoaderInOrder.get_sorted_plugins. unfold bind at 1.
    rewrite in_order_load_all_computes. cbn [snd PluginLoaderInOrder._plugins].
    unfold bind.
    destruct (PluginLoaderInOrder.with_keys (map snd (plugins_in_order w)) w)
      as [[keyed|e] w'].
    + destruct Hkeys as (_ & _ & Hall). destruct (Hall p Hp) as [s Hs].
      now destruct (Hbad s).
    + destruct Hkeys as (-> & Hc & _). eauto.
Qed.

End InOrderProperties.

(** * The statements on concrete inputs *)

#[local] Existing Instance demo_env.

Example title_of_hyphenated :
  PyStr.title (PyStr.replace "-" " " "vs-code") = "Vs Code".
Proof. reflexivity. Qed.

Example label_of_camel_case :
  PluginLoader._generate_flag_label "browserSessionRestore"
  = "Browser Session Restore".
Proof. reflexivity. Qed.

Example replace_takes_every_occurrence :
  PyStr.replace "launchFlags." "" "launchFlags.launchFlags.x" = "x".
Proof. reflexivity. Qed.

Example split_keeps_empty_segments : PyStr.split "." "a..b" = ["a"; ""; "b"].
Proof. reflexivity. Qed.

Example true_equals_one : Json.py_eq (JBool true) (JInt 1) = true.
Proof. reflexivity. Qed.

Example json_key_check_on_settings :
  let settings := ["home"; "user"; ".config"; "app"; "settings.json"] in
  let missing := ["home"; "user"; ".config"; "app"; "absent.json"] in
  check {| JsonKeyCheckHandler.path_ := settings;
           JsonKeyCheckHandler.key := "a.b";
           JsonKeyCheckHandler.value := JInt 1 |} demo_world
    = (Returns true, demo_world) /\
  check {| JsonKeyCheckHandler.path_ := settings;
           JsonKeyCheckHandler.key := "a.b";
           JsonKeyCheckHandler.value := JInt 2 |} demo_world
    = (Returns false, demo_world) /\
  check {| JsonKeyCheckHandler.path_ := missing;
           JsonKeyCheckHandler.key := "a.b";
           JsonKeyCheckHandler.value := JInt 1 |} demo_world
    = (Returns false, demo_world).
Proof. cbv zeta. split_all; reflexivity. Qed.

Example command_check_on_demo_programs :
  CheckHandler.execute {| CommandCheckHandler.cmd := JList [JStr "true"] |} demo_world
    = (Returns (true, None), demo_world) /\
  CheckHandler.execute {| CommandCheckHandler.cmd := JList [JStr "false"] |} demo_world
    = (Returns (false, None), demo_world) /\
  CheckHandler.execute
    {| CommandCheckHandler.cmd := JList [JStr "sleep"; JStr "60"] |} demo_world
    = (Returns (false, None), demo_world) /\
  CheckHandler.execute {| CommandCheckHandler.cmd := JList [JStr "nowhere"] |} demo_world
    = (Returns (false, None), demo_world).
Proof. split_all; reflexivity. Qed.

Lemma demo_x_system_valid :
  valid_descriptor demo_world demo_extension_root "x" demo_x_system.
Proof. unfold valid_descriptor. split_all; vm_compute; reflexivity. Qed.

Lemma demo_x_user_valid :
  valid_descriptor demo_world demo_user_root "x" demo_x_user.
Proof. unfold valid_descriptor. split_all; vm_compute; reflexivity. Qed.


Lemma demo_my_app_valid :
  valid_descriptor demo_world demo_extension_root "my-app" demo_my_app.
Proof. unfold valid_descriptor. split_all; vm_compute; reflexivity. Qed.


(** C3 on the example: [launchFlags.fooBar] with no explicit setting. *)
Lemma launch_flag_setting_synthesized_witness :
  exists setting,
    PluginConfig.settings demo_my_app !! "fooBar" = Some setting /\
    PluginSetting.key setting = "fooBar" /\
    PluginSetting.type setting = JStr "launch_flag" /\
    PluginSetting.label setting = JStr "Foo Bar".
Proof.
  refine (launch_flag_setting_synthesized
           (demo_extension_root ++ ["my-app"; "config.json"])
           (demo_extension_root ++ ["my-app"])
           demo_world demo_my_app "doc:my-app"
           [ ("name", JStr "my-app");
             ("launch",
              JDict [("conditionalFlags",
                      JDict [("launchFlags.fooBar", JList [JStr "--x"])])]) ]
           [ ("conditionalFlags",
              JDict [("launchFlags.fooBar", JList [JStr "--x"])]) ]
           [ ("launchFlags.fooBar", JList [JStr "--x"]) ]
           [] ∅ "launchFlags.fooBar" (JList [JStr "--x"])
           _ _ (proj2 (proj2 demo_my_app_valid)) _ _ _ _ _ _);
    try reflexivity.
  now left.
Defined.




Lemma demo_single_profile :
  single_profile demo_world demo_profile_root "abc.default" None.
Proof.
  exists [ ("profiles.ini", File "[Profile0]"); ("abc.default", Dir []) ], [].
  split_all; reflexivity.
Qed.

(** C8 (as amended) on the example. *)
Lemma firefox_append_round_trip_witness :
  let configurer :=
    {| FirefoxConfigureHandler.pref_line := "user_pref(restore, 3);";
       FirefoxConfigureHandler.check_pattern := "restore";
       FirefoxConfigureHandler.profile_dir := demo_profile_root |} in
  exists w1,
    configure configurer demo_world = (Returns true, w1) /\
    check {| FirefoxProfileCheckHandler.pattern := "restore";
             FirefoxProfileCheckHandler.profile_dir := demo_profile_root |} w1
      = (Returns true, w1) /\
    configure configurer w1 = (Returns true, w1).
Proof.
  destruct (firefox_append_round_trip "user_pref(restore, 3);" "restore"
              "user_pref(restore, 3);"
              demo_profile_root "abc.default" None demo_world)
    as (w1 & Hrun & _ & Hcheck & Hagain);
    [reflexivity | reflexivity | exact demo_single_profile | discriminate |].
  exists w1. auto.
Defined.

(** C8 as stated fails in two ways, each on a profile root with one
    default profile.  When the preference line does not hold the check
    pattern, the configure handler returns [True], the check for the
    pattern returns [False], and a second run appends the preference line
    again.  The same happens when the pattern, [a], carriage return, [b],
    occurs in the preference line: the read gives a line feed for the
    carriage return. *)
Lemma firefox_append_round_trip_fails :
  let configurer (pref_line P : string) :=
    {| FirefoxConfigureHandler.pref_line := pref_line;
       FirefoxConfigureHandler.check_pattern := P;
       FirefoxConfigureHandler.profile_dir := demo_profile_root |} in
  let user_js := demo_profile_root ++ ["abc.default"; "user.js"] in
  let written_twice (pref_line P : string) :=
    exists w1 w2,
      configure (configurer pref_line P) demo_world = (Returns true, w1) /\
      check {| FirefoxProfileCheckHandler.pattern := P;
               FirefoxProfileCheckHandler.profile_dir := demo_profile_root |} w1
        = (Returns false, w1) /\
      configure (configurer pref_line P) w1 = (Returns true, w2) /\
      FS.lookup user_js w1
        = Some (File (FirefoxConfigureHandler.appended (configurer pref_line P))) /\
      FS.lookup user_js w2
        = Some (File (FirefoxConfigureHandler.appended (configurer pref_line P)
                      +:+ FirefoxConfigureHandler.appended (configurer pref_line P))) in
  single_profile demo_world demo_profile_root "abc.default" None /\
  written_twice "foo" "bar" /\
  PyStr.contains demo_cr_text ("x" +:+ demo_cr_text +:+ "y") = true /\
  written_twice ("x" +:+ demo_cr_text +:+ "y") demo_cr_text.
Proof.
  cbv zeta. split; [exact demo_single_profile|].
  split_all.
  - set (configurer :=
           {| FirefoxConfigureHandler.pref_line := "foo";
              FirefoxConfigureHandler.check_pattern := "bar";
              FirefoxConfigureHandler.profile_dir := demo_profile_root |}).
    exists (snd (configure configurer demo_world)),
           (snd (configure configurer (snd (configure configurer demo_world)))).
    split_all; vm_compute; reflexivity.
  - reflexivity.
  - set (configurer :=
           {| FirefoxConfigureHandler.pref_line := "x" +:+ demo_cr_text +:+ "y";
              FirefoxConfigureHandler.check_pattern := demo_cr_text;
              FirefoxConfigureHandler.profile_dir := demo_profile_root |}).
    exists (snd (configure configurer demo_world)),
           (snd (configure configurer (snd (configure configurer demo_world)))).
    split_all; vm_compute; reflexivity.
Qed.

(** C9 (as amended) on the example: the user root's [x] is scanned last. *)
Lemma display_name_of_winning_descriptor_witness :
  exists loader,
    PluginLoader.get_plugin PluginLoader.init "x" demo_world
      = (Returns (Some demo_x_user, loader), demo_world) /\
    PluginConfig.name demo_x_user = "x" /\
    PluginConfig.display_name demo_x_user = JStr "User X".
Proof.
  refine (display_name_of_winning_descriptor demo_world demo_user_root "x"
           [ (demo_extension_root, "x"); (demo_extension_root, "broken");
             (demo_extension_root, "my-app") ]
           [] "doc:x-user"
           [("name", JStr "x"); ("displayName", JStr "User X")] "x" demo_x_user
           _ _ _ _ demo_x_user_valid
           (fun b i c (Hin : In (b, i) []) => match Hin with end));
    reflexivity.
Defined.

(** C9 as stated fails for a descriptor that a later one overrides: the
    descriptor of [x] in the extension root has the non-empty name [x] and
    the explicit display name [System X], it loads to a record, and yet
    querying [x] after the load returns a record whose display name is
    [User X]. *)
Lemma overridden_descriptor_display_name :
  FS.lookup (demo_extension_root ++ ["x"; "config.json"]) demo_world
    = Some (File "doc:x-system") /\
  json_loads "doc:x-system"
    = Some (JDict [("name", JStr "x"); ("displayName", JStr "System X")]) /\
  valid_descriptor demo_world demo_extension_root "x" demo_x_system /\
  exists record loader,
    PluginLoader.get_plugin PluginLoader.init "x" demo_world
      = (Returns (Some record, loader), demo_world) /\
    PluginConfig.display_name record = JStr "User X" /\
    PluginConfig.display_name record <> JStr "System X".
Proof.
  split; [reflexivity|]. split; [reflexivity|].
  split; [exact demo_x_system_valid|].
  eexists. eexists. split; [vm_compute; reflexivity|].
  split; [reflexivity|discriminate].
Qed.

(** C4 as stated fails for a file that is not JSON because its bytes are
    not UTF-8: the check does not return [False], it raises the
    [UnicodeDecodeError] of [json.load]. *)
Lemma undecodable_json_check_raises :
  let checker := {| JsonKeyCheckHandler.path_ := ["settings.json"];
                    JsonKeyCheckHandler.key := "a.b";
                    JsonKeyCheckHandler.value := JInt 1 |} in
  FS.lookup ["settings.json"] demo_undecodable_world
    = Some (File demo_undecodable) /\
  Utf8.valid demo_undecodable = false /\
  json_loads demo_undecodable = None /\
  exists e,
    exn_class e = UnicodeDecodeError /\
    check checker demo_undecodable_world = (Raises e, demo_undecodable_world) /\
    check checker demo_undecodable_world
      <> (Returns false, demo_undecodable_world).
Proof.
  cbv zeta. split_all; try reflexivity.
  exists (Exn UnicodeDecodeError "'utf-8' codec can't decode bytes").
  split_all; [reflexivity|reflexivity|discriminate].
Qed.



(** ** Further statements on concrete inputs *)

Example file_contains_check_on_profiles_ini :
  check {| FileContainsCheckHandler.path_ := demo_profile_root ++ ["profiles.ini"];
           FileContainsCheckHandler.pattern := "Profile0" |} demo_world
    = (Returns true, demo_world) /\
  check {| FileContainsCheckHandler.path_ := demo_profile_root;
           FileContainsCheckHandler.pattern := "Profile0" |} demo_world
    = (Returns false, demo_world).
Proof. split; reflexivity. Qed.

Example sorted_plugins_of_the_example :
  exists loader,
    PluginLoaderInOrder.get_sorted_plugins PluginLoaderInOrder.init demo_world
      = (Returns ([demo_my_app; demo_x_user], loader), demo_world).
Proof. eexists. vm_compute. reflexivity. Qed.

Example flag_key_letters :
  letters "browserSessionRestore" = "browsersessionrestore" /\
  letters "Browser Session Restore" = "browsersessionrestore".
Proof. split; reflexivity. Qed.

(** X1 on examples: a carriage return in the file is read as a line feed,
    and a file whose bytes do not decode makes the check raise. *)
Example file_contains_check_reads_text :
  let w := [("notes.txt", File demo_cr_text)] in
  check {| FileContainsCheckHandler.path_ := ["notes.txt"];
           FileContainsCheckHandler.pattern := demo_cr_text |} w
    = (Returns false, w) /\
  check {| FileContainsCheckHandler.path_ := ["notes.txt"];
           FileContainsCheckHandler.pattern := "a" +:+ PyStr.nl +:+ "b" |} w
    = (Returns true, w) /\
  exists e,
    check {| FileContainsCheckHandler.path_ := ["notes.txt"];
             FileContainsCheckHandler.pattern := "a" |} demo_undecodable_world
      = (Raises e, demo_undecodable_world) /\
    exn_class e = UnicodeDecodeError.
Proof.
  cbv zeta. split_all; try reflexivity.
  eexists. split; reflexivity.
Qed.


(** X4 on the example: the key [a.b] of [broken.json] is set to a string
    and the check for it then holds. *)
Lemma json_set_then_check_witness :
  let target := ["home"; "user"; ".config"; "app"; "broken.json"] in
  let setter := {| JsonSetConfigureHandler.path_ := target;
                   JsonSetConfigureHandler.key := "a.b";
                   JsonSetConfigureHandler.value := JStr "v" |} in
  check {| JsonKeyCheckHandler.path_ := target;
           JsonKeyCheckHandler.key := "a.b";
           JsonKeyCheckHandler.value := JStr "v" |}
    (snd (configure setter demo_world))
  = (Returns true, snd (configure setter demo_world)).
Proof.
  cbv zeta.
  refine (proj2 (json_set_then_check
                   {| JsonSetConfigureHandler.path_ :=
                        ["home"; "user"; ".config"; "app"; "broken.json"];
                      JsonSetConfigureHandler.key := "a.b";
                      JsonSetConfigureHandler.value := JStr "v" |}
                   demo_world _ _ _) _).
  - vm_compute. reflexivity.
  - intros written Hset. vm_compute in Hset. injection Hset as <-. reflexivity.
  - reflexivity.
Defined.

(** X5 on the example: setting [a.b] in [settings.json] does not change
    what the check for [a.c] answers. *)
Lemma json_set_keeps_other_keys_witness :
  let target := ["home"; "user"; ".config"; "app"; "settings.json"] in
  let setter := {| JsonSetConfigureHandler.path_ := target;
                   JsonSetConfigureHandler.key := "a.b";
                   JsonSetConfigureHandler.value := JStr "v" |} in
  let checker := {| JsonKeyCheckHandler.path_ := target;
                    JsonKeyCheckHandler.key := "a.c";
                    JsonKeyCheckHandler.value := JInt 1 |} in
  fst (check checker (snd (configure setter demo_world)))
  = fst (check checker demo_world).
Proof.
  cbv zeta.
  refine (json_set_keeps_other_keys
            {| JsonSetConfigureHandler.path_ :=
                 ["home"; "user"; ".config"; "app"; "settings.json"];
               JsonSetConfigureHandler.key := "a.b";
               JsonSetConfigureHandler.value := JStr "v" |}
            demo_world _ "a.c" (JInt 1) _ _ _).
  - vm_compute. reflexivity.
  - intros written Hset. vm_compute in Hset. injection Hset as <-. reflexivity.
  - reflexivity.
Defined.


(** X14 on the example: the record stored under [x]. *)
Lemma stored_records_are_scanned_descriptors_witness :
  PluginConfig.name demo_x_user = "x" /\
  exists base_dir item,
    In (base_dir, item) (scan_order demo_world) /\
    valid_descriptor demo_world base_dir item demo_x_user /\
    PluginConfig.plugin_path demo_x_user = Os.join base_dir item.
Proof.
  destruct (stored_records_are_scanned_descriptors demo_world "x" demo_x_user)
    as (Hname & _ & _ & _ & base_dir & item & Hin & _ & Hvalid & Hpath).
  - vm_compute. reflexivity.
  - split; [exact Hname|]. exists base_dir, item. auto.
Defined.

(** X15 on an example: a descriptor that is JSON but gives no name. *)
Lemma ill_shaped_descriptor_is_skipped_witness :
  let w := [("plugins",
             Dir [("nameless", Dir [("config.json", File "doc:a.b=1")])])] in
  found_config w ["plugins"] "nameless" = None /\
  PluginLoader.scan_item ["plugins"] "nameless" PluginLoader.init w
    = (Returns PluginLoader.init, w).
Proof.
  refine (ill_shaped_descriptor_is_skipped
            [("plugins",
              Dir [("nameless", Dir [("config.json", File "doc:a.b=1")])])]
            ["plugins"] "nameless" "doc:a.b=1"
            (JDict [("a", JDict [("b", JInt 1)])]) PluginLoader.init _ _ _);
    reflexivity.
Defined.

(** X16 on an example: a file system without the home directory. *)
Lemma no_plugin_root_no_plugins_witness :
  PluginLoader.get_plugin_directories [] = (Returns [], []) /\
  PluginLoader.get_all_plugins PluginLoader.init []
    = (Returns (∅, {| PluginLoader._plugins := ∅;
                      PluginLoader._loaded := true |}), []) /\
  PluginLoader.get_plugin PluginLoader.init "x" []
    = (Returns (None, {| PluginLoader._plugins := ∅;
                         PluginLoader._loaded := true |}), []).
Proof.
  refine (no_plugin_root_no_plugins [] "x" _ _); intros es; discriminate.
Defined.

(** X19 on the example: [my-app] has no settings block and one
    conditional flag. *)
Lemma has_settings_of_descriptor_witness :
  PluginLoader.has_settings demo_my_app = true.
Proof.
  refine (has_settings_of_descriptor
            [ ("name", JStr "my-app");
              ("launch",
               JDict [("conditionalFlags",
                       JDict [("launchFlags.fooBar", JList [JStr "--x"])])]) ]
            [ ("conditionalFlags",
               JDict [("launchFlags.fooBar", JList [JStr "--x"])]) ]
            [ ("launchFlags.fooBar", JList [JStr "--x"]) ]
            [] (demo_extension_root ++ ["my-app"]) demo_world demo_world
            demo_my_app _ _ _ _);
    reflexivity.
Defined.

(** X21 on the example: [a.b] of [settings.json] is set a second time. *)
Lemma json_set_twice_witness :
  let setter :=
    {| JsonSetConfigureHandler.path_ :=
         ["home"; "user"; ".config"; "app"; "settings.json"];
       JsonSetConfigureHandler.key := "a.b";
       JsonSetConfigureHandler.value := JStr "v" |} in
  let w' := snd (configure setter demo_world) in
  configure setter w' = (Returns true, w').
Proof.
  cbv zeta.
  refine (proj1 (json_set_twice
                   {| JsonSetConfigureHandler.path_ :=
                        ["home"; "user"; ".config"; "app"; "settings.json"];
                      JsonSetConfigureHandler.key := "a.b";
                      JsonSetConfigureHandler.value := JStr "v" |}
                   demo_world _ _ _)).
  - vm_compute. reflexivity.
  - intros written Hset. vm_compute in Hset. injection Hset as <-. reflexivity.
Defined.
